(** * SaarthiAI: the recommendation pipeline, embedded and verified

    A shallow embedding of the scoring and ranking core of the
    [saarthi_ai] package (models, knowledge base, profile analyzer,
    blindspot identifier, opportunity matcher, explanation generator and
    application controller), followed by the properties proved about it.

    Modelling conventions.
    - Python [float] scores are exact rationals ([Q]) in the embedding of
      the pipeline: every literal of the source (0.9, 0.85, 0.4, ...) is
      the decimal it denotes, [+] and [*] are exact, and comparisons are
      the rational order.  What is proved of scores there is about their
      order and their bounds.  The value of the relevance score itself
      is studied in [Binary64], where [_calculate_relevance] is embedded
      with the arithmetic of Python floats.
    - Python [str] is [string]; [lower] and [strip] act on the ASCII
      letters and ASCII white space.
    - Dataclass fields carry their declared types in the embedding of the
      pipeline: a field declared [Optional[...]] is an [option], every
      other field is present, and the [is None] tests of the source on
      such fields do not appear.  The validation of a profile that may
      lack fields is embedded separately, in [Submitted], with [None]
      and with Unicode text.
    - [list.sort(key=..., reverse=True)] is a stable sort by descending
      key; it is embedded as a stable insertion sort.
    - The module-level list [OPPORTUNITIES] is the one piece of global
      state; it lives in a [World] that the functions reading it thread
      explicitly, next to a log of the component calls the controller
      makes.  Lists are values there; [Stateful] embeds the three
      pipeline methods once more over a store of list objects, with
      [append] and [sort] acting in place. *)

From Stdlib Require Import List String Ascii ZArith QArith Qminmax Bool Lia Lqa.
From Stdlib Require Import Permutation Sorted DecimalString.
From Stdlib Require PrimFloat.
Import ListNotations.

Local Open Scope string_scope.
Local Open Scope list_scope.

(** ** Python built-ins used by the package *)

Module Py.

(** [x in xs] for a list, with the element equality test given. *)
Definition In_ {A : Type} (eqb : A -> A -> bool) (x : A) (xs : list A) : bool :=
  existsb (eqb x) xs.

(** [if c: xs.append(x)] *)
Definition append_if {A : Type} (c : bool) (x : A) (xs : list A) : list A :=
  if c then xs ++ [x] else xs.

(** [any(f(x) for x in xs)] *)
Definition any {A : Type} (f : A -> bool) (xs : list A) : bool := existsb f xs.

(** Truthiness of a list: [not xs] is [negb (truthy xs)]. *)
Definition truthy {A : Type} (xs : list A) : bool :=
  match xs with [] => false | _ :: _ => true end.

(** f-string assembly: the pieces in order. *)
Definition cat (pieces : list string) : string := String.concat "" pieces.

(** [sep.join(xs)] *)
Definition join (sep : string) (xs : list string) : string := String.concat sep xs.

(** The newline character. *)
Definition nl : string := String (ascii_of_nat 10) EmptyString.

(** [str(n)] for an [int]. *)
Definition str_int (n : Z) : string := NilZero.string_of_int (Z.to_int n).

(** [str(n)] for a length. *)
Definition str_len (n : nat) : string := str_int (Z.of_nat n).

Definition lower_ascii (c : ascii) : ascii :=
  let n := nat_of_ascii c in
  if ((65 <=? n) && (n <=? 90))%nat then ascii_of_nat (n + 32) else c.

(** [s.lower()] *)
Fixpoint lower (s : string) : string :=
  match s with
  | EmptyString => EmptyString
  | String c t => String (lower_ascii c) (lower t)
  end.

(** [needle in hay] for strings. *)
Fixpoint contains (needle hay : string) : bool :=
  String.prefix needle hay ||
  match hay with
  | EmptyString => false
  | String _ t => contains needle t
  end.

Definition is_space (c : ascii) : bool :=
  let n := nat_of_ascii c in
  (((9 <=? n) && (n <=? 13)) || ((28 <=? n) && (n <=? 32)))%nat.

Fixpoint lstrip (s : string) : string :=
  match s with
  | EmptyString => EmptyString
  | String c t => if is_space c then lstrip t else s
  end.

Definition rev_string (s : string) : string :=
  string_of_list_ascii (rev (list_ascii_of_string s)).

(** [s.strip()] *)
Definition strip (s : string) : string :=
  rev_string (lstrip (rev_string (lstrip s))).

(** Truthiness of a string. *)
Definition truthy_str (s : string) : bool :=
  match s with EmptyString => false | String _ _ => true end.

(** [max(a, b)]: the first argument unless the second is strictly larger. *)
Definition max (a b : Q) : Q := if Qle_bool b a then a else b.

(** [min(a, b)]: the first argument unless the second is strictly smaller. *)
Definition min (a b : Q) : Q := if Qle_bool a b then a else b.

(** [xs.sort(key=key, reverse=True)]: stable, descending by [key]. *)
Section Sort.
Context {A : Type} (key : A -> Q).

Fixpoint insert_desc (x : A) (xs : list A) : list A :=
  match xs with
  | [] => [x]
  | y :: ys => if Qle_bool (key y) (key x) then x :: y :: ys
               else y :: insert_desc x ys
  end.

Fixpoint sort_desc (xs : list A) : list A :=
  match xs with
  | [] => []
  | x :: rest => insert_desc x (sort_desc rest)
  end.

End Sort.

(** Exceptions the package raises itself. *)
Inductive Exception : Type :=
| ValueError (message : string).

(** Outcome of a call that may raise. *)
Inductive Result (A : Type) : Type :=
| Returned (value : A)
| Raised (e : Exception).

Arguments Returned {A} value.
Arguments Raised {A} e.

End Py.

(** ** models.py *)

Module EducationLevel.
Inductive t : Type := DIPLOMA | UG | PG | PHD.
Scheme Equality for t.
Definition eqb := t_beq.
Definition value (x : t) : string :=
  match x with DIPLOMA => "Diploma" | UG => "UG" | PG => "PG" | PHD => "PhD" end.
End EducationLevel.

Module InstitutionType.
Inductive t : Type := GOVERNMENT | PRIVATE | AUTONOMOUS | OPEN.
Scheme Equality for t.
Definition eqb := t_beq.
Definition value (x : t) : string :=
  match x with
  | GOVERNMENT => "Government" | PRIVATE => "Private"
  | AUTONOMOUS => "Autonomous" | OPEN => "Open"
  end.
End InstitutionType.

Module BackgroundIndicator.
Inductive t : Type := RURAL | FIRST_GENERATION | FINANCIAL_SUPPORT | DISABLED | MINORITY.
Scheme Equality for t.
Definition eqb := t_beq.
Definition value (x : t) : string :=
  match x with
  | RURAL => "Rural" | FIRST_GENERATION => "First-generation"
  | FINANCIAL_SUPPORT => "Financial support" | DISABLED => "Disabled"
  | MINORITY => "Minority"
  end.
End BackgroundIndicator.

Module OpportunityGoal.
Inductive t : Type := SCHOLARSHIPS | INTERNSHIPS | RESEARCH | SKILLS | GOVT_EXAMS.
Scheme Equality for t.
Definition eqb := t_beq.
Definition value (x : t) : string :=
  match x with
  | SCHOLARSHIPS => "Scholarships" | INTERNSHIPS => "Internships"
  | RESEARCH => "Research" | SKILLS => "Skills" | GOVT_EXAMS => "Govt Exams"
  end.
End OpportunityGoal.

Module MissedOpportunityFrequency.
Inductive t : Type := YES_MANY_TIMES | ONCE_OR_TWICE | NO.
Scheme Equality for t.
Definition eqb := t_beq.
End MissedOpportunityFrequency.

Module MissProbability.
Inductive t : Type := HIGH | MEDIUM | LOW.
Definition value (x : t) : string :=
  match x with HIGH => "High" | MEDIUM => "Medium" | LOW => "Low" end.
End MissProbability.

Module VisibilityLevel.
Inductive t : Type := HIGH | MEDIUM | LOW.
Scheme Equality for t.
Definition eqb := t_beq.
End VisibilityLevel.

Module ImpactLevel.
Inductive t : Type := HIGH | MEDIUM | LOW.
Definition value (x : t) : string :=
  match x with HIGH => "High" | MEDIUM => "Medium" | LOW => "Low" end.
End ImpactLevel.

Module AwarenessLevel.
Inductive t : Type := LOW | MEDIUM | HIGH.
Scheme Equality for t.
Definition eqb := t_beq.
End AwarenessLevel.

Module StudentProfile.

Record t : Type := {
  name : string;
  age : Z;
  education_level : EducationLevel.t;
  degree : string;
  field_of_study : string;
  year_of_study : Z;
  institution_type : InstitutionType.t;
  background_indicators : list BackgroundIndicator.t;
  opportunity_goals : list OpportunityGoal.t;
  missed_opportunities_before : MissedOpportunityFrequency.t;
  gender : option string;
  additional_context : option string
}.

(** [not s or not s.strip()] *)
Definition blank (s : string) : bool :=
  negb (Py.truthy_str s) || negb (Py.truthy_str (Py.strip s)).

(** [StudentProfile.validate]: [(is_valid, missing_fields)]. *)
Definition validate (self : t) : bool * list string :=
  let missing_fields := [] in
  let missing_fields := Py.append_if (blank (name self)) "name" missing_fields in
  let missing_fields := Py.append_if (age self <=? 0)%Z "age" missing_fields in
  let missing_fields := Py.append_if (blank (degree self)) "degree" missing_fields in
  let missing_fields :=
    Py.append_if (blank (field_of_study self)) "field_of_study" missing_fields in
  let missing_fields :=
    Py.append_if (year_of_study self <=? 0)%Z "year_of_study" missing_fields in
  let missing_fields :=
    Py.append_if (negb (Py.truthy (opportunity_goals self)))
                 "opportunity_goals" missing_fields in
  (Nat.eqb (List.length missing_fields) 0, missing_fields).

End StudentProfile.

Module EligibilityCriteria.
Record t : Type := {
  education_levels : list EducationLevel.t;
  fields_of_study : option (list string);
  institution_types : option (list InstitutionType.t);
  background_requirements : option (list BackgroundIndicator.t);
  income_based : bool;
  merit_based : bool
}.
End EligibilityCriteria.

Module Opportunity.
Record t : Type := {
  id : string;
  name : string;
  description : string;
  eligibility_criteria : EligibilityCriteria.t;
  visibility_level : VisibilityLevel.t;
  impact_level : ImpactLevel.t;
  category : string
}.
End Opportunity.

Module Blindspot.
Record t : Type := {
  category : string;
  reason : string;
  relevance_score : Q
}.
End Blindspot.

Module OpportunityMatch.
Record t : Type := {
  opportunity : Opportunity.t;
  fit_explanation : string;
  miss_reason : string;
  miss_probability : MissProbability.t;
  relevance_score : Q
}.
End OpportunityMatch.

Module ProfileAnalysis.
Record t : Type := {
  key_characteristics : list string;
  eligibility_tags : list string;
  awareness_level : AwarenessLevel.t;
  priority_goals : list OpportunityGoal.t
}.
End ProfileAnalysis.

(** ** The process state: the knowledge base and the call log *)

(** Components the controller calls. *)
Inductive Call : Type :=
| CallValidate
| CallAnalyze
| CallProfileSummary
| CallIdentifyBlindspots
| CallMatchOpportunities
| CallFinalInsight.

(** [OPPORTUNITIES] is the module-level list of knowledge_base.py;
    [calls] records, in order, the component calls made so far. *)
Record World : Type := {
  OPPORTUNITIES : list Opportunity.t;
  calls : list Call
}.

(** A computation that may read or change the process state. *)
Definition M (A : Type) : Type := World -> A * World.

Definition ret {A : Type} (a : A) : M A := fun w => (a, w).

Definition bind {A B : Type} (m : M A) (k : A -> M B) : M B :=
  fun w => let (a, w') := m w in k a w'.

Notation "x <- m ;; k" := (bind m (fun x => k))
  (at level 61, m at next level, right associativity).
Notation "m ;;; k" := (bind m (fun _ => k))
  (at level 61, right associativity).

(** The controller is about to call component [c]. *)
Definition log (c : Call) : M unit :=
  fun w => (tt, {| OPPORTUNITIES := OPPORTUNITIES w; calls := calls w ++ [c] |}).

(** ** knowledge_base.py *)

Module KnowledgeBase.

Import EducationLevel BackgroundIndicator.

Definition central_sector_scholarship : Opportunity.t := {|
  Opportunity.id := "central-sector-scholarship";
  Opportunity.name := "Central Sector Scholarship";
  Opportunity.description :=
    "Central government scholarship for undergraduate students from families with income below threshold";
  Opportunity.eligibility_criteria := {|
    EligibilityCriteria.education_levels := [UG];
    EligibilityCriteria.fields_of_study := None;
    EligibilityCriteria.institution_types := None;
    EligibilityCriteria.background_requirements := None;
    EligibilityCriteria.income_based := true;
    EligibilityCriteria.merit_based := false |};
  Opportunity.visibility_level := VisibilityLevel.MEDIUM;
  Opportunity.impact_level := ImpactLevel.HIGH;
  Opportunity.category := "Scholarship" |}.

Definition aicte_pragati : Opportunity.t := {|
  Opportunity.id := "aicte-pragati";
  Opportunity.name := "AICTE Pragati";
  Opportunity.description := "AICTE scholarship for female engineering students";
  Opportunity.eligibility_criteria := {|
    EligibilityCriteria.education_levels := [UG];
    EligibilityCriteria.fields_of_study := Some ["Engineering"];
    EligibilityCriteria.institution_types := None;
    EligibilityCriteria.background_requirements := None;
    EligibilityCriteria.income_based := false;
    EligibilityCriteria.merit_based := false |};
  Opportunity.visibility_level := VisibilityLevel.LOW;
  Opportunity.impact_level := ImpactLevel.HIGH;
  Opportunity.category := "Scholarship" |}.

Definition aicte_saksham : Opportunity.t := {|
  Opportunity.id := "aicte-saksham";
  Opportunity.name := "AICTE Saksham";
  Opportunity.description := "AICTE scholarship for disabled engineering students";
  Opportunity.eligibility_criteria := {|
    EligibilityCriteria.education_levels := [UG];
    EligibilityCriteria.fields_of_study := Some ["Engineering"];
    EligibilityCriteria.institution_types := None;
    EligibilityCriteria.background_requirements := Some [DISABLED];
    EligibilityCriteria.income_based := false;
    EligibilityCriteria.merit_based := false |};
  Opportunity.visibility_level := VisibilityLevel.LOW;
  Opportunity.impact_level := ImpactLevel.HIGH;
  Opportunity.category := "Scholarship" |}.

Definition nptel_research_internship : Opportunity.t := {|
  Opportunity.id := "nptel-research-internship";
  Opportunity.name := "NPTEL Research Internship";
  Opportunity.description := "Research internship program for STEM students";
  Opportunity.eligibility_criteria := {|
    EligibilityCriteria.education_levels := [UG; PG];
    EligibilityCriteria.fields_of_study :=
      Some ["Engineering"; "Science"; "Mathematics"; "Computer Science"];
    EligibilityCriteria.institution_types := None;
    EligibilityCriteria.background_requirements := None;
    EligibilityCriteria.income_based := false;
    EligibilityCriteria.merit_based := false |};
  Opportunity.visibility_level := VisibilityLevel.MEDIUM;
  Opportunity.impact_level := ImpactLevel.MEDIUM;
  Opportunity.category := "Internship" |}.

Definition state_govt_merit_scholarship : Opportunity.t := {|
  Opportunity.id := "state-govt-merit-scholarship";
  Opportunity.name := "State Government Merit Scholarships";
  Opportunity.description := "Merit-based scholarships offered by state governments";
  Opportunity.eligibility_criteria := {|
    EligibilityCriteria.education_levels := [DIPLOMA; UG; PG; PHD];
    EligibilityCriteria.fields_of_study := None;
    EligibilityCriteria.institution_types := None;
    EligibilityCriteria.background_requirements := None;
    EligibilityCriteria.income_based := false;
    EligibilityCriteria.merit_based := true |};
  Opportunity.visibility_level := VisibilityLevel.LOW;
  Opportunity.impact_level := ImpactLevel.MEDIUM;
  Opportunity.category := "Scholarship" |}.

Definition moe_innovation_programs : Opportunity.t := {|
  Opportunity.id := "moe-innovation-programs";
  Opportunity.name := "Ministry of Education Innovation Programs";
  Opportunity.description :=
    "Innovation and skill development programs by Ministry of Education";
  Opportunity.eligibility_criteria := {|
    EligibilityCriteria.education_levels := [DIPLOMA; UG; PG; PHD];
    EligibilityCriteria.fields_of_study := None;
    EligibilityCriteria.institution_types := None;
    EligibilityCriteria.background_requirements := None;
    EligibilityCriteria.income_based := false;
    EligibilityCriteria.merit_based := false |};
  Opportunity.visibility_level := VisibilityLevel.LOW;
  Opportunity.impact_level := ImpactLevel.MEDIUM;
  Opportunity.category := "Program" |}.

(** The list the module is loaded with. *)
Definition initial_OPPORTUNITIES : list Opportunity.t :=
  [ central_sector_scholarship; aicte_pragati; aicte_saksham;
    nptel_research_internship; state_govt_merit_scholarship;
    moe_innovation_programs ].

(** [get_all_opportunities]: a copy of the list; the state is not changed. *)
Definition get_all_opportunities : M (list Opportunity.t) :=
  fun w => (OPPORTUNITIES w, w).

(** [get_opportunity_by_id]: the first opportunity of the list with the
    id, [None] when there is none. *)
Definition get_opportunity_by_id (opportunity_id : string) : M (option Opportunity.t) :=
  fun w =>
    (find (fun opportunity => String.eqb (Opportunity.id opportunity) opportunity_id)
          (OPPORTUNITIES w), w).

Definition get_opportunities_by_category (category : string)
  : M (list Opportunity.t) :=
  fun w =>
    (filter (fun opp => String.eqb (Opportunity.category opp) category)
            (OPPORTUNITIES w), w).

Definition get_opportunities_by_education_level (education_level : EducationLevel.t)
  : M (list Opportunity.t) :=
  fun w =>
    (filter (fun opp =>
               Py.In_ EducationLevel.eqb education_level
                 (EligibilityCriteria.education_levels
                    (Opportunity.eligibility_criteria opp)))
            (OPPORTUNITIES w), w).

End KnowledgeBase.

(** The state a freshly started process is in. *)
Definition initial_world : World :=
  {| OPPORTUNITIES := KnowledgeBase.initial_OPPORTUNITIES; calls := [] |}.

(** ** profile_analyzer.py *)

Module ProfileAnalyzer.

Import StudentProfile.

Definition _extract_characteristics (profile : StudentProfile.t) : list string :=
  let characteristics := [] in
  let characteristics := characteristics ++ [EducationLevel.value (education_level profile)] in
  let characteristics := characteristics ++ [field_of_study profile] in
  let characteristics := characteristics ++ [InstitutionType.value (institution_type profile)] in
  fold_left (fun acc indicator => acc ++ [BackgroundIndicator.value indicator])
            (background_indicators profile) characteristics.

Definition _extract_eligibility_tags (profile : StudentProfile.t) : list string :=
  fold_left (fun acc indicator => acc ++ [BackgroundIndicator.value indicator])
            (background_indicators profile) [].

Definition _map_awareness_level (missed_opportunities : MissedOpportunityFrequency.t)
  : AwarenessLevel.t :=
  if MissedOpportunityFrequency.eqb missed_opportunities
       MissedOpportunityFrequency.YES_MANY_TIMES
  then AwarenessLevel.LOW
  else if MissedOpportunityFrequency.eqb missed_opportunities
            MissedOpportunityFrequency.ONCE_OR_TWICE
  then AwarenessLevel.MEDIUM
  else AwarenessLevel.HIGH.

Definition analyze (profile : StudentProfile.t) : ProfileAnalysis.t :=
  let key_characteristics := _extract_characteristics profile in
  let eligibility_tags := _extract_eligibility_tags profile in
  let awareness_level := _map_awareness_level (missed_opportunities_before profile) in
  let priority_goals := opportunity_goals profile in
  {| ProfileAnalysis.key_characteristics := key_characteristics;
     ProfileAnalysis.eligibility_tags := eligibility_tags;
     ProfileAnalysis.awareness_level := awareness_level;
     ProfileAnalysis.priority_goals := priority_goals |}.

End ProfileAnalyzer.

(** ** blindspot_identifier.py *)

Module BlindspotIdentifier.

Import StudentProfile ProfileAnalysis.

Definition STEM_FIELDS : list string :=
  [ "Computer Science"; "Engineering"; "Mathematics"; "Physics";
    "Chemistry"; "Biology"; "Statistics"; "Data Science";
    "Information Technology"; "Electronics"; "Mechanical";
    "Civil"; "Chemical"; "Biotechnology" ].

Definition _has_financial_background (eligibility_tags : list string) : bool :=
  Py.In_ String.eqb
    (BackgroundIndicator.value BackgroundIndicator.FINANCIAL_SUPPORT) eligibility_tags.

Definition _is_stem_field (field_of_study : string) : bool :=
  let field_lower := Py.lower field_of_study in
  Py.any (fun stem => Py.contains (Py.lower stem) field_lower) STEM_FIELDS.

Definition _has_special_category (gender : option string)
  (eligibility_tags : list string) : bool :=
  if match gender with
     | Some g => Py.truthy_str g &&
                 Py.In_ String.eqb (Py.lower g) ["female"; "woman"; "f"]
     | None => false
     end
  then true
  else if Py.In_ String.eqb
            (BackgroundIndicator.value BackgroundIndicator.DISABLED) eligibility_tags
  then true
  else false.

Definition _mentions_innovation (additional_context : option string) : bool :=
  match additional_context with
  | None => false
  | Some ctx =>
    if negb (Py.truthy_str ctx) then false
    else
      let innovation_keywords :=
        ["innovation"; "innovate"; "innovative"; "startup"; "entrepreneur"] in
      let context_lower := Py.lower ctx in
      Py.any (fun keyword => Py.contains keyword context_lower) innovation_keywords
  end.

Definition has_goal (g : OpportunityGoal.t) (analysis : ProfileAnalysis.t) : bool :=
  Py.In_ OpportunityGoal.eqb g (priority_goals analysis).

Definition blindspot (category reason : string) (relevance_score : Q) : Blindspot.t :=
  {| Blindspot.category := category;
     Blindspot.reason := reason;
     Blindspot.relevance_score := relevance_score |}.

(** Rules 1 to 8, in order: each appends at most one blindspot. *)
Definition primary_rules (profile : StudentProfile.t) (analysis : ProfileAnalysis.t)
  (blindspots : list Blindspot.t) : list Blindspot.t :=
  let blindspots :=
    Py.append_if
      (_has_financial_background (eligibility_tags analysis) &&
       has_goal OpportunityGoal.SCHOLARSHIPS analysis)
      (blindspot "Income-based Central Government Scholarships"
         "Many students don't know about central government scholarships that don't require high merit"
         0.9)
      blindspots in
  let blindspots :=
    Py.append_if
      (_is_stem_field (field_of_study profile) &&
       Py.In_ EducationLevel.eqb (education_level profile)
         [EducationLevel.UG; EducationLevel.PG])
      (blindspot "Research Internships and Programs"
         "STEM students often focus on placements and miss research opportunities from national platforms"
         0.8)
      blindspots in
  let blindspots :=
    Py.append_if
      (Py.In_ InstitutionType.eqb (institution_type profile)
         [InstitutionType.GOVERNMENT; InstitutionType.AUTONOMOUS] &&
       has_goal OpportunityGoal.SCHOLARSHIPS analysis)
      (blindspot "State-level Merit Scholarships"
         "State scholarships have poor visibility compared to national programs"
         0.7)
      blindspots in
  let blindspots :=
    Py.append_if
      (_has_special_category (gender profile) (eligibility_tags analysis))
      (blindspot "Category-specific Technical Scholarships"
         "Technical scholarships for specific categories are often under-promoted in colleges"
         0.85)
      blindspots in
  let blindspots :=
    Py.append_if
      (has_goal OpportunityGoal.SKILLS analysis ||
       _mentions_innovation (additional_context profile))
      (blindspot "Government Innovation and Skill Programs"
         "Innovation programs are often buried in government websites with poor outreach"
         0.6)
      blindspots in
  let blindspots :=
    Py.append_if
      (has_goal OpportunityGoal.INTERNSHIPS analysis)
      (blindspot "Industry and Government Internships"
         "Many internship programs beyond campus placements remain unknown to students"
         0.65)
      blindspots in
  let blindspots :=
    Py.append_if
      (has_goal OpportunityGoal.GOVT_EXAMS analysis)
      (blindspot "Government Exam Preparation Resources"
         "Free government resources for exam preparation are often overlooked"
         0.55)
      blindspots in
  let blindspots :=
    Py.append_if
      (has_goal OpportunityGoal.RESEARCH analysis &&
       negb (_is_stem_field (field_of_study profile)))
      (blindspot "Interdisciplinary Research Programs"
         "Research opportunities exist beyond traditional STEM fields but are rarely promoted"
         0.58)
      blindspots in
  blindspots.

(** Rule 9: fires below three blindspots when scholarships are a goal. *)
Definition rule_9 (analysis : ProfileAnalysis.t) (blindspots : list Blindspot.t)
  : list Blindspot.t :=
  Py.append_if
    ((List.length blindspots <? 3)%nat && has_goal OpportunityGoal.SCHOLARSHIPS analysis)
    (blindspot "Merit and Need-based Scholarships"
       "Many scholarship programs exist beyond the well-known ones, but lack awareness"
       0.5)
    blindspots.

(** Rules 10, 11 and 12: each fires below three blindspots. *)
Definition rule_10 (blindspots : list Blindspot.t) : list Blindspot.t :=
  Py.append_if (List.length blindspots <? 3)%nat
    (blindspot "Skill Development and Certification Programs"
       "Free skill development programs from government and institutions often go unnoticed"
       0.45)
    blindspots.

Definition rule_11 (blindspots : list Blindspot.t) : list Blindspot.t :=
  Py.append_if (List.length blindspots <? 3)%nat
    (blindspot "Academic Enhancement Programs"
       "Programs for academic growth beyond regular curriculum are rarely promoted"
       0.4)
    blindspots.

Definition rule_12 (blindspots : list Blindspot.t) : list Blindspot.t :=
  Py.append_if (List.length blindspots <? 3)%nat
    (blindspot "Career Guidance and Mentorship Programs"
       "Structured career guidance programs from institutions and government are underutilized"
       0.35)
    blindspots.

(** The list as it stands after rule 12, before it is sorted. *)
Definition accumulated (profile : StudentProfile.t) (analysis : ProfileAnalysis.t)
  : list Blindspot.t :=
  let blindspots := [] in
  let blindspots := primary_rules profile analysis blindspots in
  let blindspots := rule_9 analysis blindspots in
  let blindspots := rule_10 blindspots in
  let blindspots := rule_11 blindspots in
  let blindspots := rule_12 blindspots in
  blindspots.

Definition identify_blindspots (profile : StudentProfile.t) (analysis : ProfileAnalysis.t)
  : Py.Result (list Blindspot.t) :=
  let blindspots := accumulated profile analysis in
  let blindspots := Py.sort_desc Blindspot.relevance_score blindspots in
  if (List.length blindspots <? 3)%nat then
    Py.Raised (Py.ValueError
      (Py.cat ["Implementation error: Only "; Py.str_len (List.length blindspots);
               " blindspots generated, minimum is 3"]))
  else Py.Returned (firstn 5 blindspots).

End BlindspotIdentifier.

(** ** opportunity_matcher.py *)

Module OpportunityMatcher.

Import StudentProfile.

Definition is_eligible (profile : StudentProfile.t) (criteria : EligibilityCriteria.t)
  : bool :=
  if negb (Py.In_ EducationLevel.eqb (education_level profile)
             (EligibilityCriteria.education_levels criteria))
  then false
  else if match EligibilityCriteria.fields_of_study criteria with
          | Some fields => negb (Py.In_ String.eqb (field_of_study profile) fields)
          | None => false
          end
  then false
  else if match EligibilityCriteria.institution_types criteria with
          | Some types => negb (Py.In_ InstitutionType.eqb (institution_type profile) types)
          | None => false
          end
  then false
  else if match EligibilityCriteria.background_requirements criteria with
          | Some reqs =>
            negb (Py.any (fun req => Py.In_ BackgroundIndicator.eqb req
                                       (background_indicators profile)) reqs)
          | None => false
          end
  then false
  else true.

Definition calculate_miss_probability (visibility_level : VisibilityLevel.t)
  (awareness_level : AwarenessLevel.t) : MissProbability.t :=
  if VisibilityLevel.eqb visibility_level VisibilityLevel.LOW then MissProbability.HIGH
  else if VisibilityLevel.eqb visibility_level VisibilityLevel.MEDIUM then
    if AwarenessLevel.eqb awareness_level AwarenessLevel.LOW then MissProbability.HIGH
    else if AwarenessLevel.eqb awareness_level AwarenessLevel.MEDIUM
    then MissProbability.MEDIUM
    else MissProbability.LOW
  else if AwarenessLevel.eqb awareness_level AwarenessLevel.LOW then MissProbability.MEDIUM
  else MissProbability.LOW.

(** [if c: max_alignment = max(max_alignment, v)] *)
Definition raise_to (c : bool) (v : Q) (max_alignment : Q) : Q :=
  if c then Py.max max_alignment v else max_alignment.

(** One pass of the loop body of [_calculate_blindspot_alignment]. *)
Definition alignment_step (opportunity : Opportunity.t) (max_alignment : Q)
  (blindspot : Blindspot.t) : Q :=
  let category_lower := Py.lower (Blindspot.category blindspot) in
  let opp_category_lower := Py.lower (Opportunity.category opportunity) in
  let opp_name_lower := Py.lower (Opportunity.name opportunity) in
  let score := Blindspot.relevance_score blindspot in
  let max_alignment :=
    raise_to (Py.contains opp_category_lower category_lower) score max_alignment in
  let max_alignment :=
    raise_to (Py.contains "scholarship" category_lower &&
              String.eqb opp_category_lower "scholarship") score max_alignment in
  let max_alignment :=
    raise_to (Py.contains "research" category_lower &&
              String.eqb opp_category_lower "internship") (score * 0.9) max_alignment in
  let max_alignment :=
    raise_to (Py.contains "innovation" category_lower &&
              String.eqb opp_category_lower "program") (score * 0.9) max_alignment in
  let max_alignment :=
    raise_to (Py.contains "internship" category_lower &&
              String.eqb opp_category_lower "internship") score max_alignment in
  let max_alignment :=
    raise_to (Py.contains "program" category_lower &&
              String.eqb opp_category_lower "program") score max_alignment in
  let max_alignment :=
    raise_to (Py.contains "aicte" opp_name_lower &&
              Py.contains "category-specific" category_lower) score max_alignment in
  let max_alignment :=
    raise_to (Py.contains "central" opp_name_lower &&
              Py.contains "income-based" category_lower) score max_alignment in
  let max_alignment :=
    raise_to (Py.contains "state" opp_name_lower &&
              Py.contains "state" category_lower) score max_alignment in
  let max_alignment :=
    raise_to (Py.contains "nptel" opp_name_lower &&
              Py.contains "research" category_lower) score max_alignment in
  let max_alignment :=
    raise_to (Py.contains "ministry" opp_name_lower &&
              Py.contains "innovation" category_lower) score max_alignment in
  let max_alignment :=
    raise_to (Py.contains "skill" category_lower &&
              String.eqb opp_category_lower "program") (score * 0.7) max_alignment in
  let max_alignment :=
    raise_to (Py.contains "merit" category_lower &&
              EligibilityCriteria.merit_based (Opportunity.eligibility_criteria opportunity))
             (score * 0.8) max_alignment in
  max_alignment.

Definition _calculate_blindspot_alignment (opportunity : Opportunity.t)
  (blindspots : list Blindspot.t) : Q :=
  let max_alignment := 0.0 in
  let max_alignment := fold_left (alignment_step opportunity) blindspots max_alignment in
  Py.max max_alignment 0.3.

Definition opportunity_category_to_goal : list (string * OpportunityGoal.t) :=
  [ ("Scholarship", OpportunityGoal.SCHOLARSHIPS);
    ("Internship", OpportunityGoal.INTERNSHIPS);
    ("Program", OpportunityGoal.SKILLS) ].

(** [d[key]] when [key in d], for a dict given by its items. *)
Fixpoint dict_get {V : Type} (d : list (string * V)) (key : string) : option V :=
  match d with
  | [] => None
  | (k, v) :: rest => if String.eqb key k then Some v else dict_get rest key
  end.

Definition _calculate_relevance (profile : StudentProfile.t)
  (analysis : ProfileAnalysis.t) (opportunity : Opportunity.t)
  (blindspot_alignment : Q) : Q :=
  let score := 0.0 in
  let score := score + blindspot_alignment * 0.4 in
  let score :=
    if String.eqb (ImpactLevel.value (Opportunity.impact_level opportunity)) "High"
    then score + 0.3
    else if String.eqb (ImpactLevel.value (Opportunity.impact_level opportunity)) "Medium"
    then score + 0.2
    else score + 0.1 in
  let score :=
    if VisibilityLevel.eqb (Opportunity.visibility_level opportunity) VisibilityLevel.LOW
    then score + 0.2
    else if VisibilityLevel.eqb (Opportunity.visibility_level opportunity)
              VisibilityLevel.MEDIUM
    then score + 0.15
    else score + 0.1 in
  let score :=
    match dict_get opportunity_category_to_goal (Opportunity.category opportunity) with
    | Some goal =>
      if Py.In_ OpportunityGoal.eqb goal (ProfileAnalysis.priority_goals analysis)
      then score + 0.1 else score
    | None => score
    end in
  Py.min score 1.0.

(** [", ".join(xs[:-1]) + ", and " + xs[-1] + "."] and its two short forms. *)
Definition join_explanations (explanations : list string) : string :=
  match explanations with
  | [e] => Py.cat [e; "."]
  | [e1; e2] => Py.cat [e1; ", and "; e2; "."]
  | _ => Py.cat [Py.join ", " (removelast explanations); ", and ";
                 last explanations ""; "."]
  end.

Definition _generate_fit_explanation (profile : StudentProfile.t)
  (opportunity : Opportunity.t) : string :=
  let criteria := Opportunity.eligibility_criteria opportunity in
  let explanations := [] in
  let explanations := explanations ++
    [Py.cat ["You're a "; EducationLevel.value (education_level profile);
             " student, which matches the eligibility"]] in
  let explanations :=
    match EligibilityCriteria.fields_of_study criteria with
    | Some _ => explanations ++
        [Py.cat ["your "; field_of_study profile;
                 " background aligns with the program requirements"]]
    | None => explanations
    end in
  let explanations :=
    match EligibilityCriteria.background_requirements criteria with
    | Some reqs =>
      let matching_backgrounds :=
        filter (fun bg => Py.In_ BackgroundIndicator.eqb bg reqs)
               (background_indicators profile) in
      if Py.truthy matching_backgrounds then
        let bg_str := Py.join ", " (map BackgroundIndicator.value matching_backgrounds) in
        explanations ++
          [Py.cat ["your background ("; bg_str;
                   ") makes you eligible for this targeted program"]]
      else explanations
    | None => explanations
    end in
  let explanations :=
    if EligibilityCriteria.income_based criteria then
      Py.append_if
        (Py.In_ BackgroundIndicator.eqb BackgroundIndicator.FINANCIAL_SUPPORT
           (background_indicators profile))
        "this income-based program is designed for students needing financial support"
        explanations
    else explanations in
  let explanations :=
    Py.append_if (EligibilityCriteria.merit_based criteria)
      "this merit-based program recognizes academic achievement" explanations in
  join_explanations explanations.

Definition _generate_miss_reason (opportunity : Opportunity.t)
  (awareness_level : AwarenessLevel.t) : string :=
  let name := Opportunity.name opportunity in
  let reasons := [] in
  let reasons :=
    if VisibilityLevel.eqb (Opportunity.visibility_level opportunity) VisibilityLevel.LOW
    then reasons ++
      ["this program has very low visibility and is rarely promoted in colleges"]
    else if VisibilityLevel.eqb (Opportunity.visibility_level opportunity)
              VisibilityLevel.MEDIUM
    then reasons ++
      ["this program is not widely advertised beyond official government portals"]
    else reasons in
  let reasons :=
    if Py.contains "AICTE" name
    then reasons ++ ["AICTE programs are often buried in technical documentation"]
    else if Py.contains "State" name
    then reasons ++ ["state-level programs vary by region and lack centralized promotion"]
    else if Py.contains "NPTEL" name
    then reasons ++
      ["students often see NPTEL only as a course platform, not for internships"]
    else if Py.contains "Ministry" name
    then reasons ++ ["ministry programs are scattered across multiple websites"]
    else if Py.contains "Central Sector" name
    then reasons ++ ["many students assume they need high merit for central scholarships"]
    else reasons in
  let reasons :=
    Py.append_if (AwarenessLevel.eqb awareness_level AwarenessLevel.LOW)
      "students with limited opportunity awareness often miss such programs" reasons in
  match reasons with
  | [] => "Students often miss this opportunity due to lack of awareness."
  | [r] => Py.cat ["Students usually miss this because "; r; "."]
  | _ => Py.cat ["Students usually miss this because "; Py.join " and " reasons; "."]
  end.

(** The match built for one eligible opportunity (the loop body after the
    eligibility test). *)
Definition make_match (profile : StudentProfile.t) (analysis : ProfileAnalysis.t)
  (blindspots : list Blindspot.t) (opportunity : Opportunity.t) : OpportunityMatch.t :=
  let blindspot_alignment := _calculate_blindspot_alignment opportunity blindspots in
  let relevance := _calculate_relevance profile analysis opportunity blindspot_alignment in
  let fit_explanation := _generate_fit_explanation profile opportunity in
  let miss_reason :=
    _generate_miss_reason opportunity (ProfileAnalysis.awareness_level analysis) in
  let miss_probability :=
    calculate_miss_probability (Opportunity.visibility_level opportunity)
      (ProfileAnalysis.awareness_level analysis) in
  {| OpportunityMatch.opportunity := opportunity;
     OpportunityMatch.fit_explanation := fit_explanation;
     OpportunityMatch.miss_reason := miss_reason;
     OpportunityMatch.miss_probability := miss_probability;
     OpportunityMatch.relevance_score := relevance |}.

(** The first pass: one match per eligible opportunity, in catalog order. *)
Definition collect_eligible (profile : StudentProfile.t) (analysis : ProfileAnalysis.t)
  (blindspots : list Blindspot.t) (opportunities : list Opportunity.t)
  : list OpportunityMatch.t :=
  fold_left
    (fun all_eligible_matches opportunity =>
       if negb (is_eligible profile (Opportunity.eligibility_criteria opportunity))
       then all_eligible_matches
       else all_eligible_matches ++ [make_match profile analysis blindspots opportunity])
    opportunities [].

Definition match_opportunities (profile : StudentProfile.t)
  (analysis : ProfileAnalysis.t) (blindspots : list Blindspot.t)
  : M (list OpportunityMatch.t) :=
  opportunities <- KnowledgeBase.get_all_opportunities ;;
  let all_eligible_matches := collect_eligible profile analysis blindspots opportunities in
  let all_eligible_matches :=
    Py.sort_desc OpportunityMatch.relevance_score all_eligible_matches in
  if (List.length all_eligible_matches <? 2)%nat then ret all_eligible_matches
  else ret (firstn (Nat.min 3 (List.length all_eligible_matches)) all_eligible_matches).

End OpportunityMatcher.

(** ** opportunity_matcher.py, the relevance score in binary64

    A Python [float] is an IEEE 754 binary64 number: a literal such as
    [0.4] denotes the binary64 value nearest to the decimal, and every
    [+] and [*] rounds its exact result to the nearest binary64 value.
    [_calculate_relevance] is embedded here a second time with that
    arithmetic (primitive floats are binary64 with round to nearest,
    ties to even), statement for statement as above. *)

Module Binary64.

Import PrimFloat.
#[local] Set Warnings "-inexact-float".
Local Open Scope float_scope.

(** [min(a, b)] on floats: [b] when [b < a], otherwise [a]. *)
Definition min (a b : float) : float := if b <? a then b else a.

Definition _calculate_relevance (profile : StudentProfile.t)
  (analysis : ProfileAnalysis.t) (opportunity : Opportunity.t)
  (blindspot_alignment : float) : float :=
  let score := 0.0 in
  let score := score + blindspot_alignment * 0.4 in
  let score :=
    if String.eqb (ImpactLevel.value (Opportunity.impact_level opportunity)) "High"
    then score + 0.3
    else if String.eqb (ImpactLevel.value (Opportunity.impact_level opportunity)) "Medium"
    then score + 0.2
    else score + 0.1 in
  let score :=
    if VisibilityLevel.eqb (Opportunity.visibility_level opportunity) VisibilityLevel.LOW
    then score + 0.2
    else if VisibilityLevel.eqb (Opportunity.visibility_level opportunity)
              VisibilityLevel.MEDIUM
    then score + 0.15
    else score + 0.1 in
  let score :=
    match OpportunityMatcher.dict_get OpportunityMatcher.opportunity_category_to_goal
            (Opportunity.category opportunity) with
    | Some goal =>
      if Py.In_ OpportunityGoal.eqb goal (ProfileAnalysis.priority_goals analysis)
      then score + 0.1 else score
    | None => score
    end in
  min score 1.0.

End Binary64.

(** ** explanation_generator.py *)

Module ExplanationGenerator.

Import StudentProfile.

Definition generate_profile_summary (profile : StudentProfile.t) : string :=
  let summary := Py.cat ["Hi "; name profile; "! I've understood your profile:"; Py.nl; Py.nl] in
  let summary := Py.cat [summary; "• You're a "; Py.str_int (year_of_study profile);
                         "-year "; EducationLevel.value (education_level profile);
                         " student"; Py.nl] in
  let summary := Py.cat [summary; "• Studying "; degree profile; " in ";
                         field_of_study profile; Py.nl] in
  let summary := Py.cat [summary; "• At a ";
                         InstitutionType.value (institution_type profile);
                         " institution"; Py.nl] in
  let summary :=
    if (0 <? List.length (background_indicators profile))%nat then
      let background_str :=
        Py.join ", " (map BackgroundIndicator.value (background_indicators profile)) in
      Py.cat [summary; "• Background: "; background_str; Py.nl]
    else summary in
  let goals_str := Py.join ", " (map OpportunityGoal.value (opportunity_goals profile)) in
  let summary := Py.cat [summary; "• Looking for: "; goals_str; Py.nl] in
  summary.

Definition generate_final_insight (profile : StudentProfile.t)
  (blindspots : list Blindspot.t) (matches : list OpportunityMatch.t) : string :=
  let insight := "Based on your profile, you're likely missing out on " in
  let categories := map Blindspot.category blindspots in
  let category_str := Py.lower (Py.join " " categories) in
  let insight :=
    if Py.contains "scholarship" category_str
    then Py.cat [insight; "several scholarship opportunities that match your background. "]
    else if Py.contains "research" category_str || Py.contains "internship" category_str
    then Py.cat [insight;
           "opportunities in research, internships, and programs beyond the classroom. "]
    else Py.cat [insight;
           "valuable opportunities that align with your goals and background. "] in
  let insight := Py.cat [insight;
    "The main barrier isn't your eligibility—it's simply not knowing these exist. "] in
  let insight :=
    if MissedOpportunityFrequency.eqb (missed_opportunities_before profile)
         MissedOpportunityFrequency.YES_MANY_TIMES
    then Py.cat [insight;
      "Start by exploring the recommendations above, and consider setting up alerts for similar programs. "]
    else if MissedOpportunityFrequency.eqb (missed_opportunities_before profile)
              MissedOpportunityFrequency.ONCE_OR_TWICE
    then Py.cat [insight;
      "Take a moment to explore each recommendation—you're already eligible! "]
    else Py.cat [insight;
      "Now that you're aware, take action on these opportunities—you're already qualified! "] in
  let insight := Py.cat [insight; "Awareness is the first step to opportunity."] in
  insight.

End ExplanationGenerator.

(** ** application_controller.py *)

Module ApplicationController.

Import StudentProfile.

(** The dict [handle_form_submission] returns: a key that is absent is
    [None]. *)
Record Response : Type := {
  valid : bool;
  missing_fields : option (list string);
  invalid_fields : option (list string);
  profile_summary : option string;
  blindspots : option (list Blindspot.t);
  matches : option (list OpportunityMatch.t);
  final_insight : option string;
  no_matches : option bool;
  error : option string
}.

Definition invalid_fields_response (fields : list string) : Response :=
  {| valid := false; missing_fields := None; invalid_fields := Some fields;
     profile_summary := None; blindspots := None; matches := None;
     final_insight := None; no_matches := None; error := None |}.

Definition missing_fields_response (fields : list string) : Response :=
  {| valid := false; missing_fields := Some fields; invalid_fields := None;
     profile_summary := None; blindspots := None; matches := None;
     final_insight := None; no_matches := None; error := None |}.

Definition error_response (message : string) : Response :=
  {| valid := false; missing_fields := None; invalid_fields := None;
     profile_summary := None; blindspots := None; matches := None;
     final_insight := None; no_matches := None; error := Some message |}.

Definition no_matches_response (summary : string) (spots : list Blindspot.t)
  (insight : string) : Response :=
  {| valid := true; missing_fields := None; invalid_fields := None;
     profile_summary := Some summary; blindspots := Some spots; matches := Some [];
     final_insight := Some insight; no_matches := Some true; error := None |}.

Definition full_response (summary : string) (spots : list Blindspot.t)
  (found : list OpportunityMatch.t) (insight : string) : Response :=
  {| valid := true; missing_fields := None; invalid_fields := None;
     profile_summary := Some summary; blindspots := Some spots; matches := Some found;
     final_insight := Some insight; no_matches := None; error := None |}.

Definition knowledge_base_unavailable : string :=
  "System Error: Opportunity knowledge base is currently unavailable. Please try again later.".

Definition unexpected_error : string :=
  "An unexpected error occurred while processing your profile. Please try again.".

Definition _validate_field_values (profile : StudentProfile.t) : list string :=
  let invalid_fields := [] in
  let invalid_fields :=
    Py.append_if (age profile <? 0)%Z "age (must be positive)" invalid_fields in
  let invalid_fields :=
    Py.append_if (age profile >? 150)%Z "age (must be realistic)" invalid_fields in
  let invalid_fields :=
    Py.append_if (year_of_study profile <? 0)%Z
      "year_of_study (must be positive)" invalid_fields in
  let invalid_fields :=
    Py.append_if (year_of_study profile >? 10)%Z
      "year_of_study (must be realistic)" invalid_fields in
  invalid_fields.

Definition _generate_fallback_profile_summary (profile : StudentProfile.t) : string :=
  let summary := Py.cat ["Hi "; name profile; "! I've understood your profile:"; Py.nl; Py.nl] in
  let summary := Py.cat [summary; "• You're a "; Py.str_int (year_of_study profile);
                         "-year "; EducationLevel.value (education_level profile);
                         " student"; Py.nl] in
  let summary := Py.cat [summary; "• Studying "; degree profile; " in ";
                         field_of_study profile; Py.nl] in
  let summary := Py.cat [summary; "• At a ";
                         InstitutionType.value (institution_type profile);
                         " institution"; Py.nl] in
  let summary :=
    if Py.truthy (background_indicators profile) then
      let bg_str :=
        Py.join ", " (map BackgroundIndicator.value (background_indicators profile)) in
      Py.cat [summary; "• Background: "; bg_str; Py.nl]
    else summary in
  let summary :=
    if Py.truthy (opportunity_goals profile) then
      let goals_str :=
        Py.join ", " (map OpportunityGoal.value (opportunity_goals profile)) in
      Py.cat [summary; "• Looking for: "; goals_str; Py.nl]
    else summary in
  summary.

Definition _generate_fallback_blindspots (profile : StudentProfile.t)
  : list Blindspot.t :=
  [ BlindspotIdentifier.blindspot "Government Scholarships"
      "Many students don't know about government scholarships available for their profile"
      0.8;
    BlindspotIdentifier.blindspot "Research and Internship Programs"
      "Students often focus on placements and miss research opportunities"
      0.7;
    BlindspotIdentifier.blindspot "Skill Development Programs"
      "Skill programs are often buried in government websites with poor outreach"
      0.6 ].

Definition _generate_fallback_final_insight (profile : StudentProfile.t)
  (matches : list OpportunityMatch.t) : string :=
  let insight :=
    "Based on your profile, you're likely missing out on several opportunities that match your background. " in
  let insight := Py.cat [insight;
    "The main barrier isn't your eligibility—it's simply not knowing these exist. "] in
  let insight := Py.cat [insight;
    "Take a moment to explore each recommendation—you're already eligible! "] in
  let insight := Py.cat [insight; "Awareness is the first step to opportunity."] in
  insight.

Definition _generate_no_matches_insight (profile : StudentProfile.t) : string :=
  let insight := Py.cat ["Hi "; name profile;
    ", based on your current profile, we don't have specific opportunities "] in
  let insight := Py.cat [insight;
    "in our knowledge base that match your eligibility criteria right now. "] in
  let insight := Py.cat [insight;
    "This doesn't mean opportunities don't exist—it means our current database is limited. "] in
  let insight := Py.cat [insight;
    "We recommend checking back later as we continuously update our opportunity database. "] in
  let insight := Py.cat [insight;
    "In the meantime, explore the blindspot categories we identified—they can guide your own research!"] in
  insight.

(** [handle_form_submission].  Each call of a component is logged just
    before it is made.  The body of the [try] can raise only through
    [identify_blindspots]; the handler's [print] goes to standard output
    and is not part of the returned value. *)
Definition handle_form_submission (profile : StudentProfile.t) : M Response :=
  let invalid_fields := _validate_field_values profile in
  if Py.truthy invalid_fields then ret (invalid_fields_response invalid_fields)
  else
    log CallValidate ;;;
    let (is_valid, missing_fields) := StudentProfile.validate profile in
    if negb is_valid then ret (missing_fields_response missing_fields)
    else
      opportunities <- KnowledgeBase.get_all_opportunities ;;
      if negb (Py.truthy opportunities) then ret (error_response knowledge_base_unavailable)
      else
        log CallAnalyze ;;;
        let analysis := ProfileAnalyzer.analyze profile in
        log CallProfileSummary ;;;
        let profile_summary := ExplanationGenerator.generate_profile_summary profile in
        let profile_summary :=
          if StudentProfile.blank profile_summary
          then _generate_fallback_profile_summary profile
          else profile_summary in
        log CallIdentifyBlindspots ;;;
        match BlindspotIdentifier.identify_blindspots profile analysis with
        | Py.Raised _ => ret (error_response unexpected_error)
        | Py.Returned blindspots =>
          let blindspots :=
            if negb (Py.truthy blindspots) then _generate_fallback_blindspots profile
            else blindspots in
          log CallMatchOpportunities ;;;
          matches <- OpportunityMatcher.match_opportunities profile analysis blindspots ;;
          if negb (Py.truthy matches) then
            ret (no_matches_response profile_summary blindspots
                   (_generate_no_matches_insight profile))
          else
            log CallFinalInsight ;;;
            let final_insight :=
              ExplanationGenerator.generate_final_insight profile blindspots matches in
            let final_insight :=
              if StudentProfile.blank final_insight
              then _generate_fallback_final_insight profile matches
              else final_insight in
            ret (full_response profile_summary blindspots matches final_insight)
        end.

End ApplicationController.

(** ** The three pipeline methods over the object store

    The modules above embed the methods as functions of values.  A
    Python list is an object: [append] and [sort] change it in place, a
    field holds a reference to it, and two fields may hold the same list
    ([analyze] hands [profile.opportunity_goals] itself to the analysis).
    [analyze], [identify_blindspots] and [match_opportunities] are
    embedded here a second time, statement by statement, over a store of
    list objects, so that what a call changes can be stated.  A list
    lives in the store when one of the three methods creates it,
    appends to it, sorts it, receives it or returns it; the helper
    methods that only read their arguments ([is_eligible],
    [_calculate_relevance], ...) are applied to the lists as read from
    the store, and the lists they build for their own use
    ([explanations], [reasons]) stay values. *)

Declare Scope store_scope.

Module Store.

(** A list object, by the type of its items. *)
Inductive Object : Type :=
| Texts (items : list string)
| Goals (items : list OpportunityGoal.t)
| Indicators (items : list BackgroundIndicator.t)
| Blindspots (items : list Blindspot.t)
| Opportunities (items : list Opportunity.t)
| Matches (items : list OpportunityMatch.t).

(** A reference is the address of an object; the store holds the objects
    in the order of their creation. *)
Definition Ref : Type := nat.
Definition Heap : Type := list Object.

(** A computation on the store. *)
Definition H (A : Type) : Type := Heap -> A * Heap.

Definition ret {A : Type} (a : A) : H A := fun heap => (a, heap).

Definition bind {A B : Type} (m : H A) (k : A -> H B) : H B :=
  fun heap => let (a, heap') := m heap in k a heap'.

Notation "x <- m ;; k" := (bind m (fun x => k))
  (at level 61, m at next level, right associativity) : store_scope.
Notation "m ;;; k" := (bind m (fun _ => k))
  (at level 61, right associativity) : store_scope.

Local Open Scope store_scope.

(** A new object, at the next free address. *)
Definition new (object : Object) : H Ref :=
  fun heap => (List.length heap, heap ++ [object]).

(** The object at an address. *)
Definition get (r : Ref) : H Object :=
  fun heap => (nth r heap (Texts []), heap).

(** The store with the object at address [r] replaced by its image. *)
Fixpoint update (r : Ref) (change : Object -> Object) (heap : Heap) : Heap :=
  match heap, r with
  | [], _ => []
  | object :: rest, O => change object :: rest
  | object :: rest, S r' => object :: update r' change rest
  end.

Definition modify (r : Ref) (change : Object -> Object) : H unit :=
  fun heap => (tt, update r change heap).

(** The items of a list object, by type. *)
Definition texts (object : Object) : list string :=
  match object with Texts items => items | _ => [] end.

Definition goals (object : Object) : list OpportunityGoal.t :=
  match object with Goals items => items | _ => [] end.

Definition indicators (object : Object) : list BackgroundIndicator.t :=
  match object with Indicators items => items | _ => [] end.

Definition blindspots (object : Object) : list Blindspot.t :=
  match object with Blindspots items => items | _ => [] end.

Definition opportunities (object : Object) : list Opportunity.t :=
  match object with Opportunities items => items | _ => [] end.

Definition matches (object : Object) : list OpportunityMatch.t :=
  match object with Matches items => items | _ => [] end.

(** Reading a list: iterating over it, [x in xs], [len(xs)]. *)
Definition read {A : Type} (items : Object -> list A) (r : Ref) : H (list A) :=
  object <- get r ;; ret (items object).

(** [xs.append(x)] *)
Definition append_text (r : Ref) (x : string) : H unit :=
  modify r (fun object =>
    match object with Texts items => Texts (items ++ [x]) | other => other end).

Definition append_blindspot (r : Ref) (x : Blindspot.t) : H unit :=
  modify r (fun object =>
    match object with Blindspots items => Blindspots (items ++ [x]) | other => other end).

Definition append_match (r : Ref) (x : OpportunityMatch.t) : H unit :=
  modify r (fun object =>
    match object with Matches items => Matches (items ++ [x]) | other => other end).

(** [xs.sort(key=lambda x: x.relevance_score, reverse=True)] *)
Definition sort (r : Ref) : H unit :=
  modify r (fun object =>
    match object with
    | Blindspots items => Blindspots (Py.sort_desc Blindspot.relevance_score items)
    | Matches items => Matches (Py.sort_desc OpportunityMatch.relevance_score items)
    | other => other
    end).

(** [xs[:n]]: a new list. *)
Definition slice (r : Ref) (n : nat) : H Ref :=
  object <- get r ;;
  new match object with
      | Texts items => Texts (firstn n items)
      | Goals items => Goals (firstn n items)
      | Indicators items => Indicators (firstn n items)
      | Blindspots items => Blindspots (firstn n items)
      | Opportunities items => Opportunities (firstn n items)
      | Matches items => Matches (firstn n items)
      end.

(** [xs.copy()]: a new list with the same items. *)
Definition copy (r : Ref) : H Ref :=
  object <- get r ;; new object.

(** [for x in xs: body(x)], for a body that leaves [xs] alone. *)
Fixpoint for_each {A : Type} (items : list A) (body : A -> H unit) : H unit :=
  match items with
  | [] => ret tt
  | item :: rest => body item ;;; for_each rest body
  end.

(** [if c: body] *)
Definition when (c : bool) (body : H unit) : H unit :=
  if c then body else ret tt.

End Store.

(** The dataclass instances as the interpreter holds them: a field that
    is a list holds a reference. *)
Module Live.

Record StudentProfile : Type := {
  name : string;
  age : Z;
  education_level : EducationLevel.t;
  degree : string;
  field_of_study : string;
  year_of_study : Z;
  institution_type : InstitutionType.t;
  background_indicators : Store.Ref;
  opportunity_goals : Store.Ref;
  missed_opportunities_before : MissedOpportunityFrequency.t;
  gender : option string;
  additional_context : option string
}.

Record ProfileAnalysis : Type := {
  key_characteristics : Store.Ref;
  eligibility_tags : Store.Ref;
  awareness_level : AwarenessLevel.t;
  priority_goals : Store.Ref
}.

End Live.

Module Stateful.

Import Store Live.
Local Open Scope store_scope.

(** The module-level list [OPPORTUNITIES] is created when the package is
    imported: it is the first object of the store. *)
Definition OPPORTUNITIES : Ref := 0%nat.

(** The profile and the analysis with their lists as they are now. *)
Definition the_profile (profile : Live.StudentProfile) : H StudentProfile.t :=
  indicators_now <- read indicators (background_indicators profile) ;;
  goals_now <- read goals (opportunity_goals profile) ;;
  ret {| StudentProfile.name := name profile;
         StudentProfile.age := age profile;
         StudentProfile.education_level := education_level profile;
         StudentProfile.degree := degree profile;
         StudentProfile.field_of_study := field_of_study profile;
         StudentProfile.year_of_study := year_of_study profile;
         StudentProfile.institution_type := institution_type profile;
         StudentProfile.background_indicators := indicators_now;
         StudentProfile.opportunity_goals := goals_now;
         StudentProfile.missed_opportunities_before := missed_opportunities_before profile;
         StudentProfile.gender := gender profile;
         StudentProfile.additional_context := additional_context profile |}.

Definition the_analysis (analysis : Live.ProfileAnalysis) : H ProfileAnalysis.t :=
  characteristics_now <- read texts (key_characteristics analysis) ;;
  tags_now <- read texts (eligibility_tags analysis) ;;
  goals_now <- read goals (priority_goals analysis) ;;
  ret {| ProfileAnalysis.key_characteristics := characteristics_now;
         ProfileAnalysis.eligibility_tags := tags_now;
         ProfileAnalysis.awareness_level := awareness_level analysis;
         ProfileAnalysis.priority_goals := goals_now |}.

(** *** profile_analyzer.py *)

Definition _extract_characteristics (profile : Live.StudentProfile) : H Ref :=
  characteristics <- new (Texts []) ;;
  append_text characteristics (EducationLevel.value (education_level profile)) ;;;
  append_text characteristics (field_of_study profile) ;;;
  append_text characteristics (InstitutionType.value (institution_type profile)) ;;;
  background <- read indicators (background_indicators profile) ;;
  for_each background (fun indicator =>
    append_text characteristics (BackgroundIndicator.value indicator)) ;;;
  ret characteristics.

Definition _extract_eligibility_tags (profile : Live.StudentProfile) : H Ref :=
  eligibility_tags <- new (Texts []) ;;
  background <- read indicators (background_indicators profile) ;;
  for_each background (fun indicator =>
    append_text eligibility_tags (BackgroundIndicator.value indicator)) ;;;
  ret eligibility_tags.

Definition analyze (profile : Live.StudentProfile) : H Live.ProfileAnalysis :=
  key_characteristics <- _extract_characteristics profile ;;
  eligibility_tags <- _extract_eligibility_tags profile ;;
  let awareness_level :=
    ProfileAnalyzer._map_awareness_level (missed_opportunities_before profile) in
  let priority_goals := opportunity_goals profile in
  ret {| Live.key_characteristics := key_characteristics;
         Live.eligibility_tags := eligibility_tags;
         Live.awareness_level := awareness_level;
         Live.priority_goals := priority_goals |}.

(** *** blindspot_identifier.py *)

(** The tests of the rules, on the lists as they are when the test is
    made. *)
Definition _has_financial_background (eligibility_tags : Ref) : H bool :=
  tags <- read texts eligibility_tags ;;
  ret (BlindspotIdentifier._has_financial_background tags).

Definition _has_special_category (gender : option string) (eligibility_tags : Ref)
  : H bool :=
  tags <- read texts eligibility_tags ;;
  ret (BlindspotIdentifier._has_special_category gender tags).

(** [goal in analysis.priority_goals] *)
Definition has_goal (goal : OpportunityGoal.t) (analysis : Live.ProfileAnalysis)
  : H bool :=
  priority_goals <- read goals (priority_goals analysis) ;;
  ret (Py.In_ OpportunityGoal.eqb goal priority_goals).

(** [len(blindspots) < 3] *)
Definition fewer_than_three (blindspots : Ref) : H bool :=
  found <- read Store.blindspots blindspots ;;
  ret (List.length found <? 3)%nat.

Definition identify_blindspots (profile : Live.StudentProfile)
  (analysis : Live.ProfileAnalysis) : H (Py.Result Ref) :=
  blindspots <- new (Blindspots []) ;;
  financial <- _has_financial_background (eligibility_tags analysis) ;;
  scholarships <- has_goal OpportunityGoal.SCHOLARSHIPS analysis ;;
  when (financial && scholarships)
    (append_blindspot blindspots
       (BlindspotIdentifier.blindspot "Income-based Central Government Scholarships"
          "Many students don't know about central government scholarships that don't require high merit"
          0.9)) ;;;
  when (BlindspotIdentifier._is_stem_field (field_of_study profile) &&
        Py.In_ EducationLevel.eqb (education_level profile)
          [EducationLevel.UG; EducationLevel.PG])
    (append_blindspot blindspots
       (BlindspotIdentifier.blindspot "Research Internships and Programs"
          "STEM students often focus on placements and miss research opportunities from national platforms"
          0.8)) ;;;
  scholarships <- has_goal OpportunityGoal.SCHOLARSHIPS analysis ;;
  when (Py.In_ InstitutionType.eqb (institution_type profile)
          [InstitutionType.GOVERNMENT; InstitutionType.AUTONOMOUS] &&
        scholarships)
    (append_blindspot blindspots
       (BlindspotIdentifier.blindspot "State-level Merit Scholarships"
          "State scholarships have poor visibility compared to national programs"
          0.7)) ;;;
  special <- _has_special_category (gender profile) (eligibility_tags analysis) ;;
  when special
    (append_blindspot blindspots
       (BlindspotIdentifier.blindspot "Category-specific Technical Scholarships"
          "Technical scholarships for specific categories are often under-promoted in colleges"
          0.85)) ;;;
  skills <- has_goal OpportunityGoal.SKILLS analysis ;;
  when (skills ||
        BlindspotIdentifier._mentions_innovation (additional_context profile))
    (append_blindspot blindspots
       (BlindspotIdentifier.blindspot "Government Innovation and Skill Programs"
          "Innovation programs are often buried in government websites with poor outreach"
          0.6)) ;;;
  internships <- has_goal OpportunityGoal.INTERNSHIPS analysis ;;
  when internships
    (append_blindspot blindspots
       (BlindspotIdentifier.blindspot "Industry and Government Internships"
          "Many internship programs beyond campus placements remain unknown to students"
          0.65)) ;;;
  exams <- has_goal OpportunityGoal.GOVT_EXAMS analysis ;;
  when exams
    (append_blindspot blindspots
       (BlindspotIdentifier.blindspot "Government Exam Preparation Resources"
          "Free government resources for exam preparation are often overlooked"
          0.55)) ;;;
  research <- has_goal OpportunityGoal.RESEARCH analysis ;;
  when (research &&
        negb (BlindspotIdentifier._is_stem_field (field_of_study profile)))
    (append_blindspot blindspots
       (BlindspotIdentifier.blindspot "Interdisciplinary Research Programs"
          "Research opportunities exist beyond traditional STEM fields but are rarely promoted"
          0.58)) ;;;
  below <- fewer_than_three blindspots ;;
  scholarships <- has_goal OpportunityGoal.SCHOLARSHIPS analysis ;;
  when (below && scholarships)
    (append_blindspot blindspots
       (BlindspotIdentifier.blindspot "Merit and Need-based Scholarships"
          "Many scholarship programs exist beyond the well-known ones, but lack awareness"
          0.5)) ;;;
  below <- fewer_than_three blindspots ;;
  when below
    (append_blindspot blindspots
       (BlindspotIdentifier.blindspot "Skill Development and Certification Programs"
          "Free skill development programs from government and institutions often go unnoticed"
          0.45)) ;;;
  below <- fewer_than_three blindspots ;;
  when below
    (append_blindspot blindspots
       (BlindspotIdentifier.blindspot "Academic Enhancement Programs"
          "Programs for academic growth beyond regular curriculum are rarely promoted"
          0.4)) ;;;
  below <- fewer_than_three blindspots ;;
  when below
    (append_blindspot blindspots
       (BlindspotIdentifier.blindspot "Career Guidance and Mentorship Programs"
          "Structured career guidance programs from institutions and government are underutilized"
          0.35)) ;;;
  sort blindspots ;;;
  found <- read Store.blindspots blindspots ;;
  if (List.length found <? 3)%nat then
    ret (Py.Raised (Py.ValueError
      (Py.cat ["Implementation error: Only "; Py.str_len (List.length found);
               " blindspots generated, minimum is 3"])))
  else
    top <- slice blindspots 5 ;;
    ret (Py.Returned top).

(** *** knowledge_base.py and opportunity_matcher.py *)

(** [get_all_opportunities]: [OPPORTUNITIES.copy()]. *)
Definition get_all_opportunities : H Ref := copy OPPORTUNITIES.

Definition match_opportunities (profile : Live.StudentProfile)
  (analysis : Live.ProfileAnalysis) (blindspots : Ref) : H Ref :=
  all_eligible_matches <- new (Matches []) ;;
  opportunities <- get_all_opportunities ;;
  catalog <- read Store.opportunities opportunities ;;
  for_each catalog (fun opportunity =>
    profile_now <- the_profile profile ;;
    analysis_now <- the_analysis analysis ;;
    blindspots_now <- read Store.blindspots blindspots ;;
    if negb (OpportunityMatcher.is_eligible profile_now
               (Opportunity.eligibility_criteria opportunity))
    then ret tt
    else append_match all_eligible_matches
           (OpportunityMatcher.make_match profile_now analysis_now blindspots_now
              opportunity)) ;;;
  sort all_eligible_matches ;;;
  ranked <- read Store.matches all_eligible_matches ;;
  if (List.length ranked <? 2)%nat then ret all_eligible_matches
  else slice all_eligible_matches (Nat.min 3 (List.length ranked)).

End Stateful.

(** ** Sample inputs *)

(** An undergraduate computer-science student at a government institution,
    rural and in need of financial support, looking for scholarships, who
    has missed opportunities many times. *)
Definition sample_profile : StudentProfile.t := {|
  StudentProfile.name := "Asha";
  StudentProfile.age := 20;
  StudentProfile.education_level := EducationLevel.UG;
  StudentProfile.degree := "B.Tech";
  StudentProfile.field_of_study := "Computer Science";
  StudentProfile.year_of_study := 2;
  StudentProfile.institution_type := InstitutionType.GOVERNMENT;
  StudentProfile.background_indicators :=
    [BackgroundIndicator.RURAL; BackgroundIndicator.FINANCIAL_SUPPORT];
  StudentProfile.opportunity_goals := [OpportunityGoal.SCHOLARSHIPS];
  StudentProfile.missed_opportunities_before := MissedOpportunityFrequency.YES_MANY_TIMES;
  StudentProfile.gender := None;
  StudentProfile.additional_context := None |}.

(** [sample_profile] with another age. *)
Definition with_age (a : Z) (p : StudentProfile.t) : StudentProfile.t := {|
  StudentProfile.name := StudentProfile.name p;
  StudentProfile.age := a;
  StudentProfile.education_level := StudentProfile.education_level p;
  StudentProfile.degree := StudentProfile.degree p;
  StudentProfile.field_of_study := StudentProfile.field_of_study p;
  StudentProfile.year_of_study := StudentProfile.year_of_study p;
  StudentProfile.institution_type := StudentProfile.institution_type p;
  StudentProfile.background_indicators := StudentProfile.background_indicators p;
  StudentProfile.opportunity_goals := StudentProfile.opportunity_goals p;
  StudentProfile.missed_opportunities_before :=
    StudentProfile.missed_opportunities_before p;
  StudentProfile.gender := StudentProfile.gender p;
  StudentProfile.additional_context := StudentProfile.additional_context p |}.

(** ** Vocabulary of the specification *)

(** [xs] is in descending order of [key]. *)
Definition descending {A : Type} (key : A -> Q) (xs : list A) : Prop :=
  StronglySorted (fun a b => key b <= key a) xs.

(** [output] is [input] sorted by descending [key], elements of equal key
    keeping the order they have in [input]. *)
Definition stable_sorted_desc {A : Type} (key : A -> Q) (input output : list A) : Prop :=
  Permutation input output /\
  descending key output /\
  forall s : Q, filter (fun x => Qeq_bool (key x) s) output =
                filter (fun x => Qeq_bool (key x) s) input.

(** A blindspot as the data model wants it. *)
Definition well_formed_blindspot (b : Blindspot.t) : Prop :=
  Blindspot.category b <> "" /\ Blindspot.reason b <> "" /\
  0 < Blindspot.relevance_score b /\ Blindspot.relevance_score b <= 1.

(** The opportunities of a catalog that pass the eligibility filter. *)
Definition eligible_opportunities (profile : StudentProfile.t)
  (catalog : list Opportunity.t) : list Opportunity.t :=
  filter (fun o => OpportunityMatcher.is_eligible profile
                     (Opportunity.eligibility_criteria o)) catalog.

(** Some violation in the list names the field. *)
Definition mentions (field : string) (violations : list string) : bool :=
  Py.any (Py.contains field) violations.

(** A profile that passes both validations of the controller. *)
Definition valid_profile (profile : StudentProfile.t) : bool :=
  negb (Py.truthy (ApplicationController._validate_field_values profile)) &&
  fst (StudentProfile.validate profile).

(** The keyword and category heuristics of the alignment score as a
    table: whether each one fires for the pair, and the value it offers. *)
Definition heuristics (opportunity : Opportunity.t) (blindspot : Blindspot.t)
  : list (bool * Q) :=
  let category_lower := Py.lower (Blindspot.category blindspot) in
  let opp_category_lower := Py.lower (Opportunity.category opportunity) in
  let opp_name_lower := Py.lower (Opportunity.name opportunity) in
  let score := Blindspot.relevance_score blindspot in
  [ (Py.contains opp_category_lower category_lower, score);
    (Py.contains "scholarship" category_lower &&
       String.eqb opp_category_lower "scholarship", score);
    (Py.contains "research" category_lower &&
       String.eqb opp_category_lower "internship", score * 0.9);
    (Py.contains "innovation" category_lower &&
       String.eqb opp_category_lower "program", score * 0.9);
    (Py.contains "internship" category_lower &&
       String.eqb opp_category_lower "internship", score);
    (Py.contains "program" category_lower &&
       String.eqb opp_category_lower "program", score);
    (Py.contains "aicte" opp_name_lower &&
       Py.contains "category-specific" category_lower, score);
    (Py.contains "central" opp_name_lower &&
       Py.contains "income-based" category_lower, score);
    (Py.contains "state" opp_name_lower && Py.contains "state" category_lower, score);
    (Py.contains "nptel" opp_name_lower && Py.contains "research" category_lower, score);
    (Py.contains "ministry" opp_name_lower &&
       Py.contains "innovation" category_lower, score);
    (Py.contains "skill" category_lower &&
       String.eqb opp_category_lower "program", score * 0.7);
    (Py.contains "merit" category_lower &&
       EligibilityCriteria.merit_based (Opportunity.eligibility_criteria opportunity),
     score * 0.8) ].

(** The values offered by the heuristics that fire for one blindspot. *)
Definition fired_values (opportunity : Opportunity.t) (blindspot : Blindspot.t)
  : list Q :=
  map snd (filter fst (heuristics opportunity blindspot)).

(** The values offered by the heuristics that fire, over all blindspots. *)
Definition alignments (opportunity : Opportunity.t) (blindspots : list Blindspot.t)
  : list Q :=
  flat_map (fired_values opportunity) blindspots.

(** [m] is a greatest element of [xs]. *)
Definition is_maximum_of (m : Q) (xs : list Q) : Prop :=
  In m xs /\ Forall (fun v => v <= m) xs.

(** The summands of the relevance score. *)
Definition impact_weight (level : ImpactLevel.t) : Q :=
  match level with
  | ImpactLevel.HIGH => 0.3
  | ImpactLevel.MEDIUM => 0.2
  | ImpactLevel.LOW => 0.1
  end.

Definition visibility_weight (level : VisibilityLevel.t) : Q :=
  match level with
  | VisibilityLevel.LOW => 0.2
  | VisibilityLevel.MEDIUM => 0.15
  | VisibilityLevel.HIGH => 0.1
  end.

(** Scholarship -> Scholarships, Internship -> Internships, Program -> Skills. *)
Definition goal_of_category (category : string) : option OpportunityGoal.t :=
  if String.eqb category "Scholarship" then Some OpportunityGoal.SCHOLARSHIPS
  else if String.eqb category "Internship" then Some OpportunityGoal.INTERNSHIPS
  else if String.eqb category "Program" then Some OpportunityGoal.SKILLS
  else None.

Definition goal_bonus (analysis : ProfileAnalysis.t) (opportunity : Opportunity.t) : Q :=
  match goal_of_category (Opportunity.category opportunity) with
  | Some goal =>
    if Py.In_ OpportunityGoal.eqb goal (ProfileAnalysis.priority_goals analysis)
    then 0.1 else 0
  | None => 0
  end.

(** The category of the opportunity maps to one of the priority goals. *)
Definition maps_to_priority_goal (analysis : ProfileAnalysis.t)
  (opportunity : Opportunity.t) : bool :=
  match goal_of_category (Opportunity.category opportunity) with
  | Some goal => Py.In_ OpportunityGoal.eqb goal (ProfileAnalysis.priority_goals analysis)
  | None => false
  end.

(** The relevance score as a sum of binary64 numbers, taken from left to
    right with every operation rounded to nearest, then capped at 1.0. *)
Module Rounded.

Import PrimFloat.
#[local] Set Warnings "-inexact-float".
Local Open Scope float_scope.

Definition impact_weight (level : ImpactLevel.t) : float :=
  match level with
  | ImpactLevel.HIGH => 0.3
  | ImpactLevel.MEDIUM => 0.2
  | ImpactLevel.LOW => 0.1
  end.

Definition visibility_weight (level : VisibilityLevel.t) : float :=
  match level with
  | VisibilityLevel.LOW => 0.2
  | VisibilityLevel.MEDIUM => 0.15
  | VisibilityLevel.HIGH => 0.1
  end.

Definition relevance (analysis : ProfileAnalysis.t) (opportunity : Opportunity.t)
  (alignment : float) : float :=
  let total := 0.0 + alignment * 0.4
               + impact_weight (Opportunity.impact_level opportunity)
               + visibility_weight (Opportunity.visibility_level opportunity) in
  let total := if maps_to_priority_goal analysis opportunity
               then total + 0.1 else total in
  if 1.0 <? total then 1.0 else total.

End Rounded.

(** The criteria with the income and merit flags replaced. *)
Definition with_flags (income merit : bool) (criteria : EligibilityCriteria.t)
  : EligibilityCriteria.t :=
  {| EligibilityCriteria.education_levels := EligibilityCriteria.education_levels criteria;
     EligibilityCriteria.fields_of_study := EligibilityCriteria.fields_of_study criteria;
     EligibilityCriteria.institution_types := EligibilityCriteria.institution_types criteria;
     EligibilityCriteria.background_requirements :=
       EligibilityCriteria.background_requirements criteria;
     EligibilityCriteria.income_based := income;
     EligibilityCriteria.merit_based := merit |}.

(** The four constraints of the eligibility criteria: each one is unset
    or met by the profile. *)
Definition meets_constraints (profile : StudentProfile.t)
  (criteria : EligibilityCriteria.t) : Prop :=
  In (StudentProfile.education_level profile)
     (EligibilityCriteria.education_levels criteria) /\
  (forall fields, EligibilityCriteria.fields_of_study criteria = Some fields ->
     In (StudentProfile.field_of_study profile) fields) /\
  (forall types, EligibilityCriteria.institution_types criteria = Some types ->
     In (StudentProfile.institution_type profile) types) /\
  (forall reqs, EligibilityCriteria.background_requirements criteria = Some reqs ->
     exists req, In req reqs /\ In req (StudentProfile.background_indicators profile)).

(** [sample_profile] without the financial-support indicator. *)
Definition rural_profile : StudentProfile.t := {|
  StudentProfile.name := "Asha";
  StudentProfile.age := 20;
  StudentProfile.education_level := EducationLevel.UG;
  StudentProfile.degree := "B.Tech";
  StudentProfile.field_of_study := "Computer Science";
  StudentProfile.year_of_study := 2;
  StudentProfile.institution_type := InstitutionType.GOVERNMENT;
  StudentProfile.background_indicators := [BackgroundIndicator.RURAL];
  StudentProfile.opportunity_goals := [OpportunityGoal.SCHOLARSHIPS];
  StudentProfile.missed_opportunities_before := MissedOpportunityFrequency.YES_MANY_TIMES;
  StudentProfile.gender := None;
  StudentProfile.additional_context := None |}.

(** A blindspot whose score is low, about scholarships. *)
Definition faint_blindspot : Blindspot.t :=
  BlindspotIdentifier.blindspot "Scholarship basics" "Rarely explained" 0.1.

(** A process whose knowledge base is empty. *)
Definition empty_world : World := {| OPPORTUNITIES := []; calls := [] |}.

(** Every object of [before] is in [after], at its address and as it
    was; [after] may hold objects created since. *)
Definition unchanged (before after : Store.Heap) : Prop :=
  exists created, after = before ++ created.

(** The references point to objects of the store. *)
Definition allocated (heap : Store.Heap) (refs : list Store.Ref) : Prop :=
  Forall (fun r => (r < List.length heap)%nat) refs.

(** The lists a profile and an analysis refer to. *)
Definition lists_of_profile (profile : Live.StudentProfile) : list Store.Ref :=
  [Live.background_indicators profile; Live.opportunity_goals profile].

Definition lists_of_analysis (analysis : Live.ProfileAnalysis) : list Store.Ref :=
  [Live.key_characteristics analysis; Live.eligibility_tags analysis;
   Live.priority_goals analysis].

(** What an argument or a result reads as in a store: the profile and
    the analysis with the lists behind their references, the list of
    blindspots or of matches behind a reference, the catalog. *)
Definition profile_in (heap : Store.Heap) (profile : Live.StudentProfile)
  : StudentProfile.t :=
  fst (Stateful.the_profile profile heap).

Definition analysis_in (heap : Store.Heap) (analysis : Live.ProfileAnalysis)
  : ProfileAnalysis.t :=
  fst (Stateful.the_analysis analysis heap).

Definition blindspots_in (heap : Store.Heap) (r : Store.Ref) : list Blindspot.t :=
  fst (Store.read Store.blindspots r heap).

Definition matches_in (heap : Store.Heap) (r : Store.Ref) : list OpportunityMatch.t :=
  fst (Store.read Store.matches r heap).

Definition outcome_in (heap : Store.Heap) (outcome : Py.Result Store.Ref)
  : Py.Result (list Blindspot.t) :=
  match outcome with
  | Py.Returned r => Py.Returned (blindspots_in heap r)
  | Py.Raised e => Py.Raised e
  end.

Definition catalog_in (heap : Store.Heap) : list Opportunity.t :=
  fst (Store.read Store.opportunities Stateful.OPPORTUNITIES heap).

(** [call], made twice in a row from [heap], leaves every object that
    existed before it as it was, both times, and both results read as
    [value]; the first result still does after the second call. *)
Definition yields_twice {A V : Type} (read_as : Store.Heap -> A -> V)
  (call : Store.H A) (heap : Store.Heap) (value : V) : Prop :=
  let (first, after_first) := call heap in
  let (second, after_second) := call after_first in
  unchanged heap after_first /\
  unchanged after_first after_second /\
  read_as after_first first = value /\
  read_as after_second second = value /\
  read_as after_second first = value.

(** A store with the shipped catalog, the lists of the sample profile and
    of its analysis, and a list of blindspots. *)
Definition sample_heap : Store.Heap :=
  [ Store.Opportunities KnowledgeBase.initial_OPPORTUNITIES;
    Store.Indicators (StudentProfile.background_indicators sample_profile);
    Store.Goals (StudentProfile.opportunity_goals sample_profile);
    Store.Texts (ProfileAnalysis.key_characteristics
                   (ProfileAnalyzer.analyze sample_profile));
    Store.Texts (ProfileAnalysis.eligibility_tags
                   (ProfileAnalyzer.analyze sample_profile));
    Store.Blindspots
      [BlindspotIdentifier.blindspot "Income-based Central Government Scholarships"
         "Many students don't know about central government scholarships that don't require high merit"
         0.9] ].

Definition sample_live_profile : Live.StudentProfile := {|
  Live.name := StudentProfile.name sample_profile;
  Live.age := StudentProfile.age sample_profile;
  Live.education_level := StudentProfile.education_level sample_profile;
  Live.degree := StudentProfile.degree sample_profile;
  Live.field_of_study := StudentProfile.field_of_study sample_profile;
  Live.year_of_study := StudentProfile.year_of_study sample_profile;
  Live.institution_type := StudentProfile.institution_type sample_profile;
  Live.background_indicators := 1%nat;
  Live.opportunity_goals := 2%nat;
  Live.missed_opportunities_before :=
    StudentProfile.missed_opportunities_before sample_profile;
  Live.gender := StudentProfile.gender sample_profile;
  Live.additional_context := StudentProfile.additional_context sample_profile |}.

Definition sample_live_analysis : Live.ProfileAnalysis := {|
  Live.key_characteristics := 3%nat;
  Live.eligibility_tags := 4%nat;
  Live.awareness_level := AwarenessLevel.LOW;
  Live.priority_goals := 2%nat |}.

(** The process state of the functional embedding that holds the catalog
    of the store. *)
Definition world_of (heap : Store.Heap) : World :=
  {| OPPORTUNITIES := catalog_in heap; calls := [] |}.

(** ** Further vocabulary *)

(** Some character of the string is not white space. *)
Definition has_ink (s : string) : bool :=
  existsb (fun c => negb (Py.is_space c)) (list_ascii_of_string s).

(** The field names [validate] can report. *)
Definition required_fields : list string :=
  ["name"; "age"; "education_level"; "degree"; "field_of_study"; "year_of_study";
   "institution_type"; "opportunity_goals"; "missed_opportunities_before"].

(** The component calls of a full submission, in order. *)
Definition pipeline_stages : list Call :=
  [ CallValidate; CallAnalyze; CallProfileSummary; CallIdentifyBlindspots;
    CallMatchOpportunities; CallFinalInsight ].

(** [xs] is in strictly descending order of [key]. *)
Definition strictly_descending {A : Type} (key : A -> Q) (xs : list A) : Prop :=
  StronglySorted (fun a b => key b < key a) xs.

(** The blindspot of rule 1. *)
Definition income_based_blindspot : Blindspot.t :=
  BlindspotIdentifier.blindspot "Income-based Central Government Scholarships"
    "Many students don't know about central government scholarships that don't require high merit"
    0.9.

(** Ranks of the three-valued levels, for comparing them. *)
Definition miss_rank (m : MissProbability.t) : nat :=
  match m with
  | MissProbability.LOW => 0
  | MissProbability.MEDIUM => 1
  | MissProbability.HIGH => 2
  end.

Definition visibility_rank (v : VisibilityLevel.t) : nat :=
  match v with
  | VisibilityLevel.LOW => 0
  | VisibilityLevel.MEDIUM => 1
  | VisibilityLevel.HIGH => 2
  end.

Definition awareness_rank (a : AwarenessLevel.t) : nat :=
  match a with
  | AwarenessLevel.LOW => 0
  | AwarenessLevel.MEDIUM => 1
  | AwarenessLevel.HIGH => 2
  end.

(** The opportunity with another visibility level. *)
Definition with_visibility (v : VisibilityLevel.t) (o : Opportunity.t) : Opportunity.t :=
  {| Opportunity.id := Opportunity.id o;
     Opportunity.name := Opportunity.name o;
     Opportunity.description := Opportunity.description o;
     Opportunity.eligibility_criteria := Opportunity.eligibility_criteria o;
     Opportunity.visibility_level := v;
     Opportunity.impact_level := Opportunity.impact_level o;
     Opportunity.category := Opportunity.category o |}.

(** Decision procedures used to settle finitely many cases by evaluation. *)

(** [f] holds of both booleans. *)
Definition all_bool (f : bool -> bool) : bool := f true && f false.

(** [a < b] on rationals, as a boolean. *)
Definition Qlt_bool (a b : Q) : bool := negb (Qle_bool b a).

(** [xs] is in strictly descending order of [key], as a boolean. *)
Fixpoint strictly_descending_b {A : Type} (key : A -> Q) (xs : list A) : bool :=
  match xs with
  | [] => true
  | x :: rest =>
    forallb (fun y => Qlt_bool (key y) (key x)) rest && strictly_descending_b key rest
  end.

(** No string occurs twice, as a boolean. *)
Fixpoint distinct_strings_b (xs : list string) : bool :=
  match xs with
  | [] => true
  | x :: rest => negb (Py.In_ String.eqb x rest) && distinct_strings_b rest
  end.

(** Equality of blindspots, field by field, as a boolean. *)
Definition blindspot_eqb (a b : Blindspot.t) : bool :=
  String.eqb (Blindspot.category a) (Blindspot.category b) &&
  String.eqb (Blindspot.reason a) (Blindspot.reason b) &&
  Z.eqb (Qnum (Blindspot.relevance_score a)) (Qnum (Blindspot.relevance_score b)) &&
  Pos.eqb (Qden (Blindspot.relevance_score a)) (Qden (Blindspot.relevance_score b)).

(** The list starts with the blindspot, as a boolean. *)
Definition starts_with_b (b : Blindspot.t) (xs : list Blindspot.t) : bool :=
  match xs with
  | [] => false
  | x :: _ => blindspot_eqb x b
  end.

(** The blindspots and the matches a submission that passes validation
    is answered with. *)
Definition answer_blindspots (profile : StudentProfile.t) : list Blindspot.t :=
  firstn 5 (Py.sort_desc Blindspot.relevance_score
              (BlindspotIdentifier.accumulated profile
                 (ProfileAnalyzer.analyze profile))).

Definition answer_matches (profile : StudentProfile.t) (w : World)
  : list OpportunityMatch.t :=
  firstn 3 (Py.sort_desc OpportunityMatch.relevance_score
              (map (OpportunityMatcher.make_match profile
                      (ProfileAnalyzer.analyze profile) (answer_blindspots profile))
                   (eligible_opportunities profile (OPPORTUNITIES w)))).

(** ** json_matcher.py *)

Module JSONOpportunityMatcher.

(** The values the matcher reads from its dictionaries: the JSON scalars
    [null], booleans, integers and strings.  Floats, arrays and objects
    as field values are left out. *)
Inductive Json : Type :=
| JNull
| JBool (b : bool)
| JInt (n : Z)
| JStr (s : string).

(** The number a boolean or an integer compares as. *)
Definition as_number (v : Json) : option Z :=
  match v with
  | JBool b => Some (if b then 1 else 0)%Z
  | JInt n => Some n
  | _ => None
  end.

(** [a == b] *)
Definition eqb (a b : Json) : bool :=
  match a, b with
  | JNull, JNull => true
  | JStr s, JStr t => String.eqb s t
  | _, _ =>
    match as_number a, as_number b with
    | Some x, Some y => Z.eqb x y
    | _, _ => false
    end
  end.

(** A [dict] with string keys, as its items in insertion order. *)
Definition Dict : Type := list (string * Json).

(** [d.get(key, default)] *)
Fixpoint get (d : Dict) (key : string) (default : Json) : Json :=
  match d with
  | [] => default
  | (k, v) :: rest => if String.eqb k key then v else get rest key default
  end.

(** [d[key] = value]: the value is replaced in place when the key is
    there, the item is added at the end otherwise. *)
Fixpoint setitem (d : Dict) (key : string) (value : Json) : Dict :=
  match d with
  | [] => [(key, value)]
  | (k, v) :: rest =>
    if String.eqb k key then (k, value) :: rest else (k, v) :: setitem rest key value
  end.

Definition Any : Json := JStr "Any".

(** One constraint of [is_eligible]: set and different from the
    student's value. *)
Definition rejects (student opportunity : Dict) (opp_key student_key : string) : bool :=
  let opp_value := get opportunity opp_key Any in
  negb (eqb opp_value Any) && negb (eqb opp_value (get student student_key JNull)).

Definition is_eligible (student opportunity : Dict) : bool :=
  if rejects student opportunity "education_level" "education_level" then false
  else if rejects student opportunity "eligible_fields" "field" then false
  else if rejects student opportunity "target_year" "year" then false
  else if rejects student opportunity "institution_type" "institution_type" then false
  else if rejects student opportunity "background_priority" "background" then false
  else true.

(** One exact-match point of [calculate_score]: set and equal to the
    student's value. *)
Definition matches_exactly (student opportunity : Dict) (opp_key student_key : string)
  : bool :=
  let opp_value := get opportunity opp_key Any in
  negb (eqb opp_value Any) && eqb opp_value (get student student_key JNull).

Definition calculate_score (student opportunity : Dict) : Z :=
  let score := 0%Z in
  let score :=
    if matches_exactly student opportunity "education_level" "education_level"
    then (score + 1)%Z else score in
  let score :=
    if matches_exactly student opportunity "eligible_fields" "field"
    then (score + 1)%Z else score in
  let score :=
    if matches_exactly student opportunity "target_year" "year"
    then (score + 1)%Z else score in
  let score :=
    if matches_exactly student opportunity "institution_type" "institution_type"
    then (score + 1)%Z else score in
  let score :=
    if matches_exactly student opportunity "background_priority" "background"
    then (score + 1)%Z else score in
  let score :=
    if eqb (get opportunity "awareness_level" JNull) (JStr "Low")
    then (score + 1)%Z else score in
  let score :=
    if eqb (get opportunity "miss_probability" JNull) (JStr "High")
    then (score + 1)%Z else score in
  score.

(** The sort key [x['matching_score']]; the key is always present in
    the dictionaries sorted, [match_opportunities] has just set it. *)
Definition matching_score (x : Dict) : Q :=
  match get x "matching_score" JNull with
  | JInt n => inject_Z n
  | _ => 0
  end.

(** The copy of an eligible opportunity with its score. *)
Definition with_score (student opportunity : Dict) : Dict :=
  setitem opportunity "matching_score" (JInt (calculate_score student opportunity)).

(** [match_opportunities], with [self.opportunities] as a parameter. *)
Definition match_opportunities (opportunities : list Dict) (student : Dict)
  : list Dict :=
  let eligible_opportunities :=
    fold_left
      (fun eligible_opportunities opportunity =>
         if is_eligible student opportunity
         then eligible_opportunities ++ [with_score student opportunity]
         else eligible_opportunities)
      opportunities [] in
  Py.sort_desc matching_score eligible_opportunities.

End JSONOpportunityMatcher.

(** ** app.py: preparing the student data for the JSON matcher *)

Module App.

Definition _convert_year_to_string (year : Z) : string :=
  if (year =? 1)%Z then "1st"
  else if (year =? 2)%Z then "2nd"
  else if (year =? 3)%Z then "3rd"
  else if (year >=? 4)%Z then "Final"
  else "Any".

Definition _normalize_field_of_study (field : string) : string :=
  let field_lower := Py.strip (Py.lower field) in
  if Py.any (fun term => Py.contains term field_lower)
       ["engineering"; "engineer"; "tech"; "b.tech"; "btech"]
  then "Engineering"
  else if Py.any (fun term => Py.contains term field_lower)
            ["science"; "physics"; "chemistry"; "biology"; "bsc"; "b.sc"]
  then "Science"
  else if Py.any (fun term => Py.contains term field_lower)
            ["commerce"; "bcom"; "b.com"; "accounting"; "finance"]
  then "Commerce"
  else if Py.any (fun term => Py.contains term field_lower)
            ["computer"; "cs"; "it"; "information technology"]
  then "Engineering"
  else field.

Definition priority_map : list (BackgroundIndicator.t * string) :=
  [ (BackgroundIndicator.FINANCIAL_SUPPORT, "Financial Need");
    (BackgroundIndicator.FIRST_GENERATION, "Financial Need");
    (BackgroundIndicator.RURAL, "Rural");
    (BackgroundIndicator.DISABLED, "Any");
    (BackgroundIndicator.MINORITY, "Any") ].

(** [priority_map[indicator]] when [indicator in priority_map]. *)
Fixpoint lookup (d : list (BackgroundIndicator.t * string))
  (indicator : BackgroundIndicator.t) : option string :=
  match d with
  | [] => None
  | (k, v) :: rest =>
    if BackgroundIndicator.eqb indicator k then Some v else lookup rest indicator
  end.

(** The loop over the indicators: the first mapped value other than Any. *)
Fixpoint first_priority (background_indicators : list BackgroundIndicator.t) : string :=
  match background_indicators with
  | [] => "Any"
  | indicator :: rest =>
    match lookup priority_map indicator with
    | Some mapped =>
      if negb (String.eqb mapped "Any") then mapped else first_priority rest
    | None => first_priority rest
    end
  end.

Definition _get_primary_background
  (background_indicators : list BackgroundIndicator.t) (gender : option string)
  : string :=
  if match gender with
     | Some g => Py.truthy_str g && String.eqb (Py.lower g) "female"
     | None => false
     end
  then "Women"
  else if negb (Py.truthy background_indicators) then "Any"
  else first_priority background_indicators.

(** The dictionary [submit_form] hands to the JSON matcher. *)
Definition student_data (profile : StudentProfile.t) : JSONOpportunityMatcher.Dict :=
  [ ("education_level",
     JSONOpportunityMatcher.JStr
       (EducationLevel.value (StudentProfile.education_level profile)));
    ("field",
     JSONOpportunityMatcher.JStr
       (_normalize_field_of_study (StudentProfile.field_of_study profile)));
    ("year",
     JSONOpportunityMatcher.JStr
       (_convert_year_to_string (StudentProfile.year_of_study profile)));
    ("institution_type",
     JSONOpportunityMatcher.JStr
       (InstitutionType.value (StudentProfile.institution_type profile)));
    ("background",
     JSONOpportunityMatcher.JStr
       (_get_primary_background (StudentProfile.background_indicators profile)
          (StudentProfile.gender profile))) ].

End App.

(** Vocabulary for the JSON matcher. *)

(** The constraint is set: its value is not Any (a missing key counts
    as Any). *)
Definition constrains (opportunity : JSONOpportunityMatcher.Dict) (key : string) : bool :=
  negb (JSONOpportunityMatcher.eqb
          (JSONOpportunityMatcher.get opportunity key JSONOpportunityMatcher.Any)
          JSONOpportunityMatcher.Any).

Definition count_true (flags : list bool) : Z :=
  Z.of_nat (List.length (filter (fun b => b) flags)).

(** How many of the five constraints the opportunity sets. *)
Definition specificity (opportunity : JSONOpportunityMatcher.Dict) : Z :=
  count_true (map (constrains opportunity)
                ["education_level"; "eligible_fields"; "target_year";
                 "institution_type"; "background_priority"]).

(** The blindspot boost: one point for Low awareness, one for High miss
    probability. *)
Definition boost (opportunity : JSONOpportunityMatcher.Dict) : Z :=
  count_true
    [ JSONOpportunityMatcher.eqb
        (JSONOpportunityMatcher.get opportunity "awareness_level"
           JSONOpportunityMatcher.JNull) (JSONOpportunityMatcher.JStr "Low");
      JSONOpportunityMatcher.eqb
        (JSONOpportunityMatcher.get opportunity "miss_probability"
           JSONOpportunityMatcher.JNull) (JSONOpportunityMatcher.JStr "High") ].

(** The opportunities of a list the student is eligible for. *)
Definition json_eligible (student : JSONOpportunityMatcher.Dict)
  (opportunities : list JSONOpportunityMatcher.Dict) : list JSONOpportunityMatcher.Dict :=
  filter (JSONOpportunityMatcher.is_eligible student) opportunities.

(** ** The profile as it is submitted

    [StudentProfile.t] gives every required field its declared type.
    The dataclass itself is built from form input: any required field
    may hold [None] (the form validation tests build such profiles),
    and a text field holds a Unicode string.  [StudentProfile.validate]
    and [_validate_field_values] are the code that faces such a profile;
    they are embedded here over the profile as submitted, with every
    [is None] test of the source and with the white space of
    [str.strip()]. *)

Module Unicode.

(** A [str] as the sequence of its code points. *)
Definition str : Type := list N.

(** [c.isspace()], which decides what [strip()] removes: U+0009 to
    U+000D, U+001C to U+0020, U+0085, U+00A0, U+1680, U+2000 to U+200A,
    U+2028, U+2029, U+202F, U+205F and U+3000. *)
Definition is_space (c : N) : bool :=
  (((9 <=? c) && (c <=? 13)) || ((28 <=? c) && (c <=? 32))
   || (c =? 133) || (c =? 160) || (c =? 5760)
   || ((8192 <=? c) && (c <=? 8202))
   || (c =? 8232) || (c =? 8233) || (c =? 8239) || (c =? 8287)
   || (c =? 12288))%N.

Fixpoint lstrip (s : str) : str :=
  match s with
  | [] => []
  | c :: t => if is_space c then lstrip t else s
  end.

(** [s.strip()] *)
Definition strip (s : str) : str := rev (lstrip (rev (lstrip s))).

(** The code points of a string of one-byte characters. *)
Definition of_string (s : string) : str := map N_of_ascii (list_ascii_of_string s).

End Unicode.

Module Submitted.

Record t : Type := {
  name : option Unicode.str;
  age : option Z;
  education_level : option EducationLevel.t;
  degree : option Unicode.str;
  field_of_study : option Unicode.str;
  year_of_study : option Z;
  institution_type : option InstitutionType.t;
  background_indicators : list BackgroundIndicator.t;
  opportunity_goals : option (list OpportunityGoal.t);
  missed_opportunities_before : option MissedOpportunityFrequency.t;
  gender : option Unicode.str;
  additional_context : option Unicode.str
}.

(** [x is None] *)
Definition is_None {A : Type} (x : option A) : bool :=
  match x with None => true | Some _ => false end.

(** [x is None or test(x)] *)
Definition is_None_or {A : Type} (test : A -> bool) (x : option A) : bool :=
  match x with None => true | Some v => test v end.

(** [x is not None and test(x)] *)
Definition is_not_None_and {A : Type} (test : A -> bool) (x : option A) : bool :=
  match x with None => false | Some v => test v end.

(** [not s or not s.strip()]: [None] and the empty string are falsy. *)
Definition blank (s : option Unicode.str) : bool :=
  match s with
  | None => true
  | Some text => negb (Py.truthy text) || negb (Py.truthy (Unicode.strip text))
  end.

(** [not xs] for a list that may be [None]. *)
Definition not_ {A : Type} (xs : option (list A)) : bool :=
  match xs with
  | None => true
  | Some items => negb (Py.truthy items)
  end.

(** [StudentProfile.validate]: [(is_valid, missing_fields)]. *)
Definition validate (self : t) : bool * list string :=
  let missing_fields := [] in
  let missing_fields := Py.append_if (blank (name self)) "name" missing_fields in
  let missing_fields :=
    Py.append_if (is_None_or (fun value => value <=? 0)%Z (age self)) "age" missing_fields in
  let missing_fields :=
    Py.append_if (is_None (education_level self)) "education_level" missing_fields in
  let missing_fields := Py.append_if (blank (degree self)) "degree" missing_fields in
  let missing_fields :=
    Py.append_if (blank (field_of_study self)) "field_of_study" missing_fields in
  let missing_fields :=
    Py.append_if (is_None_or (fun value => value <=? 0)%Z (year_of_study self))
                 "year_of_study" missing_fields in
  let missing_fields :=
    Py.append_if (is_None (institution_type self)) "institution_type" missing_fields in
  let missing_fields :=
    Py.append_if (not_ (opportunity_goals self)) "opportunity_goals" missing_fields in
  let missing_fields :=
    Py.append_if (is_None (missed_opportunities_before self))
                 "missed_opportunities_before" missing_fields in
  (Nat.eqb (List.length missing_fields) 0, missing_fields).

(** [ApplicationController._validate_field_values] *)
Definition _validate_field_values (profile : t) : list string :=
  let invalid_fields := [] in
  let invalid_fields :=
    Py.append_if (is_not_None_and (fun value => value <? 0)%Z (age profile))
                 "age (must be positive)" invalid_fields in
  let invalid_fields :=
    Py.append_if (is_not_None_and (fun value => value >? 150)%Z (age profile))
                 "age (must be realistic)" invalid_fields in
  let invalid_fields :=
    Py.append_if (is_not_None_and (fun value => value <? 0)%Z (year_of_study profile))
                 "year_of_study (must be positive)" invalid_fields in
  let invalid_fields :=
    Py.append_if (is_not_None_and (fun value => value >? 10)%Z (year_of_study profile))
                 "year_of_study (must be realistic)" invalid_fields in
  invalid_fields.

End Submitted.

(** The two validations [handle_form_submission] runs before anything
    else: no invalid value, then no missing field. *)
Definition valid_submission (profile : Submitted.t) : bool :=
  negb (Py.truthy (Submitted._validate_field_values profile)) &&
  fst (Submitted.validate profile).

(** A profile of [StudentProfile.t], as a submission with every required
    field present. *)
Definition as_submitted (profile : StudentProfile.t) : Submitted.t := {|
  Submitted.name := Some (Unicode.of_string (StudentProfile.name profile));
  Submitted.age := Some (StudentProfile.age profile);
  Submitted.education_level := Some (StudentProfile.education_level profile);
  Submitted.degree := Some (Unicode.of_string (StudentProfile.degree profile));
  Submitted.field_of_study := Some (Unicode.of_string (StudentProfile.field_of_study profile));
  Submitted.year_of_study := Some (StudentProfile.year_of_study profile);
  Submitted.institution_type := Some (StudentProfile.institution_type profile);
  Submitted.background_indicators := StudentProfile.background_indicators profile;
  Submitted.opportunity_goals := Some (StudentProfile.opportunity_goals profile);
  Submitted.missed_opportunities_before := Some (StudentProfile.missed_opportunities_before profile);
  Submitted.gender := option_map Unicode.of_string (StudentProfile.gender profile);
  Submitted.additional_context := option_map Unicode.of_string (StudentProfile.additional_context profile)
|}.

(** Some code point of the text is not white space. *)
Definition has_visible (text : Unicode.str) : bool :=
  existsb (fun c => negb (Unicode.is_space c)) text.

(** A text field that is filled in and one that is not: absent, empty or
    white space only. *)
Definition filled_in (field : option Unicode.str) : Prop :=
  exists text, field = Some text /\ has_visible text = true.

Definition not_filled_in (field : option Unicode.str) : Prop :=
  forall text, field = Some text -> has_visible text = false.

(** A number field that is present and within [low..high], and one that
    is absent or not positive. *)
Definition within (low high : Z) (field : option Z) : Prop :=
  exists n, field = Some n /\ (low <= n <= high)%Z.

Definition not_positive (field : option Z) : Prop :=
  forall n, field = Some n -> (n <= 0)%Z.

(** Every character of the string is an ASCII character. *)
Definition ascii_only (s : string) : bool :=
  forallb (fun c => (N_of_ascii c <? 128)%N) (list_ascii_of_string s).

(** The submission [s] with another name and another education level. *)
Definition with_name_and_level (name : option Unicode.str)
  (level : option EducationLevel.t) (s : Submitted.t) : Submitted.t := {|
  Submitted.name := name;
  Submitted.age := Submitted.age s;
  Submitted.education_level := level;
  Submitted.degree := Submitted.degree s;
  Submitted.field_of_study := Submitted.field_of_study s;
  Submitted.year_of_study := Submitted.year_of_study s;
  Submitted.institution_type := Submitted.institution_type s;
  Submitted.background_indicators := Submitted.background_indicators s;
  Submitted.opportunity_goals := Submitted.opportunity_goals s;
  Submitted.missed_opportunities_before := Submitted.missed_opportunities_before s;
  Submitted.gender := Submitted.gender s;
  Submitted.additional_context := Submitted.additional_context s
|}.

(** * Verification *)

(** ** Properties of the stable descending sort *)

Lemma Forall_firstn {A : Type} (P : A -> Prop) (n : nat) (xs : list A) :
  Forall P xs -> Forall P (firstn n xs).
Proof.
  revert n. induction xs as [|x rest IH]; intros [|n] H; simpl; try constructor.
  - now inversion H.
  - inversion H; subst. now apply IH.
Qed.

Section SortFacts.
Context {A : Type} (key : A -> Q).

Lemma insert_desc_perm (x : A) (xs : list A) :
  Permutation (x :: xs) (Py.insert_desc key x xs).
Proof.
  induction xs as [|y ys IH]; simpl.
  - apply Permutation_refl.
  - destruct (Qle_bool (key y) (key x)).
    + apply Permutation_refl.
    + eapply perm_trans; [apply perm_swap|]. now apply perm_skip.
Qed.

Lemma sort_desc_perm (xs : list A) : Permutation xs (Py.sort_desc key xs).
Proof.
  induction xs as [|x rest IH]; simpl.
  - constructor.
  - eapply perm_trans; [|apply insert_desc_perm]. now apply perm_skip.
Qed.

Lemma sort_desc_length (xs : list A) :
  List.length (Py.sort_desc key xs) = List.length xs.
Proof. symmetry. apply Permutation_length, sort_desc_perm. Qed.

Lemma insert_desc_descending (x : A) (xs : list A) :
  descending key xs -> descending key (Py.insert_desc key x xs).
Proof.
  unfold descending.
  induction xs as [|y ys IH]; simpl; intros Hs.
  - repeat constructor.
  - inversion Hs as [|? ? Hys Hall]; subst.
    destruct (Qle_bool (key y) (key x)) eqn:E.
    + apply Qle_bool_iff in E.
      constructor; [assumption|].
      constructor; [assumption|].
      eapply Forall_impl; [|exact Hall].
      intros z Hz. simpl in Hz. eapply Qle_trans; eassumption.
    + assert (Hlt : key x < key y).
      { apply Qnot_le_lt. intros H. apply Qle_bool_iff in H. congruence. }
      constructor; [now apply IH|].
      eapply Permutation_Forall; [apply insert_desc_perm|].
      constructor; [now apply Qlt_le_weak | assumption].
Qed.

Lemma sort_desc_descending (xs : list A) : descending key (Py.sort_desc key xs).
Proof.
  induction xs as [|x rest IH]; simpl.
  - constructor.
  - now apply insert_desc_descending.
Qed.

Lemma insert_desc_filter (s : Q) (x : A) (xs : list A) :
  filter (fun a => Qeq_bool (key a) s) (Py.insert_desc key x xs) =
  filter (fun a => Qeq_bool (key a) s) (x :: xs).
Proof.
  induction xs as [|y ys IH]; [reflexivity|].
  cbn [Py.insert_desc].
  destruct (Qle_bool (key y) (key x)) eqn:E; [reflexivity|].
  cbn [filter] in *. rewrite IH.
  destruct (Qeq_bool (key x) s) eqn:Ex; [|reflexivity].
  destruct (Qeq_bool (key y) s) eqn:Ey; [|reflexivity].
  apply Qeq_bool_iff in Ex, Ey.
  assert (Hle : Qle_bool (key y) (key x) = true).
  { apply Qle_bool_iff. rewrite Ex, Ey. apply Qle_refl. }
  congruence.
Qed.

Lemma sort_desc_filter (s : Q) (xs : list A) :
  filter (fun a => Qeq_bool (key a) s) (Py.sort_desc key xs) =
  filter (fun a => Qeq_bool (key a) s) xs.
Proof.
  induction xs as [|x rest IH]; [reflexivity|].
  cbn [Py.sort_desc]. rewrite insert_desc_filter. cbn [filter]. now rewrite IH.
Qed.

Lemma sort_desc_stable (xs : list A) :
  stable_sorted_desc key xs (Py.sort_desc key xs).
Proof.
  split; [apply sort_desc_perm|].
  split; [apply sort_desc_descending|].
  intros s. apply sort_desc_filter.
Qed.

Lemma descending_firstn (n : nat) (xs : list A) :
  descending key xs -> descending key (firstn n xs).
Proof.
  unfold descending. revert n.
  induction xs as [|x rest IH]; intros [|n] Hs; simpl; try constructor.
  - inversion Hs; subst. now apply IH.
  - inversion Hs as [|? ? _ Hall]; subst.
    now apply Forall_firstn.
Qed.

End SortFacts.

(** ** The blindspot identifier *)

Section BlindspotFacts.
Import BlindspotIdentifier.

Lemma append_if_Forall {A : Type} (P : A -> Prop) (c : bool) (x : A) (xs : list A) :
  P x -> Forall P xs -> Forall P (Py.append_if c x xs).
Proof.
  intros Hx Hxs. destruct c; simpl; [|assumption].
  apply Forall_app. split; [assumption|]. now constructor.
Qed.

Lemma literal_blindspot_well_formed (c r : string) (s : Q) :
  c <> "" -> r <> "" -> 0 < s -> s <= 1 ->
  well_formed_blindspot (blindspot c r s).
Proof. intros. repeat split; assumption. Qed.

Ltac literal_blindspot :=
  apply literal_blindspot_well_formed;
  [ discriminate | discriminate | reflexivity | discriminate ].

(** The fallback rules 10 to 12 bring any list to three elements. *)
Lemma fallback_rules_reach_three (xs : list Blindspot.t) :
  (3 <= List.length (rule_12 (rule_11 (rule_10 xs))))%nat.
Proof.
  destruct xs as [|a [|b [|c rest]]]; cbn; lia.
Qed.

Lemma accumulated_length (profile : StudentProfile.t) (analysis : ProfileAnalysis.t) :
  (3 <= List.length (accumulated profile analysis))%nat.
Proof. unfold accumulated. apply fallback_rules_reach_three. Qed.

Lemma accumulated_well_formed (profile : StudentProfile.t)
  (analysis : ProfileAnalysis.t) :
  Forall well_formed_blindspot (accumulated profile analysis).
Proof.
  unfold accumulated, rule_12, rule_11, rule_10, rule_9, primary_rules.
  repeat (apply append_if_Forall; [literal_blindspot|]).
  constructor.
Qed.

Lemma identify_blindspots_returns (profile : StudentProfile.t)
  (analysis : ProfileAnalysis.t) :
  identify_blindspots profile analysis =
  Py.Returned
    (firstn 5 (Py.sort_desc Blindspot.relevance_score (accumulated profile analysis))).
Proof.
  unfold identify_blindspots.
  pose proof (accumulated_length profile analysis) as Hlen.
  rewrite <- (sort_desc_length Blindspot.relevance_score) in Hlen.
  destruct (Nat.ltb_spec
              (List.length (Py.sort_desc Blindspot.relevance_score
                              (accumulated profile analysis))) 3) as [Hlt|_].
  - lia.
  - reflexivity.
Qed.

End BlindspotFacts.

(** C1.  For every student profile and analysis (so in particular for a
    valid profile and the analysis made of it), [identify_blindspots]
    returns a list of three to five blindspots; the list is in descending
    order of relevance score; it is the first five elements of the
    accumulated rule output sorted stably, so blindspots of equal score
    keep the order of their rules; and every element has a non-empty
    category, a non-empty reason and a score in (0,1]. *)
Theorem identify_blindspots_three_to_five_ranked :
  forall (profile : StudentProfile.t) (analysis : ProfileAnalysis.t),
  exists result : list Blindspot.t,
    BlindspotIdentifier.identify_blindspots profile analysis = Py.Returned result /\
    (3 <= List.length result <= 5)%nat /\
    descending Blindspot.relevance_score result /\
    (exists ranked : list Blindspot.t,
       stable_sorted_desc Blindspot.relevance_score
         (BlindspotIdentifier.accumulated profile analysis) ranked /\
       result = firstn 5 ranked) /\
    Forall well_formed_blindspot result.
Proof.
  intros profile analysis.
  set (ranked := Py.sort_desc Blindspot.relevance_score
                   (BlindspotIdentifier.accumulated profile analysis)).
  exists (firstn 5 ranked).
  split; [apply identify_blindspots_returns|].
  split.
  { rewrite length_firstn. subst ranked. rewrite sort_desc_length.
    pose proof (accumulated_length profile analysis). lia. }
  split; [apply descending_firstn, sort_desc_descending|].
  split; [exists ranked; split; [apply sort_desc_stable | reflexivity]|].
  apply Forall_firstn.
  eapply Permutation_Forall; [apply sort_desc_perm|].
  apply accumulated_well_formed.
Qed.

(** C9.  The internal-consistency error of [identify_blindspots] is
    unreachable.  Each of the rules 10, 11 and 12 appends its blindspot to
    any list of fewer than three; hence for every profile and analysis at
    least three blindspots have accumulated when the length is checked,
    the function raises for no message, and it returns a list. *)
Theorem identify_blindspots_never_raises :
  forall (profile : StudentProfile.t) (analysis : ProfileAnalysis.t)
         (short : list Blindspot.t),
    ((List.length short < 3)%nat ->
       (exists b, BlindspotIdentifier.rule_10 short = short ++ [b]) /\
       (exists b, BlindspotIdentifier.rule_11 short = short ++ [b]) /\
       (exists b, BlindspotIdentifier.rule_12 short = short ++ [b])) /\
    (3 <= List.length (BlindspotIdentifier.accumulated profile analysis))%nat /\
    (forall e, BlindspotIdentifier.identify_blindspots profile analysis <> Py.Raised e) /\
    (exists result,
       BlindspotIdentifier.identify_blindspots profile analysis = Py.Returned result).
Proof.
  intros profile analysis short.
  split.
  { intros Hshort.
    unfold BlindspotIdentifier.rule_10, BlindspotIdentifier.rule_11,
      BlindspotIdentifier.rule_12.
    apply Nat.ltb_lt in Hshort. rewrite Hshort. cbn [Py.append_if].
    repeat split; eexists; reflexivity. }
  split; [apply accumulated_length|].
  rewrite identify_blindspots_returns.
  split; [intros e; discriminate | eexists; reflexivity].
Qed.

Lemma identify_blindspots_never_raises_witness :
  (exists b, BlindspotIdentifier.rule_10 [] = [b]) /\
  exists result,
    BlindspotIdentifier.identify_blindspots sample_profile
      (ProfileAnalyzer.analyze sample_profile) = Py.Returned result.
Proof.
  destruct (identify_blindspots_never_raises sample_profile
              (ProfileAnalyzer.analyze sample_profile) [])
    as [Hfire [_ [_ Hret]]].
  split; [apply Hfire; simpl; lia | exact Hret].
Defined.

(** ** The opportunity matcher *)

Section MatcherFacts.
Import OpportunityMatcher.
Variables (profile : StudentProfile.t) (analysis : ProfileAnalysis.t)
          (blindspots : list Blindspot.t).

Lemma collect_eligible_from (catalog : list Opportunity.t)
  (found : list OpportunityMatch.t) :
  fold_left
    (fun all_eligible_matches opportunity =>
       if negb (is_eligible profile (Opportunity.eligibility_criteria opportunity))
       then all_eligible_matches
       else all_eligible_matches ++ [make_match profile analysis blindspots opportunity])
    catalog found =
  found ++ map (make_match profile analysis blindspots)
               (eligible_opportunities profile catalog).
Proof.
  revert found. induction catalog as [|o rest IH]; intros found; simpl.
  - now rewrite app_nil_r.
  - rewrite IH.
    destruct (is_eligible profile (Opportunity.eligibility_criteria o)); simpl.
    + now rewrite <- app_assoc.
    + reflexivity.
Qed.

Lemma collect_eligible_map (catalog : list Opportunity.t) :
  collect_eligible profile analysis blindspots catalog =
  map (make_match profile analysis blindspots) (eligible_opportunities profile catalog).
Proof. unfold collect_eligible. now rewrite collect_eligible_from. Qed.

(** Both exits of [match_opportunities] return the first three of the
    sorted matches, and the process state is as it was. *)
Lemma match_opportunities_run (w : World) :
  match_opportunities profile analysis blindspots w =
  (firstn 3 (Py.sort_desc OpportunityMatch.relevance_score
               (map (make_match profile analysis blindspots)
                    (eligible_opportunities profile (OPPORTUNITIES w)))), w).
Proof.
  unfold match_opportunities, bind, KnowledgeBase.get_all_opportunities, ret.
  rewrite collect_eligible_map.
  set (ranked := Py.sort_desc _ _).
  destruct (Nat.ltb_spec (List.length ranked) 2) as [Hlt|Hge].
  - rewrite firstn_all2 by lia. reflexivity.
  - destruct (Nat.le_gt_cases (List.length ranked) 3) as [Hle|Hgt].
    + rewrite Nat.min_r by exact Hle.
      rewrite firstn_all, firstn_all2 by exact Hle. reflexivity.
    + rewrite Nat.min_l by lia. reflexivity.
Qed.

Lemma eligible_opportunities_eligible (catalog : list Opportunity.t) :
  Forall (fun o => is_eligible profile (Opportunity.eligibility_criteria o) = true)
         (eligible_opportunities profile catalog).
Proof.
  apply Forall_forall. intros o Ho.
  apply filter_In in Ho. tauto.
Qed.

End MatcherFacts.

(** C2.  For every profile, analysis, blindspot list and catalog (so in
    particular for a valid profile), [match_opportunities] returns all
    eligible opportunities when fewer than two pass the eligibility
    filter, and otherwise exactly min(3, number eligible) matches; it
    never returns more than three; every returned match is for an
    opportunity the profile is eligible for; and the returned list is in
    descending order of relevance score: it is the first three of the
    eligible matches, taken in catalog order and sorted stably, so matches
    of equal score keep catalog order. *)
Theorem match_opportunities_contract :
  forall (profile : StudentProfile.t) (analysis : ProfileAnalysis.t)
         (blindspots : list Blindspot.t) (w : World),
    let eligible := eligible_opportunities profile (OPPORTUNITIES w) in
    let result :=
      fst (OpportunityMatcher.match_opportunities profile analysis blindspots w) in
    (if (List.length eligible <? 2)%nat
     then map OpportunityMatch.opportunity result = eligible
     else List.length result = Nat.min 3 (List.length eligible)) /\
    (List.length result <= 3)%nat /\
    Forall (fun m => OpportunityMatcher.is_eligible profile
                       (Opportunity.eligibility_criteria
                          (OpportunityMatch.opportunity m)) = true) result /\
    descending OpportunityMatch.relevance_score result /\
    (exists ranked : list OpportunityMatch.t,
       stable_sorted_desc OpportunityMatch.relevance_score
         (map (OpportunityMatcher.make_match profile analysis blindspots) eligible)
         ranked /\
       result = firstn 3 ranked).
Proof.
  intros profile analysis blindspots w eligible result.
  subst result. rewrite match_opportunities_run. cbn [fst]. fold eligible.
  set (made := map (OpportunityMatcher.make_match profile analysis blindspots) eligible).
  set (ranked := Py.sort_desc OpportunityMatch.relevance_score made).
  assert (Hlen : List.length ranked = List.length eligible).
  { subst ranked made. now rewrite sort_desc_length, length_map. }
  split.
  { destruct (Nat.ltb_spec (List.length eligible) 2) as [Hlt|Hge].
    - subst ranked made.
      destruct eligible as [|o [|o' rest]]; [reflexivity | reflexivity |].
      simpl in Hlt. lia.
    - rewrite length_firstn. lia. }
  split; [apply firstn_le_length|].
  split.
  { apply Forall_firstn.
    eapply Permutation_Forall; [apply sort_desc_perm|].
    subst made. apply Forall_map. cbn.
    apply eligible_opportunities_eligible. }
  split; [apply descending_firstn, sort_desc_descending|].
  exists ranked. split; [apply sort_desc_stable | reflexivity].
Qed.

(** ** Eligibility *)

Lemma In__iff {A : Type} (eqb : A -> A -> bool)
  (eqb_eq : forall x y, eqb x y = true <-> x = y) (x : A) (xs : list A) :
  Py.In_ eqb x xs = true <-> In x xs.
Proof.
  unfold Py.In_. rewrite existsb_exists. split.
  - intros [y [Hy Heq]]. apply eqb_eq in Heq. now subst.
  - intros Hx. exists x. split; [assumption|]. now apply eqb_eq.
Qed.

Lemma EducationLevel_eqb_eq (x y : EducationLevel.t) :
  EducationLevel.eqb x y = true <-> x = y.
Proof. destruct x, y; cbn; split; intros H; try reflexivity; discriminate H. Qed.

Lemma InstitutionType_eqb_eq (x y : InstitutionType.t) :
  InstitutionType.eqb x y = true <-> x = y.
Proof. destruct x, y; cbn; split; intros H; try reflexivity; discriminate H. Qed.

Lemma BackgroundIndicator_eqb_eq (x y : BackgroundIndicator.t) :
  BackgroundIndicator.eqb x y = true <-> x = y.
Proof. destruct x, y; cbn; split; intros H; try reflexivity; discriminate H. Qed.

Lemma any_background_iff (reqs have : list BackgroundIndicator.t) :
  Py.any (fun req => Py.In_ BackgroundIndicator.eqb req have) reqs = true <->
  exists req, In req reqs /\ In req have.
Proof.
  unfold Py.any. rewrite existsb_exists.
  split; intros [req [H1 H2]]; exists req; split; try assumption;
    now apply (In__iff _ BackgroundIndicator_eqb_eq).
Qed.

(** A constraint of the criteria that may be unset: the test the code
    makes fails exactly when the constraint is set and not met. *)
Lemma optional_constraint_iff {A : Type} (constraint : option A)
  (check : A -> bool) (P : A -> Prop) :
  (forall a, check a = true <-> P a) ->
  match constraint with Some a => negb (check a) | None => false end = false <->
  (forall a, constraint = Some a -> P a).
Proof.
  intros Hcheck. destruct constraint as [a|].
  - rewrite negb_false_iff, Hcheck. split.
    + intros Ha a' E. now injection E as <-.
    + intros H. now apply H.
  - split; [intros _ a E; discriminate E | reflexivity].
Qed.

Lemma four_guards_iff (g1 g2 g3 g4 : bool) :
  (if g1 then false else if g2 then false else if g3 then false
   else if g4 then false else true) = true <->
  g1 = false /\ g2 = false /\ g3 = false /\ g4 = false.
Proof. destruct g1, g2, g3, g4; cbn; intuition congruence. Qed.

Lemma is_eligible_iff (profile : StudentProfile.t) (criteria : EligibilityCriteria.t) :
  OpportunityMatcher.is_eligible profile criteria = true <->
  meets_constraints profile criteria.
Proof.
  unfold OpportunityMatcher.is_eligible, meets_constraints.
  rewrite four_guards_iff, negb_false_iff.
  rewrite (In__iff _ EducationLevel_eqb_eq).
  rewrite (optional_constraint_iff (EligibilityCriteria.fields_of_study criteria)
             (Py.In_ String.eqb (StudentProfile.field_of_study profile))
             (In (StudentProfile.field_of_study profile)))
    by (intros; apply In__iff, String.eqb_eq).
  rewrite (optional_constraint_iff (EligibilityCriteria.institution_types criteria)
             (Py.In_ InstitutionType.eqb (StudentProfile.institution_type profile))
             (In (StudentProfile.institution_type profile)))
    by (intros; apply In__iff, InstitutionType_eqb_eq).
  rewrite (optional_constraint_iff
             (EligibilityCriteria.background_requirements criteria)
             (Py.any (fun req => Py.In_ BackgroundIndicator.eqb req
                                   (StudentProfile.background_indicators profile)))
             (fun reqs => exists req,
                In req reqs /\
                In req (StudentProfile.background_indicators profile)))
    by (intros; apply any_background_iff).
  reflexivity.
Qed.

(** C10.  [is_eligible] holds exactly when the education level, the field
    of study, the institution type and the background indicators meet the
    constraints of the criteria that are set; replacing the [income_based]
    and [merit_based] flags never changes its result; so a student without
    the Financial support indicator who meets the other constraints of an
    income-based opportunity is eligible for it. *)
Theorem is_eligible_ignores_income_and_merit :
  forall (profile : StudentProfile.t) (criteria : EligibilityCriteria.t),
    (OpportunityMatcher.is_eligible profile criteria = true <->
     meets_constraints profile criteria) /\
    (forall income merit : bool,
       OpportunityMatcher.is_eligible profile (with_flags income merit criteria) =
       OpportunityMatcher.is_eligible profile criteria) /\
    (EligibilityCriteria.income_based criteria = true ->
     ~ In BackgroundIndicator.FINANCIAL_SUPPORT
          (StudentProfile.background_indicators profile) ->
     meets_constraints profile criteria ->
     OpportunityMatcher.is_eligible profile criteria = true).
Proof.
  intros profile criteria.
  split; [apply is_eligible_iff|].
  split; [intros income merit; reflexivity|].
  intros _ _ Hmeets. now apply is_eligible_iff.
Qed.

Lemma is_eligible_ignores_income_and_merit_witness :
  ~ In BackgroundIndicator.FINANCIAL_SUPPORT
       (StudentProfile.background_indicators rural_profile) /\
  EligibilityCriteria.income_based
    (Opportunity.eligibility_criteria KnowledgeBase.central_sector_scholarship) = true /\
  OpportunityMatcher.is_eligible rural_profile
    (Opportunity.eligibility_criteria KnowledgeBase.central_sector_scholarship) = true.
Proof.
  assert (Hno : ~ In BackgroundIndicator.FINANCIAL_SUPPORT
                     (StudentProfile.background_indicators rural_profile)).
  { cbn. intros [H|[]]. discriminate H. }
  split; [exact Hno|]. split; [reflexivity|].
  apply (is_eligible_ignores_income_and_merit rural_profile
           (Opportunity.eligibility_criteria KnowledgeBase.central_sector_scholarship)).
  - reflexivity.
  - exact Hno.
  - cbn. split; [now left|].
    split; [intros ? E; discriminate E|].
    split; intros ? E; discriminate E.
Defined.

(** C5.  [calculate_miss_probability] is the table: Low visibility gives
    High whatever the awareness; Medium visibility gives High, Medium, Low
    for Low, Medium, High awareness; High visibility gives Medium for Low
    awareness and Low for Medium and High awareness. *)
Theorem calculate_miss_probability_table :
  (forall awareness,
     OpportunityMatcher.calculate_miss_probability VisibilityLevel.LOW awareness =
     MissProbability.HIGH) /\
  OpportunityMatcher.calculate_miss_probability
    VisibilityLevel.MEDIUM AwarenessLevel.LOW = MissProbability.HIGH /\
  OpportunityMatcher.calculate_miss_probability
    VisibilityLevel.MEDIUM AwarenessLevel.MEDIUM = MissProbability.MEDIUM /\
  OpportunityMatcher.calculate_miss_probability
    VisibilityLevel.MEDIUM AwarenessLevel.HIGH = MissProbability.LOW /\
  OpportunityMatcher.calculate_miss_probability
    VisibilityLevel.HIGH AwarenessLevel.LOW = MissProbability.MEDIUM /\
  OpportunityMatcher.calculate_miss_probability
    VisibilityLevel.HIGH AwarenessLevel.MEDIUM = MissProbability.LOW /\
  OpportunityMatcher.calculate_miss_probability
    VisibilityLevel.HIGH AwarenessLevel.HIGH = MissProbability.LOW.
Proof.
  split; [intros awareness; reflexivity|].
  repeat split.
Qed.

(** ** The blindspot-alignment score *)

Section AlignmentFacts.
Import OpportunityMatcher.

Lemma max_cases (a b : Q) :
  (Py.max a b = a /\ b <= a) \/ (Py.max a b = b /\ a <= b).
Proof.
  unfold Py.max. destruct (Qle_bool b a) eqn:E.
  - left. split; [reflexivity|]. now apply Qle_bool_iff.
  - right. split; [reflexivity|].
    apply Qlt_le_weak, Qnot_le_lt. intros H. apply Qle_bool_iff in H. congruence.
Qed.

(** Folding Python's [max] over a list, from a start value. *)
Lemma fold_max_is_maximum (xs : list Q) (start : Q) :
  is_maximum_of (fold_left Py.max xs start) (start :: xs).
Proof.
  revert start. induction xs as [|x rest IH]; intros start; cbn [fold_left].
  - split; [now left|]. constructor; [apply Qle_refl | constructor].
  - destruct (IH (Py.max start x)) as [Hin Hall].
    inversion Hall as [|? ? Hhead Hrest]; subst.
    destruct (max_cases start x) as [[E Hle]|[E Hle]]; rewrite E in *.
    + split.
      * destruct Hin as [<-|Hin]; [now left | right; now right].
      * constructor; [assumption|].
        constructor; [eapply Qle_trans; eassumption | assumption].
    + split.
      * destruct Hin as [<-|Hin]; [right; now left | right; now right].
      * constructor; [eapply Qle_trans; eassumption|].
        constructor; assumption.
Qed.

(** The thirteen conditional updates of the loop body are a fold of [max]
    over the values of the heuristics that fire. *)
Lemma raise_to_table (table : list (bool * Q)) (start : Q) :
  fold_left (fun m h => raise_to (fst h) (snd h) m) table start =
  fold_left Py.max (map snd (filter fst table)) start.
Proof.
  revert start. induction table as [|[c v] rest IH]; intros start; cbn.
  - reflexivity.
  - rewrite IH. destruct c; reflexivity.
Qed.

Lemma alignment_step_fired (opportunity : Opportunity.t) (start : Q)
  (blindspot : Blindspot.t) :
  alignment_step opportunity start blindspot =
  fold_left Py.max (fired_values opportunity blindspot) start.
Proof.
  unfold fired_values. rewrite <- raise_to_table. reflexivity.
Qed.

Lemma alignment_loop_fired (opportunity : Opportunity.t)
  (blindspots : list Blindspot.t) (start : Q) :
  fold_left (alignment_step opportunity) blindspots start =
  fold_left Py.max (alignments opportunity blindspots) start.
Proof.
  revert start. induction blindspots as [|b rest IH]; intros start.
  - reflexivity.
  - cbn [fold_left alignments flat_map].
    rewrite IH, alignment_step_fired, fold_left_app. reflexivity.
Qed.

Lemma alignment_is_maximum (opportunity : Opportunity.t)
  (blindspots : list Blindspot.t) :
  Forall (fun v => 0 <= v) (alignments opportunity blindspots) ->
  is_maximum_of (_calculate_blindspot_alignment opportunity blindspots)
                (0.3 :: alignments opportunity blindspots).
Proof.
  intros Hpos.
  unfold _calculate_blindspot_alignment. rewrite alignment_loop_fired.
  destruct (fold_max_is_maximum (alignments opportunity blindspots) 0.0)
    as [Hin Hall].
  set (m := fold_left Py.max (alignments opportunity blindspots) 0.0) in *.
  inversion Hall as [|? ? _ Hrest]; subst.
  destruct (max_cases m 0.3) as [[E Hle]|[E Hle]]; rewrite E.
  - split.
    + destruct Hin as [Hm|Hin]; [|now right].
      exfalso. rewrite <- Hm in Hle. lra.
    + constructor; assumption.
  - split; [now left|].
    constructor; [apply Qle_refl|].
    eapply Forall_impl; [|exact Hrest].
    intros v Hv. cbn in Hv. eapply Qle_trans; eassumption.
Qed.

Lemma fired_values_bounds (opportunity : Opportunity.t) (blindspot : Blindspot.t) :
  0 < Blindspot.relevance_score blindspot ->
  Blindspot.relevance_score blindspot <= 1 ->
  Forall (fun v => 0 <= v /\ v <= 1) (fired_values opportunity blindspot).
Proof.
  intros Hpos Hle. unfold fired_values.
  assert (Htable : Forall (fun h : bool * Q => 0 <= snd h /\ snd h <= 1)
                          (heuristics opportunity blindspot)).
  { unfold heuristics. repeat constructor; cbn [snd]; lra. }
  induction Htable as [|[c v] rest Hh _ IH]; cbn; [constructor|].
  destruct c; cbn; [constructor|]; assumption.
Qed.

Lemma alignments_bounds (opportunity : Opportunity.t) (blindspots : list Blindspot.t) :
  Forall (fun b => 0 < Blindspot.relevance_score b /\
                   Blindspot.relevance_score b <= 1) blindspots ->
  Forall (fun v => 0 <= v /\ v <= 1) (alignments opportunity blindspots).
Proof.
  intros Hall. induction Hall as [|b rest [Hpos Hle] _ IH]; cbn; [constructor|].
  apply Forall_app. split; [now apply fired_values_bounds | assumption].
Qed.

End AlignmentFacts.

(** C4, as the code has it.  For every opportunity and every blindspot
    list whose scores lie in (0,1], the blindspot-alignment score is the
    greatest of 0.3 and the values of all heuristics that fire, over all
    blindspots; it lies in [0.3,1], hence in [0,1]; and it is 0.3 when no
    heuristic fires.  The floor of 0.3 applies whether or not a heuristic
    fires. *)
Theorem blindspot_alignment_is_floored_maximum :
  forall (opportunity : Opportunity.t) (blindspots : list Blindspot.t),
    Forall (fun b => 0 < Blindspot.relevance_score b /\
                     Blindspot.relevance_score b <= 1) blindspots ->
    let alignment :=
      OpportunityMatcher._calculate_blindspot_alignment opportunity blindspots in
    is_maximum_of alignment (0.3 :: alignments opportunity blindspots) /\
    0.3 <= alignment /\ alignment <= 1 /\
    (alignments opportunity blindspots = [] -> alignment = 0.3).
Proof.
  intros opportunity blindspots Hscores alignment.
  pose proof (alignments_bounds opportunity blindspots Hscores) as Hbounds.
  assert (Hmax : is_maximum_of alignment (0.3 :: alignments opportunity blindspots)).
  { apply alignment_is_maximum.
    eapply Forall_impl; [|exact Hbounds]. cbn. tauto. }
  split; [exact Hmax|].
  destruct Hmax as [Hin Hall].
  split; [now inversion Hall|].
  split.
  - destruct Hin as [<-|Hin]; [discriminate|].
    rewrite Forall_forall in Hbounds. now apply Hbounds.
  - intros Hnone. rewrite Hnone in Hin. destruct Hin as [<-|[]]. reflexivity.
Qed.

Lemma blindspot_alignment_is_floored_maximum_witness :
  OpportunityMatcher._calculate_blindspot_alignment
    KnowledgeBase.nptel_research_internship [faint_blindspot] = 0.3.
Proof.
  refine (proj2 (proj2 (proj2
    (blindspot_alignment_is_floored_maximum
       KnowledgeBase.nptel_research_internship [faint_blindspot] _))) _).
  - repeat constructor. discriminate.
  - reflexivity.
Defined.

(** C4, as the claim states it, fails.  A heuristic fires for the Central
    Sector Scholarship on a blindspot of score 0.1 about scholarships, the
    only values offered are 0.1, and yet the score returned is 0.3, not
    0.1. *)
Lemma blindspot_alignment_floor_overrides_fired_value :
  Forall (fun b => 0 < Blindspot.relevance_score b /\
                   Blindspot.relevance_score b <= 1) [faint_blindspot] /\
  alignments KnowledgeBase.central_sector_scholarship [faint_blindspot] = [0.1; 0.1] /\
  OpportunityMatcher._calculate_blindspot_alignment
    KnowledgeBase.central_sector_scholarship [faint_blindspot] = 0.3 /\
  ~ OpportunityMatcher._calculate_blindspot_alignment
      KnowledgeBase.central_sector_scholarship [faint_blindspot] == 0.1.
Proof.
  split; [repeat constructor; discriminate|].
  split; [reflexivity|].
  split; [reflexivity|].
  discriminate.
Qed.

(** ** The relevance score *)

Lemma min_is_Qmin (a a' b b' : Q) :
  a == a' -> b == b' -> Py.min a b == Qmin a' b'.
Proof.
  intros Ha Hb. unfold Py.min.
  destruct (Qle_bool a b) eqn:E.
  - apply Qle_bool_iff in E.
    rewrite Q.min_l by (rewrite <- Ha, <- Hb; exact E). exact Ha.
  - assert (Hlt : b < a).
    { apply Qnot_le_lt. intros H. apply Qle_bool_iff in H. congruence. }
    rewrite Q.min_r by (rewrite <- Ha, <- Hb; now apply Qlt_le_weak). exact Hb.
Qed.

Lemma dict_get_goal_of_category (category : string) :
  OpportunityMatcher.dict_get OpportunityMatcher.opportunity_category_to_goal category =
  goal_of_category category.
Proof.
  unfold goal_of_category. cbn.
  destruct (String.eqb category "Scholarship"); [reflexivity|].
  destruct (String.eqb category "Internship"); [reflexivity|].
  destruct (String.eqb category "Program"); reflexivity.
Qed.

Section RelevanceInBinary64.

Import PrimFloat.
#[local] Set Warnings "-inexact-float".
Local Open Scope float_scope.

(** C6, as the code has it.  For every profile, analysis, opportunity and
    alignment value the relevance score is the binary64 number obtained
    by starting from 0.0 and adding, in this order and rounding each
    result to nearest, the alignment times 0.4, then 0.3, 0.2 or 0.1 for
    impact High, Medium or Low, then 0.2, 0.15 or 0.1 for visibility Low,
    Medium or High, then 0.1 when the opportunity's category maps to one
    of the priority goals (Scholarship to Scholarships, Internship to
    Internships, Program to Skills), and replacing a total above 1.0 by
    1.0; the score is never above 1.0, and the priority goals of the
    analysis of a profile are the goals of the profile. *)
Theorem calculate_relevance_is_the_rounded_sum :
  forall (profile : StudentProfile.t) (analysis : ProfileAnalysis.t)
         (opportunity : Opportunity.t) (blindspot_alignment : float),
    Binary64._calculate_relevance profile analysis opportunity blindspot_alignment =
    Rounded.relevance analysis opportunity blindspot_alignment /\
    (1.0 <? Binary64._calculate_relevance profile analysis opportunity
              blindspot_alignment) = false /\
    ProfileAnalysis.priority_goals (ProfileAnalyzer.analyze profile) =
    StudentProfile.opportunity_goals profile.
Proof.
  intros profile analysis opportunity x.
  split; [|split; [|reflexivity]].
  - unfold Binary64._calculate_relevance, Rounded.relevance, Binary64.min,
      maps_to_priority_goal.
    rewrite dict_get_goal_of_category.
    destruct (Opportunity.impact_level opportunity),
             (Opportunity.visibility_level opportunity),
             (goal_of_category (Opportunity.category opportunity)) as [goal|];
      cbn -[add mul ltb];
      try destruct (Py.In_ OpportunityGoal.eqb goal
                      (ProfileAnalysis.priority_goals analysis));
      reflexivity.
  - unfold Binary64._calculate_relevance, Binary64.min.
    match goal with
    | |- (1.0 <? (if 1.0 <? ?total then _ else _)) = false =>
        destruct (1.0 <? total) eqn:Above; [reflexivity | exact Above]
    end.
Qed.

(** C6 as stated fails: with alignment 1.0, impact High, visibility Low
    and a category that maps to a priority goal the sum of the claim is
    0.4 + 0.3 + 0.2 + 0.1 = 1, capped at 1, while the code returns
    0.9999999999999999, which is below 1.0.  With alignment 0.3, impact
    High, visibility Medium and a matching goal the code returns
    0.6699999999999999, below the binary64 number 0.67. *)
Lemma relevance_at_the_cap_is_rounded_below_one :
  let analysis := ProfileAnalyzer.analyze sample_profile in
  (Qmin (0.4 * 1
         + impact_weight (Opportunity.impact_level KnowledgeBase.aicte_pragati)
         + visibility_weight (Opportunity.visibility_level KnowledgeBase.aicte_pragati)
         + goal_bonus analysis KnowledgeBase.aicte_pragati) 1 == 1)%Q /\
  Binary64._calculate_relevance sample_profile analysis KnowledgeBase.aicte_pragati 1.0
  = 0x1.fffffffffffffp-1 /\
  (Binary64._calculate_relevance sample_profile analysis KnowledgeBase.aicte_pragati 1.0
   <? 1.0) = true /\
  Binary64._calculate_relevance sample_profile analysis
    KnowledgeBase.central_sector_scholarship 0.3
  = 0x1.570a3d70a3d70p-1 /\
  (Binary64._calculate_relevance sample_profile analysis
     KnowledgeBase.central_sector_scholarship 0.3 <? 0.67) = true.
Proof.
  cbv zeta. repeat split; vm_compute; reflexivity.
Qed.

End RelevanceInBinary64.

(** ** The application controller *)

Section ControllerFacts.
Import ApplicationController.

Lemma validate_field_values_mentions_age (profile : StudentProfile.t) :
  mentions "age" (_validate_field_values profile) = true <->
  (StudentProfile.age profile < 0 \/ 150 < StudentProfile.age profile)%Z.
Proof.
  unfold _validate_field_values.
  destruct (Z.ltb_spec (StudentProfile.age profile) 0) as [Hneg|Hnonneg];
  destruct (Z.gtb_spec (StudentProfile.age profile) 150) as [Hbig|Hsmall];
  destruct (StudentProfile.year_of_study profile <? 0)%Z;
  destruct (StudentProfile.year_of_study profile >? 10)%Z;
  vm_compute mentions; split; intros H; try reflexivity; try discriminate H; lia.
Qed.

Lemma validate_field_values_mentions_year (profile : StudentProfile.t) :
  mentions "year_of_study" (_validate_field_values profile) = true <->
  (StudentProfile.year_of_study profile < 0 \/
   10 < StudentProfile.year_of_study profile)%Z.
Proof.
  unfold _validate_field_values.
  destruct (Z.ltb_spec (StudentProfile.year_of_study profile) 0) as [Hneg|Hnonneg];
  destruct (Z.gtb_spec (StudentProfile.year_of_study profile) 10) as [Hbig|Hsmall];
  destruct (StudentProfile.age profile <? 0)%Z;
  destruct (StudentProfile.age profile >? 150)%Z;
  vm_compute mentions; split; intros H; try reflexivity; try discriminate H; lia.
Qed.

(** A profile with an invalid value is answered before anything else
    happens. *)
Lemma handle_invalid_values (profile : StudentProfile.t) (w : World) :
  _validate_field_values profile <> [] ->
  handle_form_submission profile w =
  (invalid_fields_response (_validate_field_values profile), w).
Proof.
  intros Hsome. unfold handle_form_submission.
  destruct (_validate_field_values profile) as [|v rest]; [congruence|].
  reflexivity.
Qed.

(** A valid profile meeting an empty knowledge base. *)
Lemma handle_empty_knowledge_base (profile : StudentProfile.t) (w : World) :
  valid_profile profile = true ->
  OPPORTUNITIES w = [] ->
  handle_form_submission profile w =
  (error_response knowledge_base_unavailable,
   {| OPPORTUNITIES := OPPORTUNITIES w; calls := calls w ++ [CallValidate] |}).
Proof.
  unfold valid_profile. intros Hvalid Hempty.
  apply andb_true_iff in Hvalid. destruct Hvalid as [Hvalues Hfields].
  apply negb_true_iff in Hvalues.
  unfold handle_form_submission. rewrite Hvalues.
  unfold bind, log.
  destruct (StudentProfile.validate profile) as [is_valid missing_fields].
  cbn in Hfields. subst is_valid. cbn.
  rewrite Hempty. reflexivity.
Qed.

End ControllerFacts.

(** C3, as the code has it.  For every submitted profile the field-value
    validation reports a violation for age exactly when age is below 0 or
    above 150, and for year_of_study exactly when it is below 0 or above
    10; whenever it reports anything, [handle_form_submission] returns
    those violations as [invalid_fields], with no [missing_fields] and
    without the missing-field validation having been called; in
    particular a profile with age -5 gets a result whose [invalid_fields]
    contain an age violation. *)
Theorem invalid_values_reported_before_missing_fields :
  forall (profile : StudentProfile.t) (w : World),
    let violations := ApplicationController._validate_field_values profile in
    let outcome := ApplicationController.handle_form_submission profile w in
    (mentions "age" violations = true <->
     (StudentProfile.age profile < 0 \/ 150 < StudentProfile.age profile)%Z) /\
    (mentions "year_of_study" violations = true <->
     (StudentProfile.year_of_study profile < 0 \/
      10 < StudentProfile.year_of_study profile)%Z) /\
    (violations <> [] ->
     ApplicationController.valid (fst outcome) = false /\
     ApplicationController.invalid_fields (fst outcome) = Some violations /\
     ApplicationController.missing_fields (fst outcome) = None /\
     snd outcome = w) /\
    (StudentProfile.age profile = (-5)%Z ->
     exists fields,
       ApplicationController.invalid_fields (fst outcome) = Some fields /\
       mentions "age" fields = true /\
       ApplicationController.missing_fields (fst outcome) = None /\
       snd outcome = w).
Proof.
  intros profile w violations outcome.
  split; [apply validate_field_values_mentions_age|].
  split; [apply validate_field_values_mentions_year|].
  assert (Hreport : violations <> [] ->
            outcome = (ApplicationController.invalid_fields_response violations, w)).
  { intros H. now apply handle_invalid_values. }
  split.
  - intros Hsome. rewrite (Hreport Hsome). repeat split.
  - intros Hage.
    assert (Hmentions : mentions "age" violations = true).
    { apply validate_field_values_mentions_age. lia. }
    assert (Hsome : violations <> []).
    { intros E. rewrite E in Hmentions. discriminate Hmentions. }
    exists violations. rewrite (Hreport Hsome). repeat split. exact Hmentions.
Qed.

Lemma invalid_values_reported_before_missing_fields_witness :
  exists fields,
    ApplicationController.invalid_fields
      (fst (ApplicationController.handle_form_submission
              (with_age (-5) sample_profile) initial_world)) = Some fields /\
    mentions "age" fields = true /\
    ApplicationController.missing_fields
      (fst (ApplicationController.handle_form_submission
              (with_age (-5) sample_profile) initial_world)) = None /\
    snd (ApplicationController.handle_form_submission
           (with_age (-5) sample_profile) initial_world) = initial_world.
Proof.
  apply (invalid_values_reported_before_missing_fields
           (with_age (-5) sample_profile) initial_world).
  reflexivity.
Defined.

(** C3, as the claim states it, fails at age 0: the age is outside
    (0,150], the field-value validation reports nothing, and the
    submission is answered by the missing-field validation, which lists
    age. *)
Lemma age_zero_is_reported_missing_not_invalid :
  ~ (0 < StudentProfile.age (with_age 0 sample_profile) <= 150)%Z /\
  mentions "age"
    (ApplicationController._validate_field_values (with_age 0 sample_profile)) = false /\
  ApplicationController.invalid_fields
    (fst (ApplicationController.handle_form_submission
            (with_age 0 sample_profile) initial_world)) = None /\
  ApplicationController.missing_fields
    (fst (ApplicationController.handle_form_submission
            (with_age 0 sample_profile) initial_world)) = Some ["age"].
Proof.
  split; [cbn; lia|]. repeat split.
Qed.

(** C7.  For every valid profile, when the opportunity catalog is empty
    [handle_form_submission] returns a result with [valid] false and an
    error message containing "knowledge base" and "unavailable"; the
    result carries no blindspots and no matches, and the only component
    called is the missing-field validation: neither the analysis nor the
    blindspot identification nor the matching is performed. *)
Theorem empty_catalog_is_a_system_error :
  forall (profile : StudentProfile.t) (w : World),
    valid_profile profile = true ->
    OPPORTUNITIES w = [] ->
    let outcome := ApplicationController.handle_form_submission profile w in
    ApplicationController.valid (fst outcome) = false /\
    (exists message,
       ApplicationController.error (fst outcome) = Some message /\
       Py.contains "knowledge base" message = true /\
       Py.contains "unavailable" message = true) /\
    ApplicationController.blindspots (fst outcome) = None /\
    ApplicationController.matches (fst outcome) = None /\
    calls (snd outcome) = calls w ++ [CallValidate] /\
    OPPORTUNITIES (snd outcome) = OPPORTUNITIES w.
Proof.
  intros profile w Hvalid Hempty outcome. subst outcome.
  rewrite (handle_empty_knowledge_base profile w Hvalid Hempty). cbn [fst snd].
  split; [reflexivity|].
  split; [eexists; split; [reflexivity|]; split; vm_compute; reflexivity|].
  repeat split.
Qed.

Lemma empty_catalog_is_a_system_error_witness :
  ApplicationController.valid
    (fst (ApplicationController.handle_form_submission sample_profile empty_world))
  = false /\
  calls (snd (ApplicationController.handle_form_submission sample_profile empty_world))
  = [CallValidate].
Proof.
  pose proof (empty_catalog_is_a_system_error sample_profile empty_world
                eq_refl eq_refl) as H.
  cbv zeta in H. destruct H as [Hvalid [_ [_ [_ [Hcalls _]]]]].
  split; [exact Hvalid | exact Hcalls].
Defined.

(** ** The pipeline over the object store *)

(** What [match_opportunities] returns, in the functional embedding. *)
Lemma match_opportunities_value (profile : StudentProfile.t)
  (analysis : ProfileAnalysis.t) (blindspots : list Blindspot.t) (w : World) :
  fst (OpportunityMatcher.match_opportunities profile analysis blindspots w) =
  let ranked :=
    Py.sort_desc OpportunityMatch.relevance_score
      (OpportunityMatcher.collect_eligible profile analysis blindspots
         (OPPORTUNITIES w)) in
  if (List.length ranked <? 2)%nat then ranked
  else firstn (Nat.min 3 (List.length ranked)) ranked.
Proof.
  unfold OpportunityMatcher.match_opportunities, bind,
    KnowledgeBase.get_all_opportunities, ret.
  cbv zeta. destruct (_ <? 2)%nat; reflexivity.
Qed.

Section StoreFacts.
Import Store Live.
Local Open Scope store_scope.

Lemma update_fresh (heap fresh : Heap) (k : nat) (change : Object -> Object) :
  update (List.length heap + k)%nat change (heap ++ fresh) = heap ++ update k change fresh.
Proof.
  induction heap as [|object rest IH]; [reflexivity|].
  cbn. now rewrite IH.
Qed.

Lemma update_same (change : Object -> Object) (k : nat) (heap : Heap) :
  (forall object, change object = object) -> update k change heap = heap.
Proof.
  intros Hid. revert k. induction heap as [|object rest IH]; intros k; [now destruct k|].
  destruct k; cbn; [now rewrite Hid | now rewrite IH].
Qed.

Lemma update_ext (f g : Object -> Object) (k : nat) (heap : Heap) :
  (forall object, f object = g object) -> update k f heap = update k g heap.
Proof.
  intros Hfg. revert k. induction heap as [|object rest IH]; intros k; [now destruct k|].
  destruct k; cbn; [now rewrite Hfg | now rewrite IH].
Qed.

Lemma update_update (f g : Object -> Object) (k : nat) (heap : Heap) :
  update k g (update k f heap) = update k (fun object => g (f object)) heap.
Proof.
  revert k. induction heap as [|object rest IH]; intros k; [now destruct k|].
  destruct k; cbn; [reflexivity | now rewrite IH].
Qed.

(** One step of a computation. *)
Lemma bind_step {A B : Type} (m : H A) (k : A -> H B) (heap heap' : Heap) (a : A) :
  m heap = (a, heap') -> bind m k heap = k a heap'.
Proof. intros Hm. unfold bind. now rewrite Hm. Qed.

(** The operations on a store [heap ++ fresh], where [heap] holds the
    objects that existed before the call and [fresh] those created since. *)
Lemma new_first (object : Object) (heap : Heap) :
  new object heap = ((List.length heap + 0)%nat, heap ++ [object]).
Proof. unfold new. now rewrite Nat.add_0_r. Qed.

Lemma new_fresh (object : Object) (heap fresh : Heap) :
  new object (heap ++ fresh) =
  ((List.length heap + List.length fresh)%nat, heap ++ (fresh ++ [object])).
Proof. unfold new. now rewrite length_app, app_assoc. Qed.

Lemma get_fresh (k : nat) (heap fresh : Heap) :
  get (List.length heap + k)%nat (heap ++ fresh) = (nth k fresh (Texts []), heap ++ fresh).
Proof. unfold get. now rewrite app_nth2_plus. Qed.

Lemma get_old (r : Ref) (heap fresh : Heap) :
  (r < List.length heap)%nat ->
  get r (heap ++ fresh) = (nth r heap (Texts []), heap ++ fresh).
Proof. intros Hr. unfold get. now rewrite app_nth1. Qed.

Lemma read_fresh {A : Type} (items : Object -> list A) (k : nat) (heap fresh : Heap) :
  read items (List.length heap + k)%nat (heap ++ fresh) =
  (items (nth k fresh (Texts [])), heap ++ fresh).
Proof. unfold read. now rewrite (bind_step _ _ _ _ _ (get_fresh k heap fresh)). Qed.

Lemma read_old {A : Type} (items : Object -> list A) (r : Ref) (heap fresh : Heap) :
  (r < List.length heap)%nat ->
  read items r (heap ++ fresh) = (items (nth r heap (Texts [])), heap ++ fresh).
Proof.
  intros Hr. unfold read. now rewrite (bind_step _ _ _ _ _ (get_old r heap fresh Hr)).
Qed.

Lemma modify_fresh (k : nat) (change : Object -> Object) (heap fresh : Heap) :
  modify (List.length heap + k)%nat change (heap ++ fresh) =
  (tt, heap ++ update k change fresh).
Proof. unfold modify. now rewrite update_fresh. Qed.

Ltac tidy :=
  cbv beta;
  cbn [app List.length nth update Nat.add texts goals indicators blindspots
       opportunities matches fst snd].

Ltac run_step :=
  erewrite bind_step;
  [| first [ apply new_fresh | apply new_first
           | apply read_fresh | apply read_old; assumption
           | apply modify_fresh ] ];
  tidy.

Lemma for_each_append_text {A : Type} (value : A -> string) (items : list A)
  (k : nat) (heap fresh : Heap) :
  for_each items (fun item => append_text (List.length heap + k)%nat (value item))
    (heap ++ fresh) =
  (tt, heap ++ update k
         (fun object =>
            match object with
            | Texts found =>
                Texts (fold_left (fun found item => found ++ [value item]) items found)
            | other => other
            end) fresh).
Proof.
  revert fresh. induction items as [|item rest IH]; intros fresh.
  - cbn. rewrite update_same; [reflexivity|]. now intros [].
  - cbn [for_each fold_left].
    erewrite bind_step by apply modify_fresh.
    rewrite IH, update_update. f_equal. f_equal.
    apply update_ext. now intros [].
Qed.

Lemma allocated_cons (heap : Heap) (r : Ref) (refs : list Ref) :
  allocated heap (r :: refs) <-> (r < List.length heap)%nat /\ allocated heap refs.
Proof. unfold allocated. split; [intros H; now inversion H | intros [H1 H2]; now constructor]. Qed.

Lemma allocated_more (heap fresh : Heap) (refs : list Ref) :
  allocated heap refs -> allocated (heap ++ fresh) refs.
Proof.
  unfold allocated. intros H. eapply Forall_impl; [|exact H].
  cbn. intros r Hr. rewrite length_app. lia.
Qed.

(** Reading does not change the store, and what is read at an address
    that was allocated does not depend on what was created later. *)
Lemma the_profile_reads (profile : Live.StudentProfile) (heap : Heap) :
  Stateful.the_profile profile heap = (profile_in heap profile, heap).
Proof. reflexivity. Qed.

Lemma the_analysis_reads (analysis : Live.ProfileAnalysis) (heap : Heap) :
  Stateful.the_analysis analysis heap = (analysis_in heap analysis, heap).
Proof. reflexivity. Qed.

Lemma profile_in_old (profile : Live.StudentProfile) (heap fresh : Heap) :
  allocated heap (lists_of_profile profile) ->
  profile_in (heap ++ fresh) profile = profile_in heap profile.
Proof.
  unfold lists_of_profile. rewrite !allocated_cons. intros (H1 & H2 & _).
  unfold profile_in, Stateful.the_profile, read, get, bind, ret. cbn [fst].
  now rewrite !app_nth1.
Qed.

Lemma analysis_in_old (analysis : Live.ProfileAnalysis) (heap fresh : Heap) :
  allocated heap (lists_of_analysis analysis) ->
  analysis_in (heap ++ fresh) analysis = analysis_in heap analysis.
Proof.
  unfold lists_of_analysis. rewrite !allocated_cons. intros (H1 & H2 & H3 & _).
  unfold analysis_in, Stateful.the_analysis, read, get, bind, ret. cbn [fst].
  now rewrite !app_nth1.
Qed.

Lemma blindspots_in_old (r : Ref) (heap fresh : Heap) :
  (r < List.length heap)%nat -> blindspots_in (heap ++ fresh) r = blindspots_in heap r.
Proof.
  intros Hr. unfold blindspots_in, read, get, bind, ret. cbn [fst]. now rewrite app_nth1.
Qed.

Lemma matches_in_old (r : Ref) (heap fresh : Heap) :
  (r < List.length heap)%nat -> matches_in (heap ++ fresh) r = matches_in heap r.
Proof.
  intros Hr. unfold matches_in, read, get, bind, ret. cbn [fst]. now rewrite app_nth1.
Qed.

Lemma catalog_in_old (heap fresh : Heap) :
  allocated heap [Stateful.OPPORTUNITIES] ->
  catalog_in (heap ++ fresh) = catalog_in heap.
Proof.
  rewrite allocated_cons. intros [H0 _].
  unfold catalog_in, read, get, bind, ret. cbn [fst]. now rewrite app_nth1.
Qed.

Lemma _extract_characteristics_run (profile : Live.StudentProfile) (heap : Heap) :
  allocated heap (lists_of_profile profile) ->
  Stateful._extract_characteristics profile heap =
  (List.length heap,
   heap ++ [Texts (ProfileAnalyzer._extract_characteristics (profile_in heap profile))]).
Proof.
  unfold lists_of_profile. rewrite !allocated_cons. intros (Hb & Hg & _).
  unfold Stateful._extract_characteristics.
  do 5 run_step.
  erewrite bind_step by apply for_each_append_text. tidy.
  unfold ret. now rewrite Nat.add_0_r.
Qed.

Lemma _extract_eligibility_tags_run (profile : Live.StudentProfile) (heap : Heap) :
  allocated heap (lists_of_profile profile) ->
  Stateful._extract_eligibility_tags profile heap =
  (List.length heap,
   heap ++ [Texts (ProfileAnalyzer._extract_eligibility_tags (profile_in heap profile))]).
Proof.
  unfold lists_of_profile. rewrite !allocated_cons. intros (Hb & Hg & _).
  unfold Stateful._extract_eligibility_tags.
  do 2 run_step.
  erewrite bind_step by apply for_each_append_text. tidy.
  unfold ret. now rewrite Nat.add_0_r.
Qed.

(** [analyze] creates two lists and changes nothing else; they hold what
    the functional embedding computes from the profile as it reads. *)
Lemma analyze_run (profile : Live.StudentProfile) (heap : Heap) :
  allocated heap (lists_of_profile profile) ->
  Stateful.analyze profile heap =
  ({| key_characteristics := List.length heap;
      eligibility_tags := S (List.length heap);
      awareness_level :=
        ProfileAnalyzer._map_awareness_level (missed_opportunities_before profile);
      priority_goals := opportunity_goals profile |},
   heap ++
   [ Texts (ProfileAnalyzer._extract_characteristics (profile_in heap profile));
     Texts (ProfileAnalyzer._extract_eligibility_tags (profile_in heap profile)) ]).
Proof.
  intros Hp. unfold Stateful.analyze.
  erewrite bind_step by (apply _extract_characteristics_run; exact Hp).
  erewrite bind_step
    by (apply _extract_eligibility_tags_run; apply allocated_more; exact Hp).
  rewrite (profile_in_old _ _ _ Hp), length_app, <- app_assoc. cbn [List.length app].
  unfold ret. now rewrite Nat.add_1_r.
Qed.

Lemma slice_fresh (k n : nat) (heap fresh : Heap) :
  slice (List.length heap + k)%nat n (heap ++ fresh) =
  ((List.length heap + List.length fresh)%nat,
   heap ++ (fresh ++
     [match nth k fresh (Texts []) with
      | Texts items => Texts (firstn n items)
      | Goals items => Goals (firstn n items)
      | Indicators items => Indicators (firstn n items)
      | Blindspots items => Blindspots (firstn n items)
      | Opportunities items => Opportunities (firstn n items)
      | Matches items => Matches (firstn n items)
      end])).
Proof.
  unfold slice.
  erewrite bind_step by apply get_fresh. apply new_fresh.
Qed.

Lemma when_append_blindspot (c : bool) (x : Blindspot.t) (k : nat) (heap fresh : Heap) :
  when c (append_blindspot (List.length heap + k)%nat x) (heap ++ fresh) =
  (tt, heap ++ update k
         (fun object =>
            match object with
            | Blindspots items => Blindspots (Py.append_if c x items)
            | other => other
            end) fresh).
Proof.
  destruct c; cbn [when Py.append_if].
  - apply modify_fresh.
  - rewrite update_same; [reflexivity|]. now intros [].
Qed.

Lemma _has_financial_background_run (r : Ref) (heap fresh : Heap) :
  (r < List.length heap)%nat ->
  Stateful._has_financial_background r (heap ++ fresh) =
  (BlindspotIdentifier._has_financial_background (texts (nth r heap (Texts []))),
   heap ++ fresh).
Proof.
  intros Hr. unfold Stateful._has_financial_background.
  now erewrite bind_step by (apply read_old; exact Hr).
Qed.

Lemma _has_special_category_run (gender : option string) (r : Ref) (heap fresh : Heap) :
  (r < List.length heap)%nat ->
  Stateful._has_special_category gender r (heap ++ fresh) =
  (BlindspotIdentifier._has_special_category gender (texts (nth r heap (Texts []))),
   heap ++ fresh).
Proof.
  intros Hr. unfold Stateful._has_special_category.
  now erewrite bind_step by (apply read_old; exact Hr).
Qed.

Lemma has_goal_run (goal : OpportunityGoal.t) (analysis : Live.ProfileAnalysis)
  (heap fresh : Heap) :
  (priority_goals analysis < List.length heap)%nat ->
  Stateful.has_goal goal analysis (heap ++ fresh) =
  (Py.In_ OpportunityGoal.eqb goal
     (goals (nth (priority_goals analysis) heap (Texts []))),
   heap ++ fresh).
Proof.
  intros Hr. unfold Stateful.has_goal.
  now erewrite bind_step by (apply read_old; exact Hr).
Qed.

Lemma fewer_than_three_run (k : nat) (heap fresh : Heap) :
  Stateful.fewer_than_three (List.length heap + k)%nat (heap ++ fresh) =
  ((List.length (blindspots (nth k fresh (Texts []))) <? 3)%nat, heap ++ fresh).
Proof.
  unfold Stateful.fewer_than_three.
  now erewrite bind_step by apply read_fresh.
Qed.

Ltac identify_step :=
  erewrite bind_step;
  [| first [ apply when_append_blindspot
           | apply _has_financial_background_run; assumption
           | apply _has_special_category_run; assumption
           | apply has_goal_run; assumption
           | apply fewer_than_three_run
           | apply slice_fresh
           | apply modify_fresh
           | apply read_fresh
           | apply new_first ] ];
  tidy.

(** [identify_blindspots] creates the list it fills and sorts and, when
    it returns, the list of the first five; it changes nothing else. *)
Lemma identify_blindspots_run (profile : Live.StudentProfile)
  (analysis : Live.ProfileAnalysis) (heap : Heap) :
  allocated heap (lists_of_analysis analysis) ->
  let ranked :=
    Py.sort_desc Blindspot.relevance_score
      (BlindspotIdentifier.accumulated (profile_in heap profile)
         (analysis_in heap analysis)) in
  Stateful.identify_blindspots profile analysis heap =
  if (List.length ranked <? 3)%nat then
    (Py.Raised (Py.ValueError
       (Py.cat ["Implementation error: Only "; Py.str_len (List.length ranked);
                " blindspots generated, minimum is 3"])),
     heap ++ [Blindspots ranked])
  else
    (Py.Returned (S (List.length heap)),
     heap ++ [Blindspots ranked; Blindspots (firstn 5 ranked)]).
Proof.
  intros Ha ranked. unfold lists_of_analysis in Ha. rewrite !allocated_cons in Ha.
  destruct Ha as (Hc & Ht & Hg & _).
  unfold Stateful.identify_blindspots.
  repeat identify_step.
  unfold sort.
  repeat identify_step.
  match goal with
  | |- (if (List.length ?found <? 3)%nat then _ else _) _ = _ =>
      change found with ranked
  end.
  destruct (List.length ranked <? 3)%nat.
  - reflexivity.
  - repeat identify_step. unfold ret. now rewrite Nat.add_1_r.
Qed.

Lemma the_profile_old (profile : Live.StudentProfile) (heap fresh : Heap) :
  allocated heap (lists_of_profile profile) ->
  Stateful.the_profile profile (heap ++ fresh) = (profile_in heap profile, heap ++ fresh).
Proof. intros Hp. now rewrite the_profile_reads, profile_in_old. Qed.

Lemma the_analysis_old (analysis : Live.ProfileAnalysis) (heap fresh : Heap) :
  allocated heap (lists_of_analysis analysis) ->
  Stateful.the_analysis analysis (heap ++ fresh) =
  (analysis_in heap analysis, heap ++ fresh).
Proof. intros Ha. now rewrite the_analysis_reads, analysis_in_old. Qed.

Lemma copy_fresh (r : Ref) (heap fresh : Heap) :
  (r < List.length heap)%nat ->
  copy r (heap ++ fresh) =
  ((List.length heap + List.length fresh)%nat,
   heap ++ (fresh ++ [nth r heap (Texts [])])).
Proof.
  intros Hr. unfold copy.
  erewrite bind_step by (apply get_old; exact Hr). apply new_fresh.
Qed.

(** The loop of [match_opportunities] appends to the list of matches what
    the first pass of the functional embedding collects. *)
Lemma for_each_collects (profile : Live.StudentProfile)
  (analysis : Live.ProfileAnalysis) (spots : Ref)
  (catalog : list Opportunity.t) (k : nat) (heap fresh : Heap) :
  allocated heap (lists_of_profile profile) ->
  allocated heap (lists_of_analysis analysis) ->
  (spots < List.length heap)%nat ->
  for_each catalog (fun opportunity =>
    profile_now <- Stateful.the_profile profile ;;
    analysis_now <- Stateful.the_analysis analysis ;;
    blindspots_now <- read blindspots spots ;;
    if negb (OpportunityMatcher.is_eligible profile_now
               (Opportunity.eligibility_criteria opportunity))
    then ret tt
    else append_match (List.length heap + k)%nat
           (OpportunityMatcher.make_match profile_now analysis_now blindspots_now
              opportunity))
    (heap ++ fresh) =
  (tt, heap ++ update k
         (fun object =>
            match object with
            | Matches found =>
                Matches
                  (fold_left
                     (fun all_eligible_matches opportunity =>
                        if negb (OpportunityMatcher.is_eligible (profile_in heap profile)
                                   (Opportunity.eligibility_criteria opportunity))
                        then all_eligible_matches
                        else all_eligible_matches ++
                             [OpportunityMatcher.make_match (profile_in heap profile)
                                (analysis_in heap analysis) (blindspots_in heap spots)
                                opportunity])
                     catalog found)
            | other => other
            end) fresh).
Proof.
  intros Hp Ha Hs. revert fresh.
  induction catalog as [|opportunity rest IH]; intros fresh.
  - cbn. rewrite update_same; [reflexivity|]. now intros [].
  - cbn [for_each fold_left].
    erewrite bind_step.
    2:{ erewrite bind_step by (apply the_profile_old; exact Hp).
        erewrite bind_step by (apply the_analysis_old; exact Ha).
        erewrite bind_step by (apply read_old; exact Hs).
        instantiate (1 := heap ++ update k
          (fun object =>
             match object with
             | Matches found =>
                 Matches
                   (if negb (OpportunityMatcher.is_eligible (profile_in heap profile)
                               (Opportunity.eligibility_criteria opportunity))
                    then found
                    else found ++
                         [OpportunityMatcher.make_match (profile_in heap profile)
                            (analysis_in heap analysis) (blindspots_in heap spots)
                            opportunity])
             | other => other
             end) fresh).
        instantiate (1 := tt).
        destruct (negb (OpportunityMatcher.is_eligible (profile_in heap profile)
                          (Opportunity.eligibility_criteria opportunity))).
        - unfold ret. rewrite update_same; [reflexivity|]. now intros [].
        - apply modify_fresh. }
    rewrite IH, update_update. f_equal. f_equal.
    apply update_ext. now intros [].
Qed.

Ltac match_step :=
  erewrite bind_step;
  [| first [ apply for_each_collects; assumption
           | apply copy_fresh; assumption
           | apply slice_fresh
           | apply modify_fresh
           | apply read_fresh
           | apply new_first ] ];
  tidy.

(** [match_opportunities] creates the list it fills and sorts, the copy
    of the catalog and, when there are two matches or more, the list of
    the first three; it changes nothing else. *)
Lemma match_opportunities_run_on_store (profile : Live.StudentProfile)
  (analysis : Live.ProfileAnalysis) (spots : Ref) (heap : Heap) :
  allocated heap [Stateful.OPPORTUNITIES] ->
  allocated heap (lists_of_profile profile) ->
  allocated heap (lists_of_analysis analysis) ->
  (spots < List.length heap)%nat ->
  let ranked :=
    Py.sort_desc OpportunityMatch.relevance_score
      (OpportunityMatcher.collect_eligible (profile_in heap profile)
         (analysis_in heap analysis) (blindspots_in heap spots) (catalog_in heap)) in
  Stateful.match_opportunities profile analysis spots heap =
  if (List.length ranked <? 2)%nat then
    (List.length heap,
     heap ++ [Matches ranked; nth Stateful.OPPORTUNITIES heap (Texts [])])
  else
    (S (S (List.length heap)),
     heap ++ [Matches ranked; nth Stateful.OPPORTUNITIES heap (Texts []);
              Matches (firstn (Nat.min 3 (List.length ranked)) ranked)]).
Proof.
  intros Hc Hp Ha Hs ranked. rewrite allocated_cons in Hc. destruct Hc as [Hc _].
  unfold Stateful.match_opportunities, Stateful.get_all_opportunities.
  do 4 match_step.
  unfold sort.
  do 2 match_step.
  match goal with
  | |- (if (List.length ?found <? 2)%nat then _ else _) _ = _ =>
      change found with ranked
  end.
  destruct (List.length ranked <? 2)%nat.
  - unfold ret. now rewrite Nat.add_0_r.
  - rewrite slice_fresh. tidy. now rewrite Nat.add_comm.
Qed.

Lemma nth_created (k : nat) (heap created more : Heap) (d : Object) :
  (k < List.length created)%nat ->
  nth (List.length heap + k) ((heap ++ created) ++ more) d = nth k created d.
Proof.
  intros Hk. rewrite <- app_assoc, app_nth2_plus. now apply app_nth1.
Qed.

Lemma nth_kept (r : Ref) (heap created more : Heap) (d : Object) :
  (r < List.length heap)%nat ->
  nth r ((heap ++ created) ++ more) d = nth r heap d.
Proof. intros Hr. rewrite <- app_assoc. now apply app_nth1. Qed.

(** A call that only creates objects, and whose result reads as a value
    fixed by the objects that existed before it, yields that value twice. *)
Lemma yields_twice_of_run {A V : Type} (read_as : Heap -> A -> V) (call : H A)
  (value : Heap -> V) (ready : Heap -> Prop) :
  (forall heap more, ready heap ->
     ready (heap ++ more) /\ value (heap ++ more) = value heap) ->
  (forall heap, ready heap ->
     exists result created,
       call heap = (result, heap ++ created) /\
       forall more, read_as ((heap ++ created) ++ more) result = value heap) ->
  forall heap, ready heap -> yields_twice read_as call heap (value heap).
Proof.
  intros Hmore Hrun heap Hready.
  destruct (Hrun heap Hready) as (first & created & Hfirst & Hreads).
  destruct (Hmore heap created Hready) as [Hready' Hvalue].
  destruct (Hrun (heap ++ created) Hready') as (second & created' & Hsecond & Hreads').
  unfold yields_twice. rewrite Hfirst, Hsecond.
  split; [now exists created|].
  split; [now exists created'|].
  split; [|split].
  - rewrite <- (app_nil_r (heap ++ created)). apply Hreads.
  - rewrite <- (app_nil_r ((heap ++ created) ++ created')), Hreads'. exact Hvalue.
  - apply Hreads.
Qed.

Lemma analyze_reads (profile : Live.StudentProfile) (heap : Heap) :
  allocated heap (lists_of_profile profile) ->
  exists result created,
    Stateful.analyze profile heap = (result, heap ++ created) /\
    forall more,
      analysis_in ((heap ++ created) ++ more) result =
      ProfileAnalyzer.analyze (profile_in heap profile).
Proof.
  intros Hp. do 2 eexists. split; [apply analyze_run; exact Hp|].
  intros more.
  unfold lists_of_profile in Hp. rewrite !allocated_cons in Hp.
  destruct Hp as (Hb & Hg & _).
  unfold analysis_in, Stateful.the_analysis, read, get, bind, ret.
  cbn [fst key_characteristics eligibility_tags priority_goals awareness_level].
  rewrite <- (Nat.add_0_r (List.length heap)) at 1.
  rewrite <- (Nat.add_1_r (List.length heap)).
  rewrite !nth_created by (cbn; lia).
  rewrite nth_kept by exact Hg.
  reflexivity.
Qed.

Lemma identify_blindspots_reads (profile : Live.StudentProfile)
  (analysis : Live.ProfileAnalysis) (heap : Heap) :
  allocated heap (lists_of_analysis analysis) ->
  exists result created,
    Stateful.identify_blindspots profile analysis heap = (result, heap ++ created) /\
    forall more,
      outcome_in ((heap ++ created) ++ more) result =
      BlindspotIdentifier.identify_blindspots (profile_in heap profile)
        (analysis_in heap analysis).
Proof.
  intros Ha. pose proof (identify_blindspots_run profile analysis heap Ha) as Hrun.
  cbv zeta in Hrun. unfold BlindspotIdentifier.identify_blindspots.
  destruct (List.length _ <? 3)%nat.
  - do 2 eexists. split; [exact Hrun|]. reflexivity.
  - do 2 eexists. split; [exact Hrun|]. intros more.
    unfold outcome_in, blindspots_in, read, get, bind, ret. cbn [fst].
    rewrite <- (Nat.add_1_r (List.length heap)).
    rewrite nth_created by (cbn; lia). reflexivity.
Qed.

Lemma match_opportunities_reads (profile : Live.StudentProfile)
  (analysis : Live.ProfileAnalysis) (spots : Ref) (heap : Heap) :
  allocated heap
    (Stateful.OPPORTUNITIES :: spots ::
     lists_of_profile profile ++ lists_of_analysis analysis) ->
  exists result created,
    Stateful.match_opportunities profile analysis spots heap =
    (result, heap ++ created) /\
    forall more,
      matches_in ((heap ++ created) ++ more) result =
      fst (OpportunityMatcher.match_opportunities (profile_in heap profile)
             (analysis_in heap analysis) (blindspots_in heap spots) (world_of heap)).
Proof.
  intros Hall. unfold lists_of_profile, lists_of_analysis in Hall.
  cbn [app] in Hall. rewrite !allocated_cons in Hall.
  destruct Hall as (Hc & Hs & Hb & Hg & Hk & Ht & Hpg & _).
  assert (Hrun := match_opportunities_run_on_store profile analysis spots heap).
  cbv zeta in Hrun.
  specialize (Hrun ltac:(rewrite allocated_cons; split; [exact Hc | constructor])).
  specialize (Hrun ltac:(unfold lists_of_profile; rewrite !allocated_cons;
                        repeat split; try assumption; constructor)).
  specialize (Hrun ltac:(unfold lists_of_analysis; rewrite !allocated_cons;
                        repeat split; try assumption; constructor)).
  specialize (Hrun Hs).
  rewrite match_opportunities_value. cbv zeta.
  unfold world_of. cbn [OPPORTUNITIES].
  destruct (List.length _ <? 2)%nat.
  - do 2 eexists. split; [exact Hrun|]. intros more.
    unfold matches_in, read, get, bind, ret. cbn [fst].
    rewrite <- (Nat.add_0_r (List.length heap)).
    rewrite nth_created by (cbn; lia). reflexivity.
  - do 2 eexists. split; [exact Hrun|]. intros more.
    unfold matches_in, read, get, bind, ret. cbn [fst].
    replace (S (S (List.length heap))) with (List.length heap + 2)%nat by lia.
    rewrite nth_created by (cbn; lia). reflexivity.
Qed.

End StoreFacts.

(** C8.  [analyze], [identify_blindspots] and [match_opportunities] are
    deterministic and keep no hidden state.  In a store where the
    catalog, the lists of the profile and of the analysis and the list of
    blindspots exist, each of the three calls, made twice in a row with
    the same arguments, leaves every object that existed before it as it
    was (the catalog and the arguments included) and only creates
    objects; both results read the same, namely as the value the
    functional embedding computes from what the arguments and the
    catalog read as, and the first result is not changed by the second
    call. *)
Theorem pipeline_calls_are_repeatable :
  forall (heap : Store.Heap) (profile : Live.StudentProfile)
         (analysis : Live.ProfileAnalysis) (blindspots : Store.Ref),
    allocated heap
      (Stateful.OPPORTUNITIES :: blindspots ::
       lists_of_profile profile ++ lists_of_analysis analysis) ->
    yields_twice analysis_in (Stateful.analyze profile) heap
      (ProfileAnalyzer.analyze (profile_in heap profile)) /\
    yields_twice outcome_in (Stateful.identify_blindspots profile analysis) heap
      (BlindspotIdentifier.identify_blindspots (profile_in heap profile)
         (analysis_in heap analysis)) /\
    yields_twice matches_in
      (Stateful.match_opportunities profile analysis blindspots) heap
      (fst (OpportunityMatcher.match_opportunities (profile_in heap profile)
              (analysis_in heap analysis) (blindspots_in heap blindspots)
              (world_of heap))).
Proof.
  intros heap profile analysis blindspots Hall.
  set (ready := fun heap : Store.Heap =>
         allocated heap
           (Stateful.OPPORTUNITIES :: blindspots ::
            lists_of_profile profile ++ lists_of_analysis analysis)).
  assert (Hparts : forall heap, ready heap ->
            allocated heap [Stateful.OPPORTUNITIES] /\
            (blindspots < List.length heap)%nat /\
            allocated heap (lists_of_profile profile) /\
            allocated heap (lists_of_analysis analysis)).
  { intros h Hh. unfold ready, lists_of_profile, lists_of_analysis in *.
    cbn [app] in Hh. rewrite !allocated_cons in *. tauto. }
  assert (Hmore : forall heap more, ready heap ->
            ready (heap ++ more) /\
            profile_in (heap ++ more) profile = profile_in heap profile /\
            analysis_in (heap ++ more) analysis = analysis_in heap analysis /\
            blindspots_in (heap ++ more) blindspots = blindspots_in heap blindspots /\
            world_of (heap ++ more) = world_of heap).
  { intros h more Hh. destruct (Hparts h Hh) as (Hc & Hs & Hp & Ha).
    split; [now apply allocated_more|].
    split; [now apply profile_in_old|].
    split; [now apply analysis_in_old|].
    split; [now apply blindspots_in_old|].
    unfold world_of. now rewrite catalog_in_old. }
  split; [|split].
  - apply (yields_twice_of_run analysis_in (Stateful.analyze profile)
             (fun heap => ProfileAnalyzer.analyze (profile_in heap profile)) ready);
      [| | exact Hall].
    + intros h more Hh. destruct (Hmore h more Hh) as (H1 & H2 & _).
      split; [exact H1 | now rewrite H2].
    + intros h Hh. apply analyze_reads. now apply Hparts.
  - apply (yields_twice_of_run outcome_in
             (Stateful.identify_blindspots profile analysis)
             (fun heap =>
                BlindspotIdentifier.identify_blindspots (profile_in heap profile)
                  (analysis_in heap analysis)) ready);
      [| | exact Hall].
    + intros h more Hh. destruct (Hmore h more Hh) as (H1 & H2 & H3 & _).
      split; [exact H1 | now rewrite H2, H3].
    + intros h Hh. apply identify_blindspots_reads. now apply Hparts.
  - apply (yields_twice_of_run matches_in
             (Stateful.match_opportunities profile analysis blindspots)
             (fun heap =>
                fst (OpportunityMatcher.match_opportunities (profile_in heap profile)
                       (analysis_in heap analysis) (blindspots_in heap blindspots)
                       (world_of heap))) ready);
      [| | exact Hall].
    + intros h more Hh. destruct (Hmore h more Hh) as (H1 & H2 & H3 & H4 & H5).
      split; [exact H1 | now rewrite H2, H3, H4, H5].
    + intros h Hh. apply match_opportunities_reads. exact Hh.
Qed.

(** The three calls, twice, in the store of the sample profile. *)
Lemma pipeline_calls_are_repeatable_witness :
  yields_twice analysis_in (Stateful.analyze sample_live_profile) sample_heap
    (ProfileAnalyzer.analyze (profile_in sample_heap sample_live_profile)) /\
  yields_twice outcome_in
    (Stateful.identify_blindspots sample_live_profile sample_live_analysis) sample_heap
    (BlindspotIdentifier.identify_blindspots
       (profile_in sample_heap sample_live_profile)
       (analysis_in sample_heap sample_live_analysis)) /\
  yields_twice matches_in
    (Stateful.match_opportunities sample_live_profile sample_live_analysis 5%nat)
    sample_heap
    (fst (OpportunityMatcher.match_opportunities
            (profile_in sample_heap sample_live_profile)
            (analysis_in sample_heap sample_live_analysis)
            (blindspots_in sample_heap 5%nat) (world_of sample_heap))).
Proof.
  apply (pipeline_calls_are_repeatable sample_heap sample_live_profile
           sample_live_analysis 5%nat).
  unfold allocated. repeat constructor.
Defined.

(** The store does record a change: an [append] to the list of
    blindspots that a call received would not leave the store
    unchanged. *)
Example append_to_an_argument_is_a_change :
  ~ unchanged sample_heap
      (snd (Store.append_blindspot 5%nat faint_blindspot sample_heap)).
Proof.
  intros [created Hcreated].
  assert (Hnone : created = []).
  { apply (f_equal (@List.length Store.Object)) in Hcreated.
    rewrite length_app in Hcreated. cbn in Hcreated.
    destruct created; [reflexivity | cbn in Hcreated; lia]. }
  subst created. rewrite app_nil_r in Hcreated.
  apply (f_equal (fun heap => List.length (Store.blindspots (nth 5%nat heap (Store.Texts [])))))
    in Hcreated.
  cbn in Hcreated. discriminate Hcreated.
Qed.

(** ** Worked examples *)

(** The scholarship scenario: the income-based blindspot, of score 0.9,
    is ranked first. *)
Example scholarship_scenario_blindspots :
  option_map (map Blindspot.category)
    (match BlindspotIdentifier.identify_blindspots sample_profile
             (ProfileAnalyzer.analyze sample_profile) with
     | Py.Returned found => Some found
     | Py.Raised _ => None
     end) =
  Some [ "Income-based Central Government Scholarships";
         "Research Internships and Programs";
         "State-level Merit Scholarships" ].
Proof. reflexivity. Qed.

(** The same scenario through the controller: three matches, the Central
    Sector Scholarship first, after all five pipeline stages. *)
Example scholarship_scenario_matches :
  let outcome := ApplicationController.handle_form_submission sample_profile
                   initial_world in
  option_map (map (fun m => Opportunity.id (OpportunityMatch.opportunity m)))
    (ApplicationController.matches (fst outcome)) =
  Some [ "central-sector-scholarship"; "state-govt-merit-scholarship";
         "moe-innovation-programs" ] /\
  calls (snd outcome) =
  [ CallValidate; CallAnalyze; CallProfileSummary; CallIdentifyBlindspots;
    CallMatchOpportunities; CallFinalInsight ].
Proof. vm_compute. split; reflexivity. Qed.

(** With no priority goal only rule 2 fires among the primary rules;
    rules 10 and 11 fill the list to three and rule 12 stays silent. *)
Example fallback_rules_fill_to_three :
  map Blindspot.relevance_score
    (BlindspotIdentifier.accumulated
       rural_profile
       {| ProfileAnalysis.key_characteristics := [];
          ProfileAnalysis.eligibility_tags := [];
          ProfileAnalysis.awareness_level := AwarenessLevel.HIGH;
          ProfileAnalysis.priority_goals := [] |}) = [0.8; 0.45; 0.4].
Proof. reflexivity. Qed.

(** The stable sort keeps the input order of equal keys. *)
Example sort_desc_keeps_ties :
  Py.sort_desc snd [("a", 0.5); ("b", 0.7); ("c", 0.5); ("d", 0.7)] =
  [("b", 0.7); ("d", 0.7); ("a", 0.5); ("c", 0.5)].
Proof. reflexivity. Qed.

(** * Further properties *)

(** ** Text helpers *)

Section TextFacts.

Lemma list_ascii_of_string_append (a b : string) :
  list_ascii_of_string (a ++ b) = list_ascii_of_string a ++ list_ascii_of_string b.
Proof. induction a as [|c a IH]; cbn; [reflexivity | now rewrite IH]. Qed.

Lemma has_ink_append (a b : string) : has_ink (a ++ b) = has_ink a || has_ink b.
Proof. unfold has_ink. now rewrite list_ascii_of_string_append, existsb_app. Qed.

Lemma has_ink_rev_string (s : string) : has_ink (Py.rev_string s) = has_ink s.
Proof.
  unfold has_ink, Py.rev_string.
  rewrite list_ascii_of_string_of_list_ascii.
  apply eq_true_iff_eq. rewrite !existsb_exists.
  split; intros [c [Hin Hc]]; exists c; split; try assumption;
    [now apply in_rev | now apply in_rev in Hin].
Qed.

Lemma has_ink_lstrip (s : string) : has_ink (Py.lstrip s) = has_ink s.
Proof.
  induction s as [|c s IH]; [reflexivity|].
  cbn [Py.lstrip]. destruct (Py.is_space c) eqn:E; [|reflexivity].
  rewrite IH. unfold has_ink. cbn. now rewrite E.
Qed.

Lemma truthy_lstrip (s : string) : Py.truthy_str (Py.lstrip s) = has_ink s.
Proof.
  induction s as [|c s IH]; [reflexivity|].
  cbn [Py.lstrip]. destruct (Py.is_space c) eqn:E.
  - rewrite IH. unfold has_ink. cbn. now rewrite E.
  - unfold has_ink. cbn. now rewrite E.
Qed.

Lemma truthy_rev_string (s : string) :
  Py.truthy_str (Py.rev_string s) = Py.truthy_str s.
Proof.
  unfold Py.rev_string. destruct s as [|c s]; [reflexivity|].
  cbn [list_ascii_of_string rev].
  destruct (rev (list_ascii_of_string s)); reflexivity.
Qed.

Lemma has_ink_truthy (s : string) : has_ink s = true -> Py.truthy_str s = true.
Proof. destruct s; [discriminate | reflexivity]. Qed.

Lemma blank_has_ink (s : string) : StudentProfile.blank s = negb (has_ink s).
Proof.
  unfold StudentProfile.blank, Py.strip.
  rewrite truthy_rev_string, truthy_lstrip, has_ink_rev_string, has_ink_lstrip.
  destruct (has_ink s) eqn:E.
  - now rewrite (has_ink_truthy s E).
  - now rewrite orb_true_r.
Qed.

Lemma has_ink_cat (first : string) (rest : list string) :
  has_ink first = true -> has_ink (Py.cat (first :: rest)) = true.
Proof.
  intros H. unfold Py.cat. cbn [String.concat].
  destruct rest; [assumption|].
  now rewrite has_ink_append, H.
Qed.

Lemma has_ink_join (sep first : string) (rest : list string) :
  has_ink first = true -> has_ink (Py.join sep (first :: rest)) = true.
Proof.
  intros H. unfold Py.join. cbn [String.concat].
  destruct rest; [assumption|].
  now rewrite has_ink_append, H.
Qed.

Lemma prefix_append (p a b : string) :
  String.prefix p a = true -> String.prefix p (a ++ b) = true.
Proof.
  revert a. induction p as [|c p IH]; intros a H; [destruct (a ++ b)%string; reflexivity|].
  destruct a as [|d a]; [discriminate H|].
  cbn in *. destruct (ascii_dec c d); [now apply IH | discriminate H].
Qed.

Lemma contains_append_l (needle a b : string) :
  Py.contains needle a = true -> Py.contains needle (a ++ b) = true.
Proof.
  induction a as [|c a IH]; cbn [Py.contains]; intros H.
  - rewrite orb_false_r in H. destruct needle; [|discriminate H].
    destruct b; reflexivity.
  - change (String c a ++ b)%string with (String c (a ++ b)%string).
    cbn [Py.contains].
    apply orb_true_iff in H. apply orb_true_iff. destruct H as [H|H].
    + left. exact (prefix_append needle (String c a) b H).
    + right. exact (IH H).
Qed.

Lemma contains_append_r (needle a b : string) :
  Py.contains needle b = true -> Py.contains needle (a ++ b) = true.
Proof.
  intros H. induction a as [|c a IH]; [assumption|].
  change (String c a ++ b)%string with (String c (a ++ b)%string).
  cbn [Py.contains]. rewrite IH. apply orb_true_r.
Qed.

End TextFacts.
(** ** Validation of a submitted profile *)

Section UnicodeTextFacts.
Import Unicode.

Lemma has_visible_app (a b : str) : has_visible (a ++ b) = has_visible a || has_visible b.
Proof. unfold has_visible. apply existsb_app. Qed.

Lemma has_visible_rev (s : str) : has_visible (rev s) = has_visible s.
Proof.
  induction s as [|c t IH]; [reflexivity|].
  cbn [rev]. rewrite has_visible_app, IH. unfold has_visible. cbn.
  rewrite orb_false_r. apply orb_comm.
Qed.

Lemma has_visible_lstrip (s : str) : has_visible (lstrip s) = has_visible s.
Proof.
  induction s as [|c t IH]; [reflexivity|].
  cbn [lstrip]. destruct (is_space c) eqn:E; [|reflexivity].
  rewrite IH. unfold has_visible. cbn. now rewrite E.
Qed.

Lemma truthy_lstrip_visible (s : str) : Py.truthy (lstrip s) = has_visible s.
Proof.
  induction s as [|c t IH]; [reflexivity|].
  cbn [lstrip]. destruct (is_space c) eqn:E.
  - rewrite IH. unfold has_visible. cbn. now rewrite E.
  - unfold has_visible. cbn. now rewrite E.
Qed.

Lemma truthy_rev {A : Type} (xs : list A) : Py.truthy (rev xs) = Py.truthy xs.
Proof.
  destruct xs as [|x rest]; [reflexivity|].
  cbn [rev]. destruct (rev rest); reflexivity.
Qed.

Lemma has_visible_truthy (s : str) : has_visible s = true -> Py.truthy s = true.
Proof. destruct s; [discriminate | reflexivity]. Qed.

(** [not s or not s.strip()] holds exactly of the texts without a visible
    code point. *)
Lemma blank_visible (s : str) : Submitted.blank (Some s) = negb (has_visible s).
Proof.
  unfold Submitted.blank, strip.
  rewrite truthy_rev, truthy_lstrip_visible, has_visible_rev, has_visible_lstrip.
  destruct (has_visible s) eqn:E.
  - now rewrite (has_visible_truthy s E).
  - apply orb_true_r.
Qed.

Lemma blank_iff_not_filled_in (field : option str) :
  Submitted.blank field = true <-> not_filled_in field.
Proof.
  unfold not_filled_in. destruct field as [text|].
  - rewrite blank_visible, negb_true_iff. split.
    + intros H t Ht. now injection Ht as <-.
    + intros H. now apply H.
  - split; [intros _ t Ht; discriminate Ht | reflexivity].
Qed.

Lemma not_blank_iff_filled_in (field : option str) :
  Submitted.blank field = false <-> filled_in field.
Proof.
  unfold filled_in. destruct field as [text|].
  - rewrite blank_visible, negb_false_iff. split.
    + intros H. now exists text.
    + intros [t [Ht H]]. now injection Ht as ->.
  - split; [discriminate | intros [t [Ht _]]; discriminate Ht].
Qed.

(** On ASCII characters the white space of [Unicode.is_space] is that of
    [Py.is_space]. *)
Lemma is_space_ascii (c : ascii) :
  (N_of_ascii c <? 128)%N = true -> is_space (N_of_ascii c) = Py.is_space c.
Proof.
  destruct c as [b0 b1 b2 b3 b4 b5 b6 b7].
  destruct b0, b1, b2, b3, b4, b5, b6, b7; intros H;
    solve [discriminate H | vm_compute; reflexivity].
Qed.

Lemma has_visible_of_string (s : string) :
  ascii_only s = true -> has_visible (of_string s) = has_ink s.
Proof.
  unfold ascii_only, has_visible, has_ink, of_string.
  induction (list_ascii_of_string s) as [|c l IH]; [reflexivity|].
  cbn. intros H. apply andb_true_iff in H. destruct H as [Hc Hl].
  now rewrite (is_space_ascii c Hc), (IH Hl).
Qed.

End UnicodeTextFacts.

Section SubmittedFacts.
Import Submitted.

Lemma In_append_if {A : Type} (c : bool) (y x : A) (xs : list A) :
  In x (Py.append_if c y xs) <-> In x xs \/ (c = true /\ x = y).
Proof.
  destruct c; cbn.
  - rewrite in_app_iff. cbn. intuition congruence.
  - intuition discriminate.
Qed.

Lemma NoDup_append_if {A : Type} (c : bool) (y : A) (xs : list A) :
  NoDup xs -> ~ In y xs -> NoDup (Py.append_if c y xs).
Proof.
  intros Hxs Hy. destruct c; cbn; [|exact Hxs].
  apply NoDup_rev in Hxs. rewrite <- (rev_involutive (xs ++ [y])).
  apply NoDup_rev. rewrite rev_app_distr. cbn. constructor; [|exact Hxs].
  now rewrite <- in_rev.
Qed.

Lemma length_zero_iff {A : Type} (xs : list A) :
  Nat.eqb (List.length xs) 0 = true <-> xs = [].
Proof. destruct xs; cbn; split; intros H; try reflexivity; discriminate H. Qed.

(** What [validate] reports, test by test. *)
Lemma validate_reports (s : t) (field : string) :
  In field (snd (validate s)) <->
  (blank (name s) = true /\ field = "name") \/
  (is_None_or (fun value => value <=? 0)%Z (age s) = true /\ field = "age") \/
  (is_None (education_level s) = true /\ field = "education_level") \/
  (blank (degree s) = true /\ field = "degree") \/
  (blank (field_of_study s) = true /\ field = "field_of_study") \/
  (is_None_or (fun value => value <=? 0)%Z (year_of_study s) = true /\
   field = "year_of_study") \/
  (is_None (institution_type s) = true /\ field = "institution_type") \/
  (not_ (opportunity_goals s) = true /\ field = "opportunity_goals") \/
  (is_None (missed_opportunities_before s) = true /\
   field = "missed_opportunities_before").
Proof.
  unfold validate. cbn [snd]. rewrite !In_append_if. cbn [In]. tauto.
Qed.

Lemma is_None_iff {A : Type} (x : option A) : is_None x = true <-> x = None.
Proof. destruct x; cbn; split; intros H; try reflexivity; discriminate H. Qed.

Lemma is_not_None_iff {A : Type} (x : option A) : is_None x = false <-> x <> None.
Proof. destruct x; cbn; split; intros H; try reflexivity; try discriminate; congruence. Qed.

Lemma not_positive_iff (x : option Z) :
  is_None_or (fun value => value <=? 0)%Z x = true <-> not_positive x.
Proof.
  unfold not_positive. destruct x as [n|]; cbn.
  - rewrite Z.leb_le. split.
    + intros H m Hm. injection Hm as <-. exact H.
    + intros H. now apply H.
  - split; [intros _ m Hm; discriminate Hm | reflexivity].
Qed.

Lemma no_goal_iff (x : option (list OpportunityGoal.t)) :
  not_ x = true <-> x = None \/ x = Some [].
Proof.
  destruct x as [[|goal rest]|]; cbn; split; intros H; try reflexivity;
    try discriminate H; auto; destruct H as [H|H]; discriminate H.
Qed.

Lemma some_goal_iff (x : option (list OpportunityGoal.t)) :
  not_ x = false <-> exists goals, x = Some goals /\ goals <> [].
Proof.
  destruct x as [[|goal rest]|]; cbn; split; intros H; try reflexivity;
    try discriminate H.
  - destruct H as [goals [Hg Hne]]. injection Hg as <-. now contradiction Hne.
  - exists (goal :: rest). split; [reflexivity | discriminate].
  - destruct H as [goals [Hg _]]. discriminate Hg.
Qed.

(** [validate] accepts exactly when none of its nine tests fires. *)
Lemma validate_accepts_iff (s : t) :
  fst (validate s) = true <->
  blank (name s) = false /\
  is_None_or (fun value => value <=? 0)%Z (age s) = false /\
  is_None (education_level s) = false /\
  blank (degree s) = false /\
  blank (field_of_study s) = false /\
  is_None_or (fun value => value <=? 0)%Z (year_of_study s) = false /\
  is_None (institution_type s) = false /\
  not_ (opportunity_goals s) = false /\
  is_None (missed_opportunities_before s) = false.
Proof.
  split.
  - intros H. change (fst (validate s)) with
      (Nat.eqb (List.length (snd (validate s))) 0) in H.
    apply length_zero_iff in H.
    pose proof (fun field => proj2 (validate_reports s field)) as Hr.
    rewrite H in Hr. cbn [In] in Hr.
    repeat split; apply not_true_is_false; intros Hb.
    + apply (Hr "name"); tauto.
    + apply (Hr "age"); tauto.
    + apply (Hr "education_level"); tauto.
    + apply (Hr "degree"); tauto.
    + apply (Hr "field_of_study"); tauto.
    + apply (Hr "year_of_study"); tauto.
    + apply (Hr "institution_type"); tauto.
    + apply (Hr "opportunity_goals"); tauto.
    + apply (Hr "missed_opportunities_before"); tauto.
  - intros (H1 & H2 & H3 & H4 & H5 & H6 & H7 & H8 & H9).
    unfold validate. rewrite H1, H2, H3, H4, H5, H6, H7, H8, H9. reflexivity.
Qed.

(** [_validate_field_values] reports nothing exactly when none of its
    four tests fires. *)
Lemma field_values_accepted_iff (s : t) :
  Py.truthy (_validate_field_values s) = false <->
  is_not_None_and (fun value => value <? 0)%Z (age s) = false /\
  is_not_None_and (fun value => value >? 150)%Z (age s) = false /\
  is_not_None_and (fun value => value <? 0)%Z (year_of_study s) = false /\
  is_not_None_and (fun value => value >? 10)%Z (year_of_study s) = false.
Proof.
  unfold _validate_field_values.
  destruct (is_not_None_and (fun value => value <? 0)%Z (age s)),
           (is_not_None_and (fun value => value >? 150)%Z (age s)),
           (is_not_None_and (fun value => value <? 0)%Z (year_of_study s)),
           (is_not_None_and (fun value => value >? 10)%Z (year_of_study s));
    cbn; intuition congruence.
Qed.

Lemma within_iff (high : Z) (x : option Z) :
  is_not_None_and (fun value => value <? 0)%Z x = false /\
  is_not_None_and (fun value => value >? high)%Z x = false /\
  is_None_or (fun value => value <=? 0)%Z x = false <->
  within 1 high x.
Proof.
  unfold within. destruct x as [n|]; cbn.
  - rewrite Z.ltb_ge, Z.leb_gt.
    destruct (Z.gtb_spec n high) as [Hgt|Hle]; split.
    + intros [_ [H _]]. discriminate H.
    + intros [m [Hm Hr]]. injection Hm as <-. lia.
    + intros [H0 [_ H1]]. exists n. split; [reflexivity | lia].
    + intros [m [Hm Hr]]. injection Hm as <-. repeat split; lia.
  - split; [intros [_ [_ H]]; discriminate H | intros [m [Hm _]]; discriminate Hm].
Qed.

(** On a complete profile with ASCII text the two embeddings of the
    validations agree. *)
Lemma as_submitted_validate (profile : StudentProfile.t) :
  ascii_only (StudentProfile.name profile) = true ->
  ascii_only (StudentProfile.degree profile) = true ->
  ascii_only (StudentProfile.field_of_study profile) = true ->
  validate (as_submitted profile) = StudentProfile.validate profile /\
  _validate_field_values (as_submitted profile) =
  ApplicationController._validate_field_values profile.
Proof.
  intros Hn Hd Hf. split; [|reflexivity].
  unfold validate, StudentProfile.validate, as_submitted.
  cbn [name age education_level degree field_of_study year_of_study
       institution_type opportunity_goals missed_opportunities_before
       is_None is_None_or not_].
  rewrite !blank_visible, !blank_has_ink.
  rewrite (has_visible_of_string _ Hn), (has_visible_of_string _ Hd),
    (has_visible_of_string _ Hf).
  reflexivity.
Qed.

End SubmittedFacts.

(** X1.  [validate] lists a field as missing exactly when it fails its
    test: a text field (name, degree, field of study) when it is absent,
    empty or made of white space only, age and year of study when they
    are absent or not positive, education level, institution type and
    missed-opportunity answer when they are absent, the goals when they
    are absent or none is chosen.  It lists nothing but these nine
    names, lists no field twice, and accepts the profile exactly when
    the list is empty. *)
Theorem validate_lists_exactly_the_failing_fields :
  forall s : Submitted.t,
    let missing := snd (Submitted.validate s) in
    (In "name" missing <-> not_filled_in (Submitted.name s)) /\
    (In "age" missing <-> not_positive (Submitted.age s)) /\
    (In "education_level" missing <-> Submitted.education_level s = None) /\
    (In "degree" missing <-> not_filled_in (Submitted.degree s)) /\
    (In "field_of_study" missing <-> not_filled_in (Submitted.field_of_study s)) /\
    (In "year_of_study" missing <-> not_positive (Submitted.year_of_study s)) /\
    (In "institution_type" missing <-> Submitted.institution_type s = None) /\
    (In "opportunity_goals" missing <->
     Submitted.opportunity_goals s = None \/ Submitted.opportunity_goals s = Some []) /\
    (In "missed_opportunities_before" missing <->
     Submitted.missed_opportunities_before s = None) /\
    incl missing required_fields /\
    NoDup missing /\
    (fst (Submitted.validate s) = true <-> missing = []).
Proof.
  intros s missing. subst missing.
  rewrite <- no_goal_iff, <- !blank_iff_not_filled_in, <- !not_positive_iff,
    <- !is_None_iff.
  repeat match goal with
  | |- (In _ _ <-> _) /\ _ =>
      split; [rewrite validate_reports; intuition discriminate|]
  end.
  split; [|split].
  - intros field H. apply validate_reports in H. unfold required_fields. cbn [In].
    intuition auto.
  - unfold Submitted.validate. cbn [snd].
    repeat (apply NoDup_append_if;
            [| rewrite ?In_append_if; cbn [In]; intuition discriminate]).
    constructor.
  - apply length_zero_iff.
Qed.

(** A submission without an education level is reported for that field
    only, and a name made of a no-break space counts as missing. *)
Example validate_reports_absent_and_blank_fields :
  Submitted.validate
    (with_name_and_level (Some (Unicode.of_string "Asha")) None
       (as_submitted sample_profile))
  = (false, ["education_level"]) /\
  Submitted.validate
    (with_name_and_level (Some [160%N]) (Some EducationLevel.UG)
       (as_submitted sample_profile))
  = (false, ["name"]) /\
  Submitted.validate (as_submitted sample_profile) = (true, []).
Proof. repeat split; vm_compute; reflexivity. Qed.

(** X2.  A submission passes both validations of the controller exactly
    when every required field is present, name, degree and field of
    study each contain a character other than white space, the age is
    between 1 and 150, the year of study is between 1 and 10, and at
    least one goal is chosen. *)
Theorem submission_is_valid_iff_complete_and_in_range :
  forall s : Submitted.t,
    valid_submission s = true <->
    filled_in (Submitted.name s) /\
    within 1 150 (Submitted.age s) /\
    Submitted.education_level s <> None /\
    filled_in (Submitted.degree s) /\
    filled_in (Submitted.field_of_study s) /\
    within 1 10 (Submitted.year_of_study s) /\
    Submitted.institution_type s <> None /\
    (exists goals, Submitted.opportunity_goals s = Some goals /\ goals <> []) /\
    Submitted.missed_opportunities_before s <> None.
Proof.
  intros s. unfold valid_submission.
  rewrite andb_true_iff, negb_true_iff, field_values_accepted_iff, validate_accepts_iff.
  rewrite <- !not_blank_iff_filled_in, <- !is_not_None_iff, <- some_goal_iff,
    <- (within_iff 150 (Submitted.age s)), <- (within_iff 10 (Submitted.year_of_study s)).
  tauto.
Qed.

(** ** The profile analyzer *)

Section AnalyzerFacts.
Import ProfileAnalyzer.

Lemma fold_append_values {A : Type} (value : A -> string) (xs : list A)
  (acc : list string) :
  fold_left (fun acc x => acc ++ [value x]) xs acc = acc ++ map value xs.
Proof.
  revert acc. induction xs as [|x rest IH]; intros acc; cbn.
  - now rewrite app_nil_r.
  - rewrite IH, <- app_assoc. reflexivity.
Qed.

Lemma eligibility_tags_analyze (profile : StudentProfile.t) :
  ProfileAnalysis.eligibility_tags (analyze profile) =
  map BackgroundIndicator.value (StudentProfile.background_indicators profile).
Proof.
  cbn. unfold _extract_eligibility_tags. now rewrite fold_append_values.
Qed.

Lemma value_tag_iff (indicator : BackgroundIndicator.t)
  (indicators : list BackgroundIndicator.t) :
  Py.In_ String.eqb (BackgroundIndicator.value indicator)
    (map BackgroundIndicator.value indicators) = true <->
  In indicator indicators.
Proof.
  rewrite (In__iff _ String.eqb_eq), in_map_iff. split.
  - intros [x [Hx Hin]].
    destruct x, indicator; try discriminate Hx; exact Hin.
  - intros Hin. exists indicator. now split.
Qed.

End AnalyzerFacts.

(** X4.  The string tags of the analysis carry the background indicators
    faithfully to the blindspot identifier: on the analysis of a profile,
    the financial-background test holds exactly when the profile has the
    Financial support indicator, and the special-category test holds
    exactly when the gender reads female, woman or f in any letter case or
    the profile has the Disabled indicator. *)
Theorem identifier_tests_agree_with_profile_indicators :
  forall profile : StudentProfile.t,
    let tags := ProfileAnalysis.eligibility_tags (ProfileAnalyzer.analyze profile) in
    (BlindspotIdentifier._has_financial_background tags = true <->
     In BackgroundIndicator.FINANCIAL_SUPPORT
        (StudentProfile.background_indicators profile)) /\
    (BlindspotIdentifier._has_special_category (StudentProfile.gender profile) tags
       = true <->
     (exists g, StudentProfile.gender profile = Some g /\
                In (Py.lower g) ["female"; "woman"; "f"]) \/
     In BackgroundIndicator.DISABLED (StudentProfile.background_indicators profile)).
Proof.
  intros profile tags. subst tags. rewrite eligibility_tags_analyze.
  split.
  - unfold BlindspotIdentifier._has_financial_background. apply value_tag_iff.
  - unfold BlindspotIdentifier._has_special_category.
    pose proof (value_tag_iff BackgroundIndicator.DISABLED
                  (StudentProfile.background_indicators profile)) as Hd.
    destruct (StudentProfile.gender profile) as [g|].
    + pose proof (In__iff _ String.eqb_eq (Py.lower g) ["female"; "woman"; "f"]) as Hg.
      destruct (Py.truthy_str g) eqn:Et; cbn [andb].
      * destruct (Py.In_ String.eqb (Py.lower g) ["female"; "woman"; "f"]).
        -- split; [|reflexivity]. intros _. left. exists g. split; [reflexivity|].
           now apply Hg.
        -- destruct (Py.In_ String.eqb _ (map _ _)).
           ++ split; [|reflexivity]. intros _. right. now apply Hd.
           ++ split; [discriminate|].
              intros [[g' [E Hin]]|Hin].
              ** injection E as <-. apply Hg in Hin. discriminate Hin.
              ** apply Hd in Hin. discriminate Hin.
      * destruct g; [|discriminate Et].
        destruct (Py.In_ String.eqb _ (map _ _)).
        -- split; [|reflexivity]. intros _. right. now apply Hd.
        -- split; [discriminate|].
           intros [[g' [E Hin]]|Hin].
           ++ injection E as <-. cbn in Hin.
              repeat (destruct Hin as [Hin|Hin]; [discriminate Hin|]). destruct Hin.
           ++ apply Hd in Hin. discriminate Hin.
    + destruct (Py.In_ String.eqb _ (map _ _)).
      * split; [|reflexivity]. intros _. right. now apply Hd.
      * split; [discriminate|].
        intros [[g' [E _]]|Hin]; [discriminate E|].
        apply Hd in Hin. discriminate Hin.
Qed.
(** ** Ranking of the blindspots *)

Section TopOfSorted.
Context {A : Type} (key : A -> Q).

Lemma descending_app_le (front back : list A) :
  descending key (front ++ back) ->
  forall x y, In x front -> In y back -> key y <= key x.
Proof.
  unfold descending. induction front as [|f front IH]; intros Hs x y Hx Hy.
  - destruct Hx.
  - cbn in Hs. inversion Hs as [|? ? Hrest Hall]; subst.
    destruct Hx as [<-|Hx].
    + rewrite Forall_forall in Hall. apply Hall, in_or_app. now right.
    + now apply (IH Hrest x y).
Qed.

(** Whatever the first [n] of the sorted list leave out ranks no higher
    than anything they keep. *)
Lemma firstn_sort_keeps_the_top (n : nat) (xs : list A) (x : A) :
  In x xs ->
  In x (firstn n (Py.sort_desc key xs)) \/
  forall kept, In kept (firstn n (Py.sort_desc key xs)) -> key x <= key kept.
Proof.
  intros Hx.
  assert (Hsorted : In x (Py.sort_desc key xs)).
  { eapply Permutation_in; [apply sort_desc_perm | exact Hx]. }
  rewrite <- (firstn_skipn n (Py.sort_desc key xs)) in Hsorted.
  apply in_app_or in Hsorted. destruct Hsorted as [Hfront|Hback]; [now left|].
  right. intros kept Hkept.
  apply (descending_app_le (firstn n (Py.sort_desc key xs))
                           (skipn n (Py.sort_desc key xs))); try assumption.
  rewrite firstn_skipn. apply sort_desc_descending.
Qed.

End TopOfSorted.

Section Decisions.

Lemma all_bool_spec (f : bool -> bool) : all_bool f = true -> forall b, f b = true.
Proof.
  unfold all_bool. intros H b. apply andb_true_iff in H. destruct b; tauto.
Qed.

Lemma Qlt_bool_lt (a b : Q) : Qlt_bool a b = true -> a < b.
Proof.
  unfold Qlt_bool. intros H. apply negb_true_iff in H.
  apply Qnot_le_lt. intros Hle. apply Qle_bool_iff in Hle. congruence.
Qed.

Lemma strictly_descending_b_sound {A : Type} (key : A -> Q) (xs : list A) :
  strictly_descending_b key xs = true -> strictly_descending key xs.
Proof.
  unfold strictly_descending.
  induction xs as [|x rest IH]; cbn; intros H; [constructor|].
  apply andb_true_iff in H. destruct H as [Hall Hrest].
  constructor; [now apply IH|].
  rewrite forallb_forall in Hall. apply Forall_forall.
  intros y Hy. now apply Qlt_bool_lt, Hall.
Qed.

Lemma distinct_strings_b_sound (xs : list string) :
  distinct_strings_b xs = true -> NoDup xs.
Proof.
  induction xs as [|x rest IH]; cbn; intros H; [constructor|].
  apply andb_true_iff in H. destruct H as [Hx Hrest].
  constructor; [|now apply IH].
  intros Hin. apply (In__iff _ String.eqb_eq) in Hin.
  rewrite Hin in Hx. discriminate Hx.
Qed.

End Decisions.

(** Turns a goal [check = true] over boolean variables into one closed
    evaluation covering every combination of their values. *)
Ltac close_over c :=
  match goal with
  | |- ?lhs = true =>
    let f := eval pattern c in lhs in
    match f with
    | ?g _ => revert c; apply (all_bool_spec g)
    end
  end.

Section RankingFacts.
Import BlindspotIdentifier.

(** Every combination of rule conditions, by evaluation: the rule bodies
    are exposed with their [let]s kept, the literal blindspots named, the
    ten conditions generalised and the check run once over all their
    values. *)
Ltac over_all_rule_conditions profile analysis :=
  cbv beta delta [accumulated primary_rules rule_9 rule_10 rule_11 rule_12];
  repeat match goal with
         | |- context [blindspot ?c ?r ?s] => set (blindspot c r s)
         end;
  generalize (_has_financial_background (ProfileAnalysis.eligibility_tags analysis))
             (has_goal OpportunityGoal.SCHOLARSHIPS analysis)
             (_is_stem_field (StudentProfile.field_of_study profile))
             (Py.In_ EducationLevel.eqb (StudentProfile.education_level profile)
                [EducationLevel.UG; EducationLevel.PG])
             (Py.In_ InstitutionType.eqb (StudentProfile.institution_type profile)
                [InstitutionType.GOVERNMENT; InstitutionType.AUTONOMOUS])
             (_has_special_category (StudentProfile.gender profile)
                (ProfileAnalysis.eligibility_tags analysis))
             (has_goal OpportunityGoal.SKILLS analysis ||
              _mentions_innovation (StudentProfile.additional_context profile))
             (has_goal OpportunityGoal.INTERNSHIPS analysis)
             (has_goal OpportunityGoal.GOVT_EXAMS analysis)
             (has_goal OpportunityGoal.RESEARCH analysis);
  intros c_fin c_sch c_stem c_edu c_inst c_special c_skill c_intern c_govt c_res;
  close_over c_res; close_over c_govt; close_over c_intern; close_over c_skill;
  close_over c_special; close_over c_inst; close_over c_edu; close_over c_stem;
  close_over c_sch; close_over c_fin;
  vm_compute; reflexivity.

(** Three facts about the ranked list, checked together on every
    combination of the rule conditions. *)
Lemma ranked_list_facts (profile : StudentProfile.t) (analysis : ProfileAnalysis.t) :
  (let produced := accumulated profile analysis in
   let ranked := firstn 5 (Py.sort_desc Blindspot.relevance_score produced) in
   (strictly_descending_b Blindspot.relevance_score ranked
    && distinct_strings_b (map Blindspot.category ranked))
   && implb (_has_financial_background (ProfileAnalysis.eligibility_tags analysis) &&
             has_goal OpportunityGoal.SCHOLARSHIPS analysis)
            (starts_with_b income_based_blindspot ranked)
   && ((List.length produced <=? 7)%nat &&
       (List.length produced =?
        Nat.max 3 (List.length
                     (rule_9 analysis (primary_rules profile analysis []))))%nat))
  = true.
Proof. over_all_rule_conditions profile analysis. Qed.

Lemma ranked_strictly (profile : StudentProfile.t) (analysis : ProfileAnalysis.t) :
  strictly_descending_b Blindspot.relevance_score
    (firstn 5 (Py.sort_desc Blindspot.relevance_score (accumulated profile analysis)))
  && distinct_strings_b
       (map Blindspot.category
          (firstn 5 (Py.sort_desc Blindspot.relevance_score
                       (accumulated profile analysis))))
  = true.
Proof.
  pose proof (ranked_list_facts profile analysis) as H. cbv zeta in H.
  apply andb_true_iff in H. destruct H as [H _].
  apply andb_true_iff in H. now destruct H as [H _].
Qed.

Lemma income_first (profile : StudentProfile.t) (analysis : ProfileAnalysis.t) :
  implb (_has_financial_background (ProfileAnalysis.eligibility_tags analysis) &&
         has_goal OpportunityGoal.SCHOLARSHIPS analysis)
        (starts_with_b income_based_blindspot
           (firstn 5 (Py.sort_desc Blindspot.relevance_score
                        (accumulated profile analysis))))
  = true.
Proof.
  pose proof (ranked_list_facts profile analysis) as H. cbv zeta in H.
  apply andb_true_iff in H. destruct H as [H _].
  apply andb_true_iff in H. now destruct H as [_ H].
Qed.

Lemma accumulated_counts (profile : StudentProfile.t) (analysis : ProfileAnalysis.t) :
  (List.length (accumulated profile analysis) <=? 7)%nat &&
  (List.length (accumulated profile analysis) =?
   Nat.max 3 (List.length (rule_9 analysis (primary_rules profile analysis []))))%nat
  = true.
Proof.
  pose proof (ranked_list_facts profile analysis) as H. cbv zeta in H.
  apply andb_true_iff in H. now destruct H as [_ H].
Qed.

Lemma blindspot_eqb_eq (a b : Blindspot.t) : blindspot_eqb a b = true -> a = b.
Proof.
  unfold blindspot_eqb. destruct a as [ca ra [na da]], b as [cb rb [nb db]]. cbn.
  rewrite !andb_true_iff. intros [[[Hc Hr] Hn] Hd].
  apply String.eqb_eq in Hc, Hr. apply Z.eqb_eq in Hn. apply Pos.eqb_eq in Hd.
  now subst.
Qed.

Lemma OpportunityGoal_eqb_eq (x y : OpportunityGoal.t) :
  OpportunityGoal.eqb x y = true <-> x = y.
Proof. destruct x, y; cbn; split; intros H; try reflexivity; discriminate H. Qed.

End RankingFacts.

(** X5.  The blindspots returned never tie: their relevance scores are
    strictly decreasing along the list, and no category occurs twice. *)
Theorem blindspots_are_strictly_ranked :
  forall (profile : StudentProfile.t) (analysis : ProfileAnalysis.t),
  exists result : list Blindspot.t,
    BlindspotIdentifier.identify_blindspots profile analysis = Py.Returned result /\
    strictly_descending Blindspot.relevance_score result /\
    NoDup (map Blindspot.category result).
Proof.
  intros profile analysis. eexists.
  split; [apply identify_blindspots_returns|].
  pose proof (ranked_strictly profile analysis) as H.
  apply andb_true_iff in H. destruct H as [Hstrict Hdistinct].
  split; [now apply strictly_descending_b_sound | now apply distinct_strings_b_sound].
Qed.

(** X6.  A student with the Financial support indicator whose goals
    include Scholarships always has the income-based central government
    scholarships, of score 0.9, as the first blindspot. *)
Theorem income_based_blindspot_ranks_first :
  forall profile : StudentProfile.t,
    In BackgroundIndicator.FINANCIAL_SUPPORT
       (StudentProfile.background_indicators profile) ->
    In OpportunityGoal.SCHOLARSHIPS (StudentProfile.opportunity_goals profile) ->
    exists rest : list Blindspot.t,
      BlindspotIdentifier.identify_blindspots profile (ProfileAnalyzer.analyze profile) =
      Py.Returned (income_based_blindspot :: rest).
Proof.
  intros profile Hfin Hgoal.
  rewrite identify_blindspots_returns.
  pose proof (income_first profile (ProfileAnalyzer.analyze profile)) as H.
  assert (Hf : BlindspotIdentifier._has_financial_background
                 (ProfileAnalysis.eligibility_tags (ProfileAnalyzer.analyze profile))
               = true).
  { rewrite eligibility_tags_analyze. now apply value_tag_iff. }
  assert (Hg : BlindspotIdentifier.has_goal OpportunityGoal.SCHOLARSHIPS
                 (ProfileAnalyzer.analyze profile) = true).
  { unfold BlindspotIdentifier.has_goal.
    now apply (In__iff _ OpportunityGoal_eqb_eq). }
  rewrite Hf, Hg in H. cbn [andb implb] in H.
  destruct (firstn 5 _) as [|b rest]; [discriminate H|].
  cbn in H. apply blindspot_eqb_eq in H. subst b.
  exists rest. reflexivity.
Qed.

Lemma income_based_blindspot_ranks_first_witness :
  exists rest : list Blindspot.t,
    BlindspotIdentifier.identify_blindspots sample_profile
      (ProfileAnalyzer.analyze sample_profile) =
    Py.Returned (income_based_blindspot :: rest).
Proof.
  apply income_based_blindspot_ranks_first.
  - cbn. right. now left.
  - cbn. now left.
Defined.

(** X7.  At most seven blindspots ever accumulate, so the cut to five
    drops at most two; and the fallback rules 10 to 12 only top the list
    up: the accumulated length is the larger of three and the number of
    blindspots present after rule 9. *)
Theorem fallback_rules_only_top_up_to_three :
  forall (profile : StudentProfile.t) (analysis : ProfileAnalysis.t),
    let before_fallbacks :=
      BlindspotIdentifier.rule_9 analysis
        (BlindspotIdentifier.primary_rules profile analysis []) in
    (List.length (BlindspotIdentifier.accumulated profile analysis) <= 7)%nat /\
    List.length (BlindspotIdentifier.accumulated profile analysis) =
    Nat.max 3 (List.length before_fallbacks).
Proof.
  intros profile analysis before_fallbacks. subst before_fallbacks.
  pose proof (accumulated_counts profile analysis) as H.
  apply andb_true_iff in H. destruct H as [Hle Heq].
  split; [now apply Nat.leb_le | now apply Nat.eqb_eq].
Qed.

(** X8.  The cut to five keeps the best: every blindspot a rule produced
    is either returned or has a score no higher than each blindspot
    returned. *)
Theorem truncation_drops_the_lowest_blindspots :
  forall (profile : StudentProfile.t) (analysis : ProfileAnalysis.t),
  exists result : list Blindspot.t,
    BlindspotIdentifier.identify_blindspots profile analysis = Py.Returned result /\
    Forall (fun produced =>
              In produced result \/
              forall kept, In kept result ->
                Blindspot.relevance_score produced <= Blindspot.relevance_score kept)
           (BlindspotIdentifier.accumulated profile analysis).
Proof.
  intros profile analysis. eexists.
  split; [apply identify_blindspots_returns|].
  apply Forall_forall. intros produced Hin.
  now apply firstn_sort_keeps_the_top.
Qed.
(** ** Scores of the matcher *)

Section ScoreFacts.
Import OpportunityMatcher.

Lemma min_cases (a b : Q) :
  (Py.min a b = a /\ a <= b) \/ (Py.min a b = b /\ b <= a).
Proof.
  unfold Py.min. destruct (Qle_bool a b) eqn:E.
  - left. split; [reflexivity|]. now apply Qle_bool_iff.
  - right. split; [reflexivity|].
    apply Qlt_le_weak, Qnot_le_lt. intros H. apply Qle_bool_iff in H. congruence.
Qed.

Lemma alignment_at_least_floor (opportunity : Opportunity.t)
  (blindspots : list Blindspot.t) :
  0.3 <= _calculate_blindspot_alignment opportunity blindspots.
Proof.
  unfold _calculate_blindspot_alignment.
  destruct (max_cases (fold_left (alignment_step opportunity) blindspots 0.0) 0.3)
    as [[E H]|[E H]]; rewrite E; [exact H | apply Qle_refl].
Qed.

(** The floored maximum, with no assumption on the scores. *)
Lemma alignment_maximum_always (opportunity : Opportunity.t)
  (blindspots : list Blindspot.t) :
  is_maximum_of (_calculate_blindspot_alignment opportunity blindspots)
                (0.3 :: alignments opportunity blindspots).
Proof.
  unfold _calculate_blindspot_alignment. rewrite alignment_loop_fired.
  destruct (fold_max_is_maximum (alignments opportunity blindspots) 0.0)
    as [Hin Hall].
  set (m := fold_left Py.max (alignments opportunity blindspots) 0.0) in *.
  inversion Hall as [|? ? _ Hrest]; subst.
  destruct (max_cases m 0.3) as [[E Hle]|[E Hle]]; rewrite E.
  - split.
    + destruct Hin as [Hm|Hin]; [|now right].
      exfalso. rewrite <- Hm in Hle. lra.
    + constructor; assumption.
  - split; [now left|].
    constructor; [apply Qle_refl|].
    eapply Forall_impl; [|exact Hrest].
    intros v Hv. cbn in Hv. eapply Qle_trans; eassumption.
Qed.

Lemma relevance_closed_form (profile : StudentProfile.t)
  (analysis : ProfileAnalysis.t) (opportunity : Opportunity.t) (x : Q) :
  _calculate_relevance profile analysis opportunity x ==
  Qmin (0.4 * x
        + impact_weight (Opportunity.impact_level opportunity)
        + visibility_weight (Opportunity.visibility_level opportunity)
        + goal_bonus analysis opportunity)
       1.
Proof.
  unfold _calculate_relevance, goal_bonus.
  rewrite dict_get_goal_of_category.
  apply min_is_Qmin; [|reflexivity].
  destruct (Opportunity.impact_level opportunity),
           (Opportunity.visibility_level opportunity),
           (goal_of_category (Opportunity.category opportunity)) as [goal|];
    cbn -[Qplus Qmult];
    try destruct (Py.In_ OpportunityGoal.eqb goal
                    (ProfileAnalysis.priority_goals analysis));
    ring.
Qed.

Lemma weights_bounds (analysis : ProfileAnalysis.t) (opportunity : Opportunity.t) :
  0.1 <= impact_weight (Opportunity.impact_level opportunity) /\
  0.1 <= visibility_weight (Opportunity.visibility_level opportunity) /\
  0 <= goal_bonus analysis opportunity.
Proof.
  unfold goal_bonus.
  destruct (Opportunity.impact_level opportunity),
           (Opportunity.visibility_level opportunity),
           (goal_of_category (Opportunity.category opportunity)) as [goal|];
    cbn; try destruct (Py.In_ OpportunityGoal.eqb goal _);
    repeat split; discriminate.
Qed.

Lemma relevance_bounds (profile : StudentProfile.t) (analysis : ProfileAnalysis.t)
  (opportunity : Opportunity.t) (x : Q) :
  0.3 <= x ->
  0.32 <= _calculate_relevance profile analysis opportunity x /\
  _calculate_relevance profile analysis opportunity x <= 1.
Proof.
  intros Hx. rewrite relevance_closed_form.
  destruct (weights_bounds analysis opportunity) as [Hi [Hv Hg]].
  split.
  - apply Q.min_glb; lra.
  - apply Q.le_min_r.
Qed.

Lemma make_match_relevance_bounds (profile : StudentProfile.t)
  (analysis : ProfileAnalysis.t) (blindspots : list Blindspot.t)
  (opportunity : Opportunity.t) :
  0.32 <= OpportunityMatch.relevance_score
            (make_match profile analysis blindspots opportunity) /\
  OpportunityMatch.relevance_score
    (make_match profile analysis blindspots opportunity) <= 1.
Proof. cbn. apply relevance_bounds, alignment_at_least_floor. Qed.

End ScoreFacts.

(** X9.  Every match returned has a relevance score between 0.32 and 1:
    the alignment floor of 0.3 and the least impact and visibility weights
    give 0.4 * 0.3 + 0.1 + 0.1 from below, the cap gives 1 from above. *)
Theorem returned_relevance_scores_are_bounded :
  forall (profile : StudentProfile.t) (analysis : ProfileAnalysis.t)
         (blindspots : list Blindspot.t) (w : World),
    Forall (fun m => 0.32 <= OpportunityMatch.relevance_score m /\
                     OpportunityMatch.relevance_score m <= 1)
           (fst (OpportunityMatcher.match_opportunities profile analysis blindspots w)).
Proof.
  intros profile analysis blindspots w.
  rewrite match_opportunities_run. cbn [fst].
  apply Forall_firstn.
  eapply Permutation_Forall; [apply sort_desc_perm|].
  apply Forall_map, Forall_forall. intros o _.
  apply make_match_relevance_bounds.
Qed.

(** X10.  The matcher returns the best matches: the match of every
    eligible opportunity of the catalog is either returned or has a
    relevance score no higher than each match returned. *)
Theorem returned_matches_are_the_top_ranked :
  forall (profile : StudentProfile.t) (analysis : ProfileAnalysis.t)
         (blindspots : list Blindspot.t) (w : World),
    let result :=
      fst (OpportunityMatcher.match_opportunities profile analysis blindspots w) in
    Forall (fun o =>
              let candidate :=
                OpportunityMatcher.make_match profile analysis blindspots o in
              In candidate result \/
              forall kept, In kept result ->
                OpportunityMatch.relevance_score candidate <=
                OpportunityMatch.relevance_score kept)
           (eligible_opportunities profile (OPPORTUNITIES w)).
Proof.
  intros profile analysis blindspots w result. subst result.
  rewrite match_opportunities_run. cbn [fst].
  apply Forall_forall. intros o Ho. cbv zeta.
  apply firstn_sort_keeps_the_top. now apply in_map.
Qed.

(** X11.  The relevance score never decreases when the blindspot
    alignment increases, and at equal alignment an opportunity scores at
    least as high with Low visibility as with Medium, and with Medium as
    with High: less visible opportunities are preferred. *)
Theorem relevance_prefers_alignment_and_low_visibility :
  forall (profile : StudentProfile.t) (analysis : ProfileAnalysis.t)
         (opportunity : Opportunity.t) (x y : Q),
    x <= y ->
    OpportunityMatcher._calculate_relevance profile analysis opportunity x <=
    OpportunityMatcher._calculate_relevance profile analysis opportunity y /\
    OpportunityMatcher._calculate_relevance profile analysis
      (with_visibility VisibilityLevel.HIGH opportunity) x <=
    OpportunityMatcher._calculate_relevance profile analysis
      (with_visibility VisibilityLevel.MEDIUM opportunity) x /\
    OpportunityMatcher._calculate_relevance profile analysis
      (with_visibility VisibilityLevel.MEDIUM opportunity) x <=
    OpportunityMatcher._calculate_relevance profile analysis
      (with_visibility VisibilityLevel.LOW opportunity) x.
Proof.
  intros profile analysis opportunity x y Hxy.
  rewrite !relevance_closed_form.
  assert (Hbonus : forall v,
            goal_bonus analysis (with_visibility v opportunity) =
            goal_bonus analysis opportunity) by reflexivity.
  rewrite !Hbonus. cbn [with_visibility Opportunity.impact_level
                        Opportunity.visibility_level visibility_weight].
  repeat split; apply Q.min_le_compat_r; lra.
Qed.

Lemma relevance_prefers_alignment_and_low_visibility_witness :
  OpportunityMatcher._calculate_relevance sample_profile
    (ProfileAnalyzer.analyze sample_profile)
    KnowledgeBase.nptel_research_internship 0.3 <=
  OpportunityMatcher._calculate_relevance sample_profile
    (ProfileAnalyzer.analyze sample_profile)
    KnowledgeBase.nptel_research_internship 0.8.
Proof.
  refine (proj1 (relevance_prefers_alignment_and_low_visibility sample_profile
                   (ProfileAnalyzer.analyze sample_profile)
                   KnowledgeBase.nptel_research_internship 0.3 0.8 _)).
  discriminate.
Defined.

(** X12.  The miss probability is monotone in both arguments: a less
    visible opportunity is never rated less likely to be missed, and a
    more aware student is never rated more likely to miss it. *)
Theorem miss_probability_is_monotone :
  forall (v v' : VisibilityLevel.t) (a a' : AwarenessLevel.t),
    (visibility_rank v <= visibility_rank v')%nat ->
    (awareness_rank a <= awareness_rank a')%nat ->
    (miss_rank (OpportunityMatcher.calculate_miss_probability v' a') <=
     miss_rank (OpportunityMatcher.calculate_miss_probability v a))%nat.
Proof.
  intros v v' a a' Hv Ha.
  destruct v, v', a, a'; cbn in *; lia.
Qed.

Lemma miss_probability_is_monotone_witness :
  (miss_rank (OpportunityMatcher.calculate_miss_probability
                VisibilityLevel.HIGH AwarenessLevel.HIGH) <=
   miss_rank (OpportunityMatcher.calculate_miss_probability
                VisibilityLevel.MEDIUM AwarenessLevel.LOW))%nat.
Proof.
  apply (miss_probability_is_monotone VisibilityLevel.MEDIUM VisibilityLevel.HIGH
           AwarenessLevel.LOW AwarenessLevel.HIGH); cbn; lia.
Defined.

(** X13.  The blindspot alignment does not depend on the order of the
    blindspots, and it never decreases when blindspots are added. *)
Theorem alignment_ignores_order_and_grows_with_blindspots :
  forall (opportunity : Opportunity.t) (blindspots reordered more : list Blindspot.t),
    Permutation blindspots reordered ->
    OpportunityMatcher._calculate_blindspot_alignment opportunity blindspots ==
    OpportunityMatcher._calculate_blindspot_alignment opportunity reordered /\
    OpportunityMatcher._calculate_blindspot_alignment opportunity blindspots <=
    OpportunityMatcher._calculate_blindspot_alignment opportunity (blindspots ++ more).
Proof.
  intros opportunity blindspots reordered more Hperm.
  destruct (alignment_maximum_always opportunity blindspots) as [Hin1 Hall1].
  destruct (alignment_maximum_always opportunity reordered) as [Hin2 Hall2].
  destruct (alignment_maximum_always opportunity (blindspots ++ more)) as [_ Hall3].
  assert (Hp : Permutation (0.3 :: alignments opportunity blindspots)
                           (0.3 :: alignments opportunity reordered)).
  { apply perm_skip. unfold alignments. now apply Permutation_flat_map. }
  rewrite Forall_forall in Hall1, Hall2, Hall3.
  split.
  - apply Qle_antisym.
    + apply Hall2. eapply Permutation_in; [exact Hp | exact Hin1].
    + apply Hall1. eapply Permutation_in; [apply Permutation_sym, Hp | exact Hin2].
  - apply Hall3. destruct Hin1 as [<-|Hin1]; [now left|].
    right. unfold alignments in *. rewrite flat_map_app.
    apply in_or_app. now left.
Qed.

Lemma alignment_ignores_order_and_grows_with_blindspots_witness :
  OpportunityMatcher._calculate_blindspot_alignment
    KnowledgeBase.central_sector_scholarship
    [faint_blindspot; income_based_blindspot] ==
  OpportunityMatcher._calculate_blindspot_alignment
    KnowledgeBase.central_sector_scholarship
    [income_based_blindspot; faint_blindspot].
Proof.
  refine (proj1 (alignment_ignores_order_and_grows_with_blindspots
                   KnowledgeBase.central_sector_scholarship
                   [faint_blindspot; income_based_blindspot]
                   [income_based_blindspot; faint_blindspot] [] _)).
  apply perm_swap.
Defined.
(** ** What the matcher returns *)

Section ReturnedMatches.
Import OpportunityMatcher.

Lemma NoDup_firstn {A : Type} (n : nat) (xs : list A) :
  NoDup xs -> NoDup (firstn n xs).
Proof.
  intros H. rewrite <- (firstn_skipn n xs) in H.
  now apply NoDup_app_remove_r in H.
Qed.

Lemma initial_catalog_ids_distinct :
  NoDup (map Opportunity.id KnowledgeBase.initial_OPPORTUNITIES).
Proof. apply distinct_strings_b_sound. reflexivity. Qed.

Lemma initial_catalog_NoDup : NoDup KnowledgeBase.initial_OPPORTUNITIES.
Proof. eapply NoDup_map_inv. apply initial_catalog_ids_distinct. Qed.

Lemma has_ink_join_explanations (first : string) (others : list string) :
  has_ink first = true -> has_ink (join_explanations (first :: others)) = true.
Proof.
  intros H. unfold join_explanations.
  destruct others as [|second [|third rest]].
  - now apply has_ink_cat.
  - now apply has_ink_cat.
  - apply has_ink_cat.
    change (removelast (first :: second :: third :: rest))
      with (first :: removelast (second :: third :: rest)).
    now apply has_ink_join.
Qed.

Lemma fit_explanation_has_ink (profile : StudentProfile.t)
  (opportunity : Opportunity.t) :
  has_ink (_generate_fit_explanation profile opportunity) = true.
Proof.
  unfold _generate_fit_explanation. cbv zeta.
  destruct (EligibilityCriteria.fields_of_study
              (Opportunity.eligibility_criteria opportunity)) as [fields|];
  destruct (EligibilityCriteria.background_requirements
              (Opportunity.eligibility_criteria opportunity)) as [reqs|];
  try destruct (Py.truthy (filter _ (StudentProfile.background_indicators profile)));
  destruct (EligibilityCriteria.income_based
              (Opportunity.eligibility_criteria opportunity));
  try destruct (Py.In_ BackgroundIndicator.eqb BackgroundIndicator.FINANCIAL_SUPPORT
                  (StudentProfile.background_indicators profile));
  destruct (EligibilityCriteria.merit_based
              (Opportunity.eligibility_criteria opportunity));
  cbn [app Py.append_if];
  apply has_ink_join_explanations, has_ink_cat; reflexivity.
Qed.

Lemma miss_reason_has_ink (opportunity : Opportunity.t)
  (awareness_level : AwarenessLevel.t) :
  has_ink (_generate_miss_reason opportunity awareness_level) = true.
Proof.
  unfold _generate_miss_reason. cbv zeta.
  match goal with
  | |- has_ink (match ?reasons with _ => _ end) = true =>
    destruct reasons as [|r [|r' rest]]
  end.
  - reflexivity.
  - apply has_ink_cat. reflexivity.
  - apply has_ink_cat. reflexivity.
Qed.

Lemma everyone_is_eligible_for_two (profile : StudentProfile.t) :
  is_eligible profile
    (Opportunity.eligibility_criteria KnowledgeBase.state_govt_merit_scholarship) = true /\
  is_eligible profile
    (Opportunity.eligibility_criteria KnowledgeBase.moe_innovation_programs) = true.
Proof.
  unfold is_eligible. cbn.
  destruct (StudentProfile.education_level profile); split; reflexivity.
Qed.

Lemma initial_catalog_yields_two (profile : StudentProfile.t) :
  (2 <= List.length
          (eligible_opportunities profile KnowledgeBase.initial_OPPORTUNITIES))%nat.
Proof.
  unfold eligible_opportunities, KnowledgeBase.initial_OPPORTUNITIES.
  destruct (everyone_is_eligible_for_two profile) as [Hstate Hmoe].
  cbn [filter]. rewrite Hstate, Hmoe.
  repeat match goal with
         | |- context [if ?c then _ else _] => destruct c
         end; cbn [List.length]; lia.
Qed.

End ReturnedMatches.

(** X14.  Every match returned is built from an opportunity of the
    catalog: its texts, miss probability and score are those
    [make_match] computes from that opportunity; and when the catalog
    lists no opportunity twice, no opportunity is recommended twice. *)
Theorem returned_matches_come_from_the_catalog :
  forall (profile : StudentProfile.t) (analysis : ProfileAnalysis.t)
         (blindspots : list Blindspot.t) (w : World),
    let result :=
      fst (OpportunityMatcher.match_opportunities profile analysis blindspots w) in
    Forall (fun m =>
              In (OpportunityMatch.opportunity m) (OPPORTUNITIES w) /\
              m = OpportunityMatcher.make_match profile analysis blindspots
                    (OpportunityMatch.opportunity m)) result /\
    (NoDup (OPPORTUNITIES w) -> NoDup (map OpportunityMatch.opportunity result)).
Proof.
  intros profile analysis blindspots w result. subst result.
  rewrite match_opportunities_run. cbn [fst].
  set (eligible := eligible_opportunities profile (OPPORTUNITIES w)).
  set (made := map (OpportunityMatcher.make_match profile analysis blindspots) eligible).
  split.
  - apply Forall_firstn.
    eapply Permutation_Forall; [apply sort_desc_perm|].
    subst made. apply Forall_map, Forall_forall. intros o Ho.
    split; [|reflexivity]. cbn.
    subst eligible. unfold eligible_opportunities in Ho.
    apply filter_In in Ho. tauto.
  - intros Hnodup. rewrite <- firstn_map. apply NoDup_firstn.
    eapply Permutation_NoDup.
    + apply Permutation_map, sort_desc_perm.
    + subst made. rewrite map_map. cbn. rewrite map_id.
      subst eligible. now apply NoDup_filter.
Qed.

Lemma returned_matches_come_from_the_catalog_witness :
  NoDup (map OpportunityMatch.opportunity
           (fst (OpportunityMatcher.match_opportunities sample_profile
                   (ProfileAnalyzer.analyze sample_profile) [] initial_world))).
Proof.
  refine (proj2 (returned_matches_come_from_the_catalog sample_profile
                   (ProfileAnalyzer.analyze sample_profile) [] initial_world) _).
  exact initial_catalog_NoDup.
Defined.

(** X15.  Every match returned carries text: neither its fit explanation
    nor its miss reason is empty or made of white space only. *)
Theorem returned_matches_carry_explanations :
  forall (profile : StudentProfile.t) (analysis : ProfileAnalysis.t)
         (blindspots : list Blindspot.t) (w : World),
    Forall (fun m => has_ink (OpportunityMatch.fit_explanation m) = true /\
                     has_ink (OpportunityMatch.miss_reason m) = true)
           (fst (OpportunityMatcher.match_opportunities profile analysis blindspots w)).
Proof.
  intros profile analysis blindspots w.
  rewrite match_opportunities_run. cbn [fst].
  apply Forall_firstn.
  eapply Permutation_Forall; [apply sort_desc_perm|].
  apply Forall_map, Forall_forall. intros o _. cbn.
  split; [apply fit_explanation_has_ink | apply miss_reason_has_ink].
Qed.

(** X16.  With the knowledge base the package ships, every profile gets
    two or three matches, whatever the analysis and the blindspots: the
    state merit scholarships and the ministry innovation programs are open
    to every education level and set no other constraint. *)
Theorem shipped_catalog_always_yields_two_or_three_matches :
  forall (profile : StudentProfile.t) (analysis : ProfileAnalysis.t)
         (blindspots : list Blindspot.t) (w : World),
    OPPORTUNITIES w = KnowledgeBase.initial_OPPORTUNITIES ->
    let result :=
      fst (OpportunityMatcher.match_opportunities profile analysis blindspots w) in
    (2 <= List.length result <= 3)%nat.
Proof.
  intros profile analysis blindspots w Hshipped result. subst result.
  rewrite match_opportunities_run. cbn [fst].
  rewrite length_firstn, sort_desc_length, length_map, Hshipped.
  pose proof (initial_catalog_yields_two profile). lia.
Qed.

Lemma shipped_catalog_always_yields_two_or_three_matches_witness :
  (2 <= List.length
          (fst (OpportunityMatcher.match_opportunities rural_profile
                  (ProfileAnalyzer.analyze rural_profile) [] initial_world)) <= 3)%nat.
Proof.
  apply (shipped_catalog_always_yields_two_or_three_matches rural_profile
           (ProfileAnalyzer.analyze rural_profile) [] initial_world).
  reflexivity.
Defined.
(** ** Knowledge-base queries *)

Section QueryFacts.
Import KnowledgeBase.

Lemma find_by_unique_id (catalog : list Opportunity.t) (o : Opportunity.t) :
  NoDup (map Opportunity.id catalog) ->
  In o catalog ->
  find (fun opportunity => String.eqb (Opportunity.id opportunity) (Opportunity.id o))
       catalog = Some o.
Proof.
  induction catalog as [|x rest IH]; intros Hnodup Hin; [destruct Hin|].
  cbn in Hnodup. inversion Hnodup as [|? ? Hfresh Hrest]; subst.
  cbn [find]. destruct Hin as [<-|Hin].
  - now rewrite String.eqb_refl.
  - destruct (String.eqb (Opportunity.id x) (Opportunity.id o)) eqn:E.
    + apply String.eqb_eq in E. exfalso. apply Hfresh. rewrite E.
      now apply in_map.
    + now apply IH.
Qed.

End QueryFacts.

(** X17.  [get_opportunity_by_id] leaves the process state alone; an
    opportunity it returns is in the knowledge base and has the id asked
    for; it returns nothing exactly when no entry has the id; and when the
    ids of the knowledge base are pairwise different, looking up the id of
    any entry returns that entry. *)
Theorem get_opportunity_by_id_finds_the_entry :
  forall (opportunity_id : string) (w : World),
    let found := fst (KnowledgeBase.get_opportunity_by_id opportunity_id w) in
    snd (KnowledgeBase.get_opportunity_by_id opportunity_id w) = w /\
    (forall o, found = Some o ->
       In o (OPPORTUNITIES w) /\ Opportunity.id o = opportunity_id) /\
    (found = None <->
     forall o, In o (OPPORTUNITIES w) -> Opportunity.id o <> opportunity_id) /\
    (NoDup (map Opportunity.id (OPPORTUNITIES w)) ->
     forall o, In o (OPPORTUNITIES w) ->
       fst (KnowledgeBase.get_opportunity_by_id (Opportunity.id o) w) = Some o).
Proof.
  intros opportunity_id w found. subst found.
  unfold KnowledgeBase.get_opportunity_by_id. cbn [fst snd].
  split; [reflexivity|].
  split.
  { intros o Hfound. apply find_some in Hfound. destruct Hfound as [Hin Heq].
    split; [exact Hin | now apply String.eqb_eq]. }
  split.
  { split.
    - intros Hnone o Hin Hid.
      pose proof (find_none _ _ Hnone o Hin) as Hne. cbn in Hne.
      apply String.eqb_neq in Hne. contradiction.
    - intros Hall.
      destruct (find _ (OPPORTUNITIES w)) as [o|] eqn:E; [|reflexivity].
      apply find_some in E. destruct E as [Hin Heq].
      apply String.eqb_eq in Heq. exfalso. now apply (Hall o). }
  intros Hnodup o Hin. now apply find_by_unique_id.
Qed.

Lemma get_opportunity_by_id_finds_the_entry_witness :
  fst (KnowledgeBase.get_opportunity_by_id
         (Opportunity.id KnowledgeBase.aicte_saksham) initial_world) =
  Some KnowledgeBase.aicte_saksham.
Proof.
  refine (proj2 (proj2 (proj2
    (get_opportunity_by_id_finds_the_entry "aicte-saksham" initial_world)))
    _ KnowledgeBase.aicte_saksham _).
  - exact initial_catalog_ids_distinct.
  - cbn. tauto.
Defined.

(** X18.  The category and education-level queries leave the process
    state alone and return entries of the knowledge base only; and every
    opportunity [match_opportunities] recommends to a profile is among the
    entries [get_opportunities_by_education_level] lists for the profile's
    education level. *)
Theorem recommendations_are_listed_for_the_education_level :
  forall (profile : StudentProfile.t) (analysis : ProfileAnalysis.t)
         (blindspots : list Blindspot.t) (category : string) (w : World),
    let by_level :=
      KnowledgeBase.get_opportunities_by_education_level
        (StudentProfile.education_level profile) w in
    let by_category := KnowledgeBase.get_opportunities_by_category category w in
    snd by_level = w /\ snd by_category = w /\
    incl (fst by_level) (OPPORTUNITIES w) /\
    Forall (fun o => In o (OPPORTUNITIES w) /\ Opportunity.category o = category)
           (fst by_category) /\
    Forall (fun m => In (OpportunityMatch.opportunity m) (fst by_level))
           (fst (OpportunityMatcher.match_opportunities profile analysis blindspots w)).
Proof.
  intros profile analysis blindspots category w by_level by_category.
  subst by_level by_category.
  unfold KnowledgeBase.get_opportunities_by_education_level,
    KnowledgeBase.get_opportunities_by_category. cbn [fst snd].
  split; [reflexivity|]. split; [reflexivity|].
  split; [apply incl_filter|].
  split.
  { apply Forall_forall. intros o Ho. apply filter_In in Ho.
    destruct Ho as [Hin Hc]. split; [exact Hin | now apply String.eqb_eq]. }
  rewrite match_opportunities_run. cbn [fst].
  apply Forall_firstn.
  eapply Permutation_Forall; [apply sort_desc_perm|].
  apply Forall_map, Forall_forall. intros o Ho. cbn.
  unfold eligible_opportunities in Ho. apply filter_In in Ho.
  destruct Ho as [Hin Helig]. apply filter_In. split; [exact Hin|].
  apply is_eligible_iff in Helig. destruct Helig as [Hlevel _].
  now apply (In__iff _ EducationLevel_eqb_eq).
Qed.
(** ** Outcomes of a submission *)

Section OutcomeFacts.
Import ApplicationController.

Lemma profile_summary_has_ink (profile : StudentProfile.t) :
  has_ink (ExplanationGenerator.generate_profile_summary profile) = true.
Proof.
  unfold ExplanationGenerator.generate_profile_summary. cbv zeta.
  destruct (0 <? List.length (StudentProfile.background_indicators profile))%nat;
    repeat apply has_ink_cat; reflexivity.
Qed.

Lemma final_insight_has_ink (profile : StudentProfile.t)
  (spots : list Blindspot.t) (found : list OpportunityMatch.t) :
  has_ink (ExplanationGenerator.generate_final_insight profile spots found) = true.
Proof.
  unfold ExplanationGenerator.generate_final_insight. cbv zeta.
  destruct (Py.contains "scholarship" _);
    [|destruct (Py.contains "research" _ || Py.contains "internship" _)];
    destruct (MissedOpportunityFrequency.eqb _ MissedOpportunityFrequency.YES_MANY_TIMES);
    try destruct (MissedOpportunityFrequency.eqb _
                    MissedOpportunityFrequency.ONCE_OR_TWICE);
    repeat apply has_ink_cat; reflexivity.
Qed.

Lemma answer_blindspots_truthy (profile : StudentProfile.t) :
  Py.truthy (answer_blindspots profile) = true.
Proof.
  unfold answer_blindspots.
  pose proof (accumulated_length profile (ProfileAnalyzer.analyze profile)) as Hlen.
  rewrite <- (sort_desc_length Blindspot.relevance_score) in Hlen.
  destruct (Py.sort_desc _ _) as [|b rest]; [cbn in Hlen; lia | reflexivity].
Qed.

Lemma handle_rejected_missing (profile : StudentProfile.t) (w : World) :
  Py.truthy (_validate_field_values profile) = false ->
  fst (StudentProfile.validate profile) = false ->
  handle_form_submission profile w =
  (missing_fields_response (snd (StudentProfile.validate profile)),
   {| OPPORTUNITIES := OPPORTUNITIES w; calls := calls w ++ [CallValidate] |}).
Proof.
  intros Hvalues Hfields. unfold handle_form_submission. rewrite Hvalues.
  unfold bind, log.
  destruct (StudentProfile.validate profile) as [is_valid missing_fields].
  cbn in Hfields. subst is_valid. reflexivity.
Qed.

Lemma handle_accepted (profile : StudentProfile.t) (w : World) :
  valid_profile profile = true ->
  Py.truthy (OPPORTUNITIES w) = true ->
  handle_form_submission profile w =
  if Py.truthy (answer_matches profile w)
  then (full_response (ExplanationGenerator.generate_profile_summary profile)
          (answer_blindspots profile) (answer_matches profile w)
          (ExplanationGenerator.generate_final_insight profile
             (answer_blindspots profile) (answer_matches profile w)),
        {| OPPORTUNITIES := OPPORTUNITIES w;
           calls := calls w ++ pipeline_stages |})
  else (no_matches_response (ExplanationGenerator.generate_profile_summary profile)
          (answer_blindspots profile) (_generate_no_matches_insight profile),
        {| OPPORTUNITIES := OPPORTUNITIES w;
           calls := calls w ++ firstn 5 pipeline_stages |}).
Proof.
  unfold valid_profile. intros Hvalid Hcatalog.
  apply andb_true_iff in Hvalid. destruct Hvalid as [Hvalues Hfields].
  apply negb_true_iff in Hvalues.
  unfold handle_form_submission. rewrite Hvalues.
  unfold bind, log, ret, KnowledgeBase.get_all_opportunities.
  destruct (StudentProfile.validate profile) as [is_valid missing_fields].
  cbn in Hfields. subst is_valid. cbn [negb OPPORTUNITIES calls].
  rewrite Hcatalog. cbn [negb].
  rewrite blank_has_ink, profile_summary_has_ink. cbn [negb].
  rewrite identify_blindspots_returns.
  fold (answer_blindspots profile).
  rewrite answer_blindspots_truthy. cbn [negb].
  rewrite match_opportunities_run. cbn [OPPORTUNITIES calls].
  fold (answer_matches profile w).
  destruct (Py.truthy (answer_matches profile w)); cbn [negb].
  - rewrite blank_has_ink, final_insight_has_ink. cbn [negb].
    unfold pipeline_stages. cbn [OPPORTUNITIES calls].
    rewrite <- !app_assoc. reflexivity.
  - unfold pipeline_stages. cbn [firstn OPPORTUNITIES calls].
    rewrite <- !app_assoc. reflexivity.
Qed.

(** The four ways a submission ends. *)
Lemma handle_cases (profile : StudentProfile.t) (w : World) :
  (Py.truthy (_validate_field_values profile) = true /\
   handle_form_submission profile w =
   (invalid_fields_response (_validate_field_values profile), w)) \/
  (valid_profile profile = false /\
   handle_form_submission profile w =
   (missing_fields_response (snd (StudentProfile.validate profile)),
    {| OPPORTUNITIES := OPPORTUNITIES w; calls := calls w ++ [CallValidate] |})) \/
  (valid_profile profile = true /\ Py.truthy (OPPORTUNITIES w) = false /\
   handle_form_submission profile w =
   (error_response knowledge_base_unavailable,
    {| OPPORTUNITIES := OPPORTUNITIES w; calls := calls w ++ [CallValidate] |})) \/
  (valid_profile profile = true /\ Py.truthy (OPPORTUNITIES w) = true /\
   handle_form_submission profile w =
   if Py.truthy (answer_matches profile w)
   then (full_response (ExplanationGenerator.generate_profile_summary profile)
           (answer_blindspots profile) (answer_matches profile w)
           (ExplanationGenerator.generate_final_insight profile
              (answer_blindspots profile) (answer_matches profile w)),
         {| OPPORTUNITIES := OPPORTUNITIES w;
            calls := calls w ++ pipeline_stages |})
   else (no_matches_response (ExplanationGenerator.generate_profile_summary profile)
           (answer_blindspots profile) (_generate_no_matches_insight profile),
         {| OPPORTUNITIES := OPPORTUNITIES w;
            calls := calls w ++ firstn 5 pipeline_stages |})).
Proof.
  destruct (Py.truthy (_validate_field_values profile)) eqn:Hvalues.
  - left. split; [reflexivity|].
    apply handle_invalid_values. intros E. rewrite E in Hvalues. discriminate.
  - right.
    destruct (fst (StudentProfile.validate profile)) eqn:Hfields.
    + assert (Hvalid : valid_profile profile = true).
      { unfold valid_profile. now rewrite Hvalues, Hfields. }
      right.
      destruct (Py.truthy (OPPORTUNITIES w)) eqn:Hcatalog.
      * right. split; [exact Hvalid|]. split; [reflexivity|].
        now apply handle_accepted.
      * left. split; [exact Hvalid|]. split; [reflexivity|].
        apply handle_empty_knowledge_base; [exact Hvalid|].
        destruct (OPPORTUNITIES w); [reflexivity | discriminate Hcatalog].
    + left. split.
      * unfold valid_profile. now rewrite Hvalues, Hfields.
      * now apply handle_rejected_missing.
Qed.

End OutcomeFacts.

(** X19.  Every submission gets a uniform answer.  It is marked valid
    exactly when the profile passes both validations and the knowledge
    base is not empty; a valid answer carries a profile summary,
    blindspots, matches and a final insight and no error of any kind; an
    answer that is not valid carries none of those and exactly one of
    invalid fields, missing fields and an error message. *)
Theorem submission_answer_is_uniform :
  forall (profile : StudentProfile.t) (w : World),
    let r := fst (ApplicationController.handle_form_submission profile w) in
    ApplicationController.valid r =
      valid_profile profile && Py.truthy (OPPORTUNITIES w) /\
    if ApplicationController.valid r
    then ApplicationController.profile_summary r <> None /\
         ApplicationController.blindspots r <> None /\
         ApplicationController.matches r <> None /\
         ApplicationController.final_insight r <> None /\
         ApplicationController.invalid_fields r = None /\
         ApplicationController.missing_fields r = None /\
         ApplicationController.error r = None
    else ApplicationController.profile_summary r = None /\
         ApplicationController.blindspots r = None /\
         ApplicationController.matches r = None /\
         ApplicationController.final_insight r = None /\
         ApplicationController.no_matches r = None /\
         ((ApplicationController.invalid_fields r <> None /\
           ApplicationController.missing_fields r = None /\
           ApplicationController.error r = None) \/
          (ApplicationController.invalid_fields r = None /\
           ApplicationController.missing_fields r <> None /\
           ApplicationController.error r = None) \/
          (ApplicationController.invalid_fields r = None /\
           ApplicationController.missing_fields r = None /\
           ApplicationController.error r <> None)).
Proof.
  intros profile w r. subst r.
  destruct (handle_cases profile w)
    as [[Hvalues E]|[[Hvalid E]|[[Hvalid [Hcatalog E]]|[Hvalid [Hcatalog E]]]]];
    rewrite E; clear E.
  - assert (Hinvalid : valid_profile profile = false).
    { unfold valid_profile. now rewrite Hvalues. }
    rewrite Hinvalid. cbn. split; [reflexivity|].
    repeat split. left. repeat split. discriminate.
  - rewrite Hvalid. cbn. split; [reflexivity|].
    repeat split. right. left. repeat split. discriminate.
  - rewrite Hvalid, Hcatalog. cbn. split; [reflexivity|].
    repeat split. right. right. repeat split. discriminate.
  - rewrite Hvalid, Hcatalog.
    destruct (Py.truthy (answer_matches profile w)); cbn;
      (split; [reflexivity|]); repeat split; discriminate.
Qed.

(** X20.  A submission that passes validation and finds a knowledge base
    that is not empty is answered from the pipeline alone: the summary is
    the generated one, the blindspots are those [identify_blindspots]
    returns for the analysis of the profile, the matches are those
    [match_opportunities] returns for them, and the insight is the
    generated one, or the no-matches message (with the no-matches flag)
    when nothing matches.  None of the fallback templates is used. *)
Theorem accepted_submission_uses_no_fallback :
  forall (profile : StudentProfile.t) (w : World),
    valid_profile profile = true ->
    OPPORTUNITIES w <> [] ->
    let r := fst (ApplicationController.handle_form_submission profile w) in
    exists (spots : list Blindspot.t) (found : list OpportunityMatch.t),
      BlindspotIdentifier.identify_blindspots profile (ProfileAnalyzer.analyze profile)
        = Py.Returned spots /\
      found = fst (OpportunityMatcher.match_opportunities profile
                     (ProfileAnalyzer.analyze profile) spots w) /\
      ApplicationController.profile_summary r =
        Some (ExplanationGenerator.generate_profile_summary profile) /\
      ApplicationController.blindspots r = Some spots /\
      ApplicationController.matches r = Some found /\
      ApplicationController.final_insight r =
        Some (if Py.truthy found
              then ExplanationGenerator.generate_final_insight profile spots found
              else ApplicationController._generate_no_matches_insight profile) /\
      ApplicationController.no_matches r =
        (if Py.truthy found then None else Some true).
Proof.
  intros profile w Hvalid Hcatalog r. subst r.
  assert (Htruthy : Py.truthy (OPPORTUNITIES w) = true).
  { destruct (OPPORTUNITIES w); [congruence | reflexivity]. }
  rewrite (handle_accepted profile w Hvalid Htruthy).
  exists (answer_blindspots profile), (answer_matches profile w).
  split; [apply identify_blindspots_returns|].
  split; [now rewrite match_opportunities_run|].
  destruct (answer_matches profile w) as [|m rest] eqn:E; cbn; repeat split.
Qed.

Lemma accepted_submission_uses_no_fallback_witness :
  exists (spots : list Blindspot.t) (found : list OpportunityMatch.t),
    ApplicationController.blindspots
      (fst (ApplicationController.handle_form_submission sample_profile initial_world))
    = Some spots /\
    ApplicationController.matches
      (fst (ApplicationController.handle_form_submission sample_profile initial_world))
    = Some found.
Proof.
  destruct (accepted_submission_uses_no_fallback sample_profile initial_world)
    as [spots [found [_ [_ [_ [Hspots [Hfound _]]]]]]].
  - reflexivity.
  - discriminate.
  - exists spots, found. split; assumption.
Defined.

(** X21.  The generic message for an unexpected error is never returned:
    whatever the profile and the process state, the only error message a
    submission can be answered with is the one for an unavailable
    knowledge base, and only when the knowledge base is empty. *)
Theorem unexpected_error_is_never_returned :
  forall (profile : StudentProfile.t) (w : World),
    let r := fst (ApplicationController.handle_form_submission profile w) in
    ApplicationController.error r <> Some ApplicationController.unexpected_error /\
    (ApplicationController.error r = None \/
     (ApplicationController.error r =
        Some ApplicationController.knowledge_base_unavailable /\
      OPPORTUNITIES w = [])).
Proof.
  intros profile w r. subst r.
  destruct (handle_cases profile w)
    as [[Hvalues E]|[[Hvalid E]|[[Hvalid [Hcatalog E]]|[Hvalid [Hcatalog E]]]]];
    rewrite E; clear E.
  - cbn. split; [discriminate | now left].
  - cbn. split; [discriminate | now left].
  - cbn. split; [discriminate|]. right. split; [reflexivity|].
    destruct (OPPORTUNITIES w); [reflexivity | discriminate Hcatalog].
  - destruct (Py.truthy (answer_matches profile w)); cbn;
      (split; [discriminate | now left]).
Qed.

(** X22.  A submission never changes the knowledge base, and the
    components are called in pipeline order: the calls made are the first
    [k] of validation, analysis, summary, blindspot identification,
    matching and final insight, with [k] at most 1 when the answer is not
    valid (no analysis or scoring for a rejected submission) and at least
    5 when it is. *)
Theorem submission_calls_follow_the_pipeline :
  forall (profile : StudentProfile.t) (w : World),
    let outcome := ApplicationController.handle_form_submission profile w in
    OPPORTUNITIES (snd outcome) = OPPORTUNITIES w /\
    exists k : nat,
      calls (snd outcome) = calls w ++ firstn k pipeline_stages /\
      if ApplicationController.valid (fst outcome) then (5 <= k)%nat else (k <= 1)%nat.
Proof.
  intros profile w outcome. subst outcome.
  destruct (handle_cases profile w)
    as [[Hvalues E]|[[Hvalid E]|[[Hvalid [Hcatalog E]]|[Hvalid [Hcatalog E]]]]];
    rewrite E; clear E.
  - split; [reflexivity|]. exists 0%nat. cbn. rewrite app_nil_r. split; [reflexivity | lia].
  - split; [reflexivity|]. exists 1%nat. cbn. split; [reflexivity | lia].
  - split; [reflexivity|]. exists 1%nat. cbn. split; [reflexivity | lia].
  - destruct (Py.truthy (answer_matches profile w)); (split; [reflexivity|]).
    + exists 6%nat. cbn. split; [reflexivity | lia].
    + exists 5%nat. cbn. split; [reflexivity | lia].
Qed.

(** X23.  With the knowledge base the package ships, every profile that
    passes validation gets the full answer: three to five blindspots, two
    or three matches, each for an opportunity the profile is eligible
    for, the generated insight, no no-matches flag, and all six pipeline
    stages called. *)
Theorem shipped_catalog_answers_every_valid_profile :
  forall (profile : StudentProfile.t) (w : World),
    valid_profile profile = true ->
    OPPORTUNITIES w = KnowledgeBase.initial_OPPORTUNITIES ->
    let outcome := ApplicationController.handle_form_submission profile w in
    exists (spots : list Blindspot.t) (found : list OpportunityMatch.t),
      fst outcome =
        ApplicationController.full_response
          (ExplanationGenerator.generate_profile_summary profile) spots found
          (ExplanationGenerator.generate_final_insight profile spots found) /\
      (3 <= List.length spots <= 5)%nat /\
      (2 <= List.length found <= 3)%nat /\
      Forall (fun m => OpportunityMatcher.is_eligible profile
                         (Opportunity.eligibility_criteria
                            (OpportunityMatch.opportunity m)) = true) found /\
      calls (snd outcome) = calls w ++ pipeline_stages.
Proof.
  intros profile w Hvalid Hshipped outcome. subst outcome.
  assert (Htruthy : Py.truthy (OPPORTUNITIES w) = true) by now rewrite Hshipped.
  rewrite (handle_accepted profile w Hvalid Htruthy).
  assert (Hfound : (2 <= List.length (answer_matches profile w) <= 3)%nat).
  { unfold answer_matches.
    rewrite length_firstn, sort_desc_length, length_map, Hshipped.
    pose proof (initial_catalog_yields_two profile). lia. }
  exists (answer_blindspots profile), (answer_matches profile w).
  destruct (answer_matches profile w) as [|m rest] eqn:E; [cbn in Hfound; lia|].
  cbn [Py.truthy fst snd calls].
  split; [reflexivity|].
  split.
  { unfold answer_blindspots. rewrite length_firstn, sort_desc_length.
    pose proof (accumulated_length profile (ProfileAnalyzer.analyze profile)). lia. }
  split; [exact Hfound|].
  split; [|reflexivity].
  rewrite <- E. unfold answer_matches.
  apply Forall_firstn.
  eapply Permutation_Forall; [apply sort_desc_perm|].
  apply Forall_map. cbn. apply eligible_opportunities_eligible.
Qed.

Lemma shipped_catalog_answers_every_valid_profile_witness :
  calls (snd (ApplicationController.handle_form_submission sample_profile
                initial_world)) = pipeline_stages.
Proof.
  destruct (shipped_catalog_answers_every_valid_profile sample_profile initial_world)
    as [spots [found [_ [_ [_ [_ Hcalls]]]]]].
  - reflexivity.
  - reflexivity.
  - exact Hcalls.
Defined.
(** ** Generated texts *)

Section GeneratedTextFacts.

Lemma prefix_refl (s : string) : String.prefix s s = true.
Proof.
  induction s as [|c s IH]; [reflexivity|].
  cbn. destruct (ascii_dec c c); [exact IH | congruence].
Qed.

Lemma contains_refl (s : string) : Py.contains s s = true.
Proof. destruct s; [reflexivity|]. cbn [Py.contains]. now rewrite prefix_refl. Qed.

Lemma contains_cat_first (needle first : string) (rest : list string) :
  Py.contains needle first = true ->
  Py.contains needle (Py.cat (first :: rest)) = true.
Proof.
  intros H. unfold Py.cat. cbn [String.concat].
  destruct rest; [assumption|]. now apply contains_append_l.
Qed.

Lemma contains_concat (sep needle : string) (pieces : list string) :
  (exists piece, In piece pieces /\ Py.contains needle piece = true) ->
  Py.contains needle (String.concat sep pieces) = true.
Proof.
  induction pieces as [|p rest IH]; intros [piece [Hin Hc]]; [destruct Hin|].
  cbn [String.concat]. destruct Hin as [<-|Hin].
  - destruct rest; [assumption|]. now apply contains_append_l.
  - destruct rest as [|q rest]; [destruct Hin|].
    apply contains_append_r, contains_append_r, IH.
    exists piece. now split.
Qed.

Lemma contains_cat (needle : string) (pieces : list string) :
  (exists piece, In piece pieces /\ Py.contains needle piece = true) ->
  Py.contains needle (Py.cat pieces) = true.
Proof. apply contains_concat. Qed.

Lemma contains_join_member (sep : string) (x : string) (xs : list string) :
  In x xs -> Py.contains x (Py.join sep xs) = true.
Proof.
  intros Hin. apply contains_concat. exists x. split; [exact Hin|].
  apply contains_refl.
Qed.

End GeneratedTextFacts.

(** Finds the piece of a nested f-string that is the text looked for. *)
Ltac in_this_piece :=
  apply contains_cat; eexists; split;
  [ | apply contains_refl ];
  cbn [In]; solve [repeat (first [left; reflexivity | right])].

Ltac in_some_piece :=
  first [ in_this_piece | apply contains_cat_first; in_some_piece ].

(** X24.  The profile summary shows what the student entered: it contains
    the name, the education level, the degree, the field of study, the
    institution type, every background indicator and every goal of the
    profile. *)
Theorem profile_summary_shows_the_profile :
  forall profile : StudentProfile.t,
    let summary := ExplanationGenerator.generate_profile_summary profile in
    Py.contains (StudentProfile.name profile) summary = true /\
    Py.contains (EducationLevel.value (StudentProfile.education_level profile))
      summary = true /\
    Py.contains (StudentProfile.degree profile) summary = true /\
    Py.contains (StudentProfile.field_of_study profile) summary = true /\
    Py.contains (InstitutionType.value (StudentProfile.institution_type profile))
      summary = true /\
    Forall (fun indicator =>
              Py.contains (BackgroundIndicator.value indicator) summary = true)
           (StudentProfile.background_indicators profile) /\
    Forall (fun goal => Py.contains (OpportunityGoal.value goal) summary = true)
           (StudentProfile.opportunity_goals profile).
Proof.
  intros profile summary. subst summary.
  unfold ExplanationGenerator.generate_profile_summary. cbv zeta.
  repeat split.
  - destruct (0 <? _)%nat; in_some_piece.
  - destruct (0 <? _)%nat; in_some_piece.
  - destruct (0 <? _)%nat; in_some_piece.
  - destruct (0 <? _)%nat; in_some_piece.
  - destruct (0 <? _)%nat; in_some_piece.
  - apply Forall_forall. intros indicator Hin.
    apply contains_cat_first.
    destruct (StudentProfile.background_indicators profile) as [|b rest] eqn:E;
      [destruct Hin|].
    cbn [List.length Nat.ltb Nat.leb].
    apply contains_cat. eexists. split; [right; right; left; reflexivity|].
    apply contains_join_member. now apply in_map.
  - apply Forall_forall. intros goal Hin.
    apply contains_cat. eexists. split; [right; right; left; reflexivity|].
    apply contains_join_member. now apply in_map.
Qed.

(** X25.  The final insight always names awareness as the barrier and as
    the first step; it suggests setting up alerts exactly when the student
    has missed opportunities many times; and it speaks of scholarship
    opportunities exactly when some blindspot category mentions
    scholarships. *)
Theorem final_insight_is_tailored :
  forall (profile : StudentProfile.t) (spots : list Blindspot.t)
         (found : list OpportunityMatch.t),
    let insight := ExplanationGenerator.generate_final_insight profile spots found in
    Py.contains "The main barrier isn't your eligibility" insight = true /\
    Py.contains "Awareness is the first step to opportunity." insight = true /\
    (Py.contains "alerts" insight = true <->
     StudentProfile.missed_opportunities_before profile =
     MissedOpportunityFrequency.YES_MANY_TIMES) /\
    (Py.contains "scholarship opportunities" insight = true <->
     Py.contains "scholarship"
       (Py.lower (Py.join " " (map Blindspot.category spots))) = true).
Proof.
  intros profile spots found insight. subst insight.
  unfold ExplanationGenerator.generate_final_insight. cbv zeta.
  generalize (Py.contains "scholarship"
                (Py.lower (Py.join " " (map Blindspot.category spots)))).
  generalize (Py.contains "research"
                (Py.lower (Py.join " " (map Blindspot.category spots))) ||
              Py.contains "internship"
                (Py.lower (Py.join " " (map Blindspot.category spots)))).
  intros other scholarship.
  destruct scholarship, other, (StudentProfile.missed_opportunities_before profile);
    vm_compute; repeat split; intros H; try reflexivity; discriminate H.
Qed.
(** ** The JSON matcher *)

Section JsonFacts.
Import JSONOpportunityMatcher.

Lemma get_setitem_same (d : Dict) (key : string) (value default : Json) :
  get (setitem d key value) key default = value.
Proof.
  induction d as [|[k v] rest IH]; cbn.
  - now rewrite String.eqb_refl.
  - destruct (String.eqb k key) eqn:E; cbn; rewrite E; [reflexivity | exact IH].
Qed.

Lemma get_setitem_other (d : Dict) (key other : string) (value default : Json) :
  other <> key ->
  get (setitem d key value) other default = get d other default.
Proof.
  intros Hne. induction d as [|[k v] rest IH]; cbn.
  - destruct (String.eqb key other) eqn:E; [|reflexivity].
    apply String.eqb_eq in E. congruence.
  - destruct (String.eqb k key) eqn:E; cbn.
    + apply String.eqb_eq in E. subst k.
      destruct (String.eqb key other) eqn:E'; [|reflexivity].
      apply String.eqb_eq in E'. congruence.
    + destruct (String.eqb k other); [reflexivity | exact IH].
Qed.

Lemma exact_match_when_not_rejected (student opportunity : Dict)
  (opp_key student_key : string) :
  rejects student opportunity opp_key student_key = false ->
  matches_exactly student opportunity opp_key student_key =
  constrains opportunity opp_key.
Proof.
  unfold rejects, matches_exactly, constrains.
  destruct (negb (eqb (get opportunity opp_key Any) Any)); cbn; [|reflexivity].
  destruct (eqb (get opportunity opp_key Any) (get student student_key JNull));
    [reflexivity | discriminate].
Qed.

Lemma exact_match_implies_constraint (student opportunity : Dict)
  (opp_key student_key : string) :
  matches_exactly student opportunity opp_key student_key = true ->
  constrains opportunity opp_key = true.
Proof.
  unfold matches_exactly, constrains. intros H. now apply andb_true_iff in H.
Qed.

Lemma eligible_iff_nothing_rejects (student opportunity : Dict) :
  is_eligible student opportunity = true <->
  rejects student opportunity "education_level" "education_level" = false /\
  rejects student opportunity "eligible_fields" "field" = false /\
  rejects student opportunity "target_year" "year" = false /\
  rejects student opportunity "institution_type" "institution_type" = false /\
  rejects student opportunity "background_priority" "background" = false.
Proof.
  unfold is_eligible.
  destruct (rejects student opportunity "education_level" "education_level"),
           (rejects student opportunity "eligible_fields" "field"),
           (rejects student opportunity "target_year" "year"),
           (rejects student opportunity "institution_type" "institution_type"),
           (rejects student opportunity "background_priority" "background");
    intuition congruence.
Qed.

Lemma collect_json_eligible (student : Dict) (opportunities found : list Dict) :
  fold_left
    (fun eligible_opportunities opportunity =>
       if is_eligible student opportunity
       then eligible_opportunities ++ [with_score student opportunity]
       else eligible_opportunities)
    opportunities found =
  found ++ map (with_score student) (json_eligible student opportunities).
Proof.
  revert found. induction opportunities as [|o rest IH]; intros found; cbn.
  - now rewrite app_nil_r.
  - rewrite IH. destruct (is_eligible student o); cbn.
    + now rewrite <- app_assoc.
    + reflexivity.
Qed.

Lemma match_opportunities_sorted_map (opportunities : list Dict) (student : Dict) :
  match_opportunities opportunities student =
  Py.sort_desc matching_score
    (map (with_score student) (json_eligible student opportunities)).
Proof. unfold match_opportunities. now rewrite collect_json_eligible. Qed.

Lemma score_of_eligible (student opportunity : Dict) :
  is_eligible student opportunity = true ->
  calculate_score student opportunity = (specificity opportunity + boost opportunity)%Z.
Proof.
  intros H. apply eligible_iff_nothing_rejects in H.
  destruct H as (H1 & H2 & H3 & H4 & H5).
  unfold calculate_score.
  rewrite !exact_match_when_not_rejected by assumption.
  unfold specificity, boost. cbn [map].
  destruct (constrains opportunity "education_level"),
           (constrains opportunity "eligible_fields"),
           (constrains opportunity "target_year"),
           (constrains opportunity "institution_type"),
           (constrains opportunity "background_priority"),
           (eqb (get opportunity "awareness_level" JNull) (JStr "Low")),
           (eqb (get opportunity "miss_probability" JNull) (JStr "High"));
    reflexivity.
Qed.

Lemma score_bounds (student opportunity : Dict) :
  (0 <= calculate_score student opportunity <= 7)%Z /\
  (calculate_score student opportunity <= specificity opportunity + boost opportunity)%Z.
Proof.
  unfold calculate_score, specificity, boost. cbn [map].
  pose proof (exact_match_implies_constraint student opportunity
                "education_level" "education_level") as H1.
  pose proof (exact_match_implies_constraint student opportunity
                "eligible_fields" "field") as H2.
  pose proof (exact_match_implies_constraint student opportunity
                "target_year" "year") as H3.
  pose proof (exact_match_implies_constraint student opportunity
                "institution_type" "institution_type") as H4.
  pose proof (exact_match_implies_constraint student opportunity
                "background_priority" "background") as H5.
  destruct (matches_exactly student opportunity "education_level" "education_level");
    [rewrite (H1 eq_refl)|clear H1];
  (destruct (matches_exactly student opportunity "eligible_fields" "field");
    [rewrite (H2 eq_refl)|clear H2]);
  (destruct (matches_exactly student opportunity "target_year" "year");
    [rewrite (H3 eq_refl)|clear H3]);
  (destruct (matches_exactly student opportunity "institution_type" "institution_type");
    [rewrite (H4 eq_refl)|clear H4]);
  (destruct (matches_exactly student opportunity "background_priority" "background");
    [rewrite (H5 eq_refl)|clear H5]);
  destruct (eqb (get opportunity "awareness_level" JNull) (JStr "Low")),
           (eqb (get opportunity "miss_probability" JNull) (JStr "High"));
  repeat match goal with
         | |- context [constrains ?o ?k] => destruct (constrains o k)
         end;
  cbn; lia.
Qed.

End JsonFacts.

(** X26.  The score of the JSON matcher lies between 0 and 7, and for an
    opportunity the student is eligible for it does not depend on the
    student at all: it is the number of constraints the opportunity sets
    plus its blindspot boost.  For any other opportunity it is at most
    that. *)
Theorem json_score_of_an_eligible_opportunity_ignores_the_student :
  forall student opportunity : JSONOpportunityMatcher.Dict,
    let score := JSONOpportunityMatcher.calculate_score student opportunity in
    (0 <= score <= 7)%Z /\
    (score <= specificity opportunity + boost opportunity)%Z /\
    (JSONOpportunityMatcher.is_eligible student opportunity = true ->
     score = (specificity opportunity + boost opportunity)%Z).
Proof.
  intros student opportunity score. subst score.
  destruct (score_bounds student opportunity) as [Hrange Hle].
  split; [exact Hrange|]. split; [exact Hle|].
  apply score_of_eligible.
Qed.

Lemma json_score_of_an_eligible_opportunity_ignores_the_student_witness :
  JSONOpportunityMatcher.calculate_score
    (App.student_data sample_profile)
    [("education_level", JSONOpportunityMatcher.JStr "UG");
     ("awareness_level", JSONOpportunityMatcher.JStr "Low")] = 2%Z.
Proof.
  refine (proj2 (proj2
    (json_score_of_an_eligible_opportunity_ignores_the_student
       (App.student_data sample_profile)
       [("education_level", JSONOpportunityMatcher.JStr "UG");
        ("awareness_level", JSONOpportunityMatcher.JStr "Low")])) _).
  reflexivity.
Defined.

(** X27.  The JSON matcher returns one entry for each opportunity the
    student is eligible for and nothing else; each entry is the
    opportunity with its score; the entries are in descending order of
    score, entries of equal score in the order of the opportunity list;
    with no opportunities loaded the result is empty. *)
Theorem json_matches_are_the_eligible_opportunities_ranked :
  forall (opportunities : list JSONOpportunityMatcher.Dict)
         (student : JSONOpportunityMatcher.Dict),
    let result := JSONOpportunityMatcher.match_opportunities opportunities student in
    stable_sorted_desc JSONOpportunityMatcher.matching_score
      (map (JSONOpportunityMatcher.with_score student)
           (json_eligible student opportunities))
      result /\
    List.length result = List.length (json_eligible student opportunities) /\
    Forall (fun entry =>
              exists opportunity,
                In opportunity opportunities /\
                JSONOpportunityMatcher.is_eligible student opportunity = true /\
                entry = JSONOpportunityMatcher.with_score student opportunity)
           result /\
    JSONOpportunityMatcher.match_opportunities [] student = [].
Proof.
  intros opportunities student result. subst result.
  rewrite match_opportunities_sorted_map.
  split; [apply sort_desc_stable|].
  split; [now rewrite sort_desc_length, length_map|].
  split; [|reflexivity].
  eapply Permutation_Forall; [apply sort_desc_perm|].
  apply Forall_map, Forall_forall. intros o Ho.
  unfold json_eligible in Ho. apply filter_In in Ho.
  exists o. tauto.
Qed.

(** X28.  An entry the JSON matcher returns stores the score under the
    key matching_score, where the sort reads it, and agrees with the
    opportunity it was copied from on every other key. *)
Theorem json_entry_stores_the_score_and_keeps_the_rest :
  forall (student opportunity : JSONOpportunityMatcher.Dict)
         (key : string) (default : JSONOpportunityMatcher.Json),
    let entry := JSONOpportunityMatcher.with_score student opportunity in
    JSONOpportunityMatcher.get entry "matching_score" default =
      JSONOpportunityMatcher.JInt
        (JSONOpportunityMatcher.calculate_score student opportunity) /\
    JSONOpportunityMatcher.matching_score entry =
      inject_Z (JSONOpportunityMatcher.calculate_score student opportunity) /\
    (key <> "matching_score" ->
     JSONOpportunityMatcher.get entry key default =
     JSONOpportunityMatcher.get opportunity key default).
Proof.
  intros student opportunity key default entry. subst entry.
  unfold JSONOpportunityMatcher.with_score.
  split; [apply get_setitem_same|].
  split.
  - unfold JSONOpportunityMatcher.matching_score. now rewrite get_setitem_same.
  - intros Hne. now apply get_setitem_other.
Qed.

Lemma json_entry_stores_the_score_and_keeps_the_rest_witness :
  JSONOpportunityMatcher.get
    (JSONOpportunityMatcher.with_score (App.student_data sample_profile)
       [("category", JSONOpportunityMatcher.JStr "Scholarship")])
    "category" JSONOpportunityMatcher.JNull =
  JSONOpportunityMatcher.JStr "Scholarship".
Proof.
  refine (proj2 (proj2
    (json_entry_stores_the_score_and_keeps_the_rest
       (App.student_data sample_profile)
       [("category", JSONOpportunityMatcher.JStr "Scholarship")]
       "category" JSONOpportunityMatcher.JNull)) _).
  discriminate.
Defined.

(** ** Preparing the student data *)

Section StudentDataFacts.
Import App.

Lemma first_priority_values (indicators : list BackgroundIndicator.t) :
  In (first_priority indicators) ["Financial Need"; "Rural"; "Any"].
Proof.
  induction indicators as [|i rest IH]; [cbn; tauto|].
  destruct i; cbn; tauto.
Qed.

Lemma first_priority_any_iff (indicators : list BackgroundIndicator.t) :
  first_priority indicators = "Any" <->
  Forall (fun i => i = BackgroundIndicator.DISABLED \/ i = BackgroundIndicator.MINORITY)
         indicators.
Proof.
  induction indicators as [|i rest IH]; [split; [constructor | reflexivity]|].
  destruct i.
  - change (first_priority (BackgroundIndicator.RURAL :: rest)) with "Rural".
    split; [discriminate|].
    intros H. inversion H as [|? ? [E|E] _]; discriminate E.
  - change (first_priority (BackgroundIndicator.FIRST_GENERATION :: rest))
      with "Financial Need".
    split; [discriminate|].
    intros H. inversion H as [|? ? [E|E] _]; discriminate E.
  - change (first_priority (BackgroundIndicator.FINANCIAL_SUPPORT :: rest))
      with "Financial Need".
    split; [discriminate|].
    intros H. inversion H as [|? ? [E|E] _]; discriminate E.
  - change (first_priority (BackgroundIndicator.DISABLED :: rest))
      with (first_priority rest).
    rewrite IH. split; intros H.
    + constructor; [now left | exact H].
    + now inversion H.
  - change (first_priority (BackgroundIndicator.MINORITY :: rest))
      with (first_priority rest).
    rewrite IH. split; intros H.
    + constructor; [now right | exact H].
    + now inversion H.
Qed.

End StudentDataFacts.

(** X29.  The year label handed to the JSON matcher is Any exactly for a
    year that is not positive; every year that passes validation is
    labelled 1st, 2nd, 3rd or Final, and every year from 4 on is Final. *)
Theorem year_label_is_any_only_for_non_positive_years :
  forall year : Z,
    (App._convert_year_to_string year = "Any" <-> (year <= 0)%Z) /\
    In (App._convert_year_to_string year) ["1st"; "2nd"; "3rd"; "Final"; "Any"] /\
    ((4 <= year)%Z -> App._convert_year_to_string year = "Final").
Proof.
  intros year. unfold App._convert_year_to_string.
  destruct (Z.eqb_spec year 1) as [->|H1]; [cbn; repeat split; try tauto; try lia; discriminate|].
  destruct (Z.eqb_spec year 2) as [->|H2]; [cbn; repeat split; try tauto; try lia; discriminate|].
  destruct (Z.eqb_spec year 3) as [->|H3]; [cbn; repeat split; try tauto; try lia; discriminate|].
  destruct (Z.geb_spec year 4) as [H4|H4]; cbn; repeat split; try tauto; try lia;
    discriminate.
Qed.

Lemma year_label_is_any_only_for_non_positive_years_witness :
  App._convert_year_to_string 7 = "Final".
Proof.
  refine (proj2 (proj2 (year_label_is_any_only_for_non_positive_years 7)) _). lia.
Defined.

(** X30.  Normalising the field of study is idempotent, and its result
    is Engineering, Science or Commerce or else the field as given. *)
Theorem normalize_field_of_study_is_idempotent :
  forall field : string,
    App._normalize_field_of_study (App._normalize_field_of_study field) =
    App._normalize_field_of_study field /\
    (In (App._normalize_field_of_study field) ["Engineering"; "Science"; "Commerce"] \/
     App._normalize_field_of_study field = field).
Proof.
  intros field.
  unfold App._normalize_field_of_study at 2 3 4 5.
  destruct (Py.any _ ["engineering"; "engineer"; "tech"; "b.tech"; "btech"]) eqn:E1;
    [split; [vm_compute; reflexivity | left; cbn; auto]|].
  destruct (Py.any _ ["science"; "physics"; "chemistry"; "biology"; "bsc"; "b.sc"])
    eqn:E2; [split; [vm_compute; reflexivity | left; cbn; auto]|].
  destruct (Py.any _ ["commerce"; "bcom"; "b.com"; "accounting"; "finance"]) eqn:E3;
    [split; [vm_compute; reflexivity | left; cbn; auto]|].
  destruct (Py.any _ ["computer"; "cs"; "it"; "information technology"]) eqn:E4;
    [split; [vm_compute; reflexivity | left; cbn; auto]|].
  split; [|now right].
  unfold App._normalize_field_of_study. now rewrite E1, E2, E3, E4.
Qed.

Section PrimaryBackgroundFacts.
Import App.

Lemma first_priority_skips (skipped rest : list BackgroundIndicator.t) :
  Forall (fun i => i = BackgroundIndicator.DISABLED \/ i = BackgroundIndicator.MINORITY)
         skipped ->
  first_priority (skipped ++ rest) = first_priority rest.
Proof.
  intros H. induction H as [|i skipped [->| ->] _ IH]; [reflexivity| |]; exact IH.
Qed.

Lemma reads_female_iff (gender : option string) :
  match gender with
  | Some g => Py.truthy_str g && String.eqb (Py.lower g) "female"
  | None => false
  end = true <->
  exists g, gender = Some g /\ Py.lower g = "female".
Proof.
  destruct gender as [g|].
  - rewrite andb_true_iff, String.eqb_eq. split.
    + intros [_ H]. now exists g.
    + intros [g' [E H]]. injection E as <-. split; [|exact H].
      destruct g; [discriminate H | reflexivity].
  - split; [discriminate|]. intros [g [E _]]. discriminate E.
Qed.

End PrimaryBackgroundFacts.

(** X3.  The background handed to the JSON matcher is Women exactly when
    the gender reads female in any letter case; otherwise the first
    indicator other than Disabled and Minority decides, Rural giving Rural
    and Financial support or First-generation giving Financial Need, and
    the background is Any exactly when there is no such indicator. *)
Theorem primary_background_follows_gender_then_first_indicator :
  forall (background_indicators : list BackgroundIndicator.t)
         (gender : option string),
    let background := App._get_primary_background background_indicators gender in
    In background ["Women"; "Financial Need"; "Rural"; "Any"] /\
    (background = "Women" <->
     exists g, gender = Some g /\ Py.lower g = "female") /\
    ((forall g, gender = Some g -> Py.lower g <> "female") ->
     (background = "Any" <->
      Forall (fun i => i = BackgroundIndicator.DISABLED \/
                       i = BackgroundIndicator.MINORITY) background_indicators) /\
     forall skipped first rest,
       background_indicators = skipped ++ first :: rest ->
       Forall (fun i => i = BackgroundIndicator.DISABLED \/
                        i = BackgroundIndicator.MINORITY) skipped ->
       first <> BackgroundIndicator.DISABLED ->
       first <> BackgroundIndicator.MINORITY ->
       background =
       match first with
       | BackgroundIndicator.RURAL => "Rural"
       | _ => "Financial Need"
       end).
Proof.
  intros background_indicators gender background. subst background.
  unfold App._get_primary_background.
  pose proof (reads_female_iff gender) as Hfemale.
  destruct (match gender with Some _ => _ | None => _ end).
  - split; [cbn; tauto|].
    split; [split; [intros _; now apply Hfemale | reflexivity]|].
    intros Hnot. exfalso.
    destruct (proj1 Hfemale eq_refl) as [g [E H]]. exact (Hnot g E H).
  - assert (Hrest : (if negb (Py.truthy background_indicators) then "Any"
                     else App.first_priority background_indicators) =
                    App.first_priority background_indicators).
    { destruct background_indicators; reflexivity. }
    rewrite Hrest. clear Hrest.
    pose proof (first_priority_values background_indicators) as Hvalues.
    split; [cbn in *; tauto|].
    split.
    { split.
      - intros E. rewrite E in Hvalues. cbn in Hvalues.
        repeat (destruct Hvalues as [Hvalues|Hvalues]; [discriminate Hvalues|]).
        destruct Hvalues.
      - intros H. apply Hfemale in H. discriminate H. }
    intros _. split; [apply first_priority_any_iff|].
    intros skipped first rest -> Hskipped Hd Hm.
    rewrite first_priority_skips by exact Hskipped.
    destruct first; try reflexivity; congruence.
Qed.

Lemma primary_background_follows_gender_then_first_indicator_witness :
  App._get_primary_background
    [BackgroundIndicator.DISABLED; BackgroundIndicator.RURAL;
     BackgroundIndicator.FINANCIAL_SUPPORT] None = "Rural".
Proof.
  refine (proj2 (proj2 (proj2
    (primary_background_follows_gender_then_first_indicator
       [BackgroundIndicator.DISABLED; BackgroundIndicator.RURAL;
        BackgroundIndicator.FINANCIAL_SUPPORT] None)) _)
    [BackgroundIndicator.DISABLED] BackgroundIndicator.RURAL
    [BackgroundIndicator.FINANCIAL_SUPPORT] eq_refl _ _ _).
  - intros g E. discriminate E.
  - repeat constructor.
  - discriminate.
  - discriminate.
Defined.
